(** * Ishiiruka video subsystem: caches and dirty-state tracking

    A shallow embedding of the cache and dirty-tracking code of the
    GameCube/Wii emulator's video subsystem:

    - [TexConfig]: [TextureCacheBase::TCacheEntryConfig] (size, equality, hash);
    - [TexCache]: frame-age eviction of [TextureCacheBase::Cleanup];
    - [ObjCache]: [Vulkan::ObjectCache] pipeline and shader-module caches;
    - [VSM]: [VertexShaderManager] dirty intervals over transform memory;
    - [OGLTexCache]: [OGL::TextureCache::LoadLut];
    - [VkStateTracker]: [Vulkan::StateTracker] dirty flags.

    Machine integers are [Z] with the wrap-around written out.  Calls into
    the graphics API, the shader compiler and the hash library are interfaces
    (type classes); what the code asks of them is recorded in explicit logs.
    The first part of the file holds the definitions, the second the facts
    proved about them. *)

From Stdlib Require Import ZArith Lia Bool List.
From stdpp Require Import base option list gmap.

Local Open Scope Z_scope.

(** ** Fixed-width arithmetic *)

Definition u32 (z : Z) : Z := z mod 2 ^ 32.
Definition u64 (z : Z) : Z := z mod 2 ^ 64.

(** Conversion of a 32-bit value to [int] (two's complement). *)
Definition s32 (z : Z) : Z :=
  let r := z mod 2 ^ 32 in if r <? 2 ^ 31 then r else r - 2 ^ 32.

Definition b2z (b : bool) : Z := if b then 1 else 0.

(** Vulkan handles; [VK_NULL_HANDLE] is zero. *)
Definition VK_NULL_HANDLE : Z := 0.

(** ** TCacheEntryConfig *)

Module TexConfig.

(** [TextureCacheBase::TCacheEntryConfig]; [pcformat] holds the value of
    the [PC_TexFormat] enumerator. *)
Record TCacheEntryConfig := {
  width : Z;
  height : Z;
  levels : Z;
  layers : Z;
  rendertarget : bool;
  materialmap : bool;
  pcformat : Z
}.

(** The enumerators of [PC_TexFormat] named by [GetSizeInBytes]; the
    enumeration itself is declared in TextureDecoder.h. *)
Class PC_TexFormat := {
  PC_TEX_FMT_BGRA32 : Z;
  PC_TEX_FMT_RGBA32 : Z;
  PC_TEX_FMT_IA4_AS_IA8 : Z;
  PC_TEX_FMT_IA8 : Z;
  PC_TEX_FMT_RGB565 : Z;
  PC_TEX_FMT_DXT1 : Z;
  PC_TEX_FMT_DXT3 : Z;
  PC_TEX_FMT_DXT5 : Z
}.

(** [(x + 3) & (~3)] on [u32]: [~3] is the [int] -4, converted to
    unsigned for the [&]. *)
Definition round_up4 (x : Z) : Z := Z.land (u32 (x + 3)) (u32 (Z.lnot 3)).

(** [(x + 3) >> 2] on [u32]. *)
Definition blocks4 (x : Z) : Z := Z.shiftr (u32 (x + 3)) 2.

(** One group of [case] labels. *)
Definition is_fmt (f : Z) (labels : list Z) : bool := existsb (Z.eqb f) labels.

(** The [switch (pcformat)] of [GetSizeInBytes]. *)
Definition base_size `{PC_TexFormat} (c : TCacheEntryConfig) : Z :=
  let w := width c in
  let h := height c in
  if is_fmt (pcformat c) [PC_TEX_FMT_BGRA32; PC_TEX_FMT_RGBA32] then
    u32 (u32 (round_up4 w * round_up4 h) * 4)
  else if is_fmt (pcformat c)
            [PC_TEX_FMT_IA4_AS_IA8; PC_TEX_FMT_IA8; PC_TEX_FMT_RGB565] then
    u32 (u32 (round_up4 w * round_up4 h) * 2)
  else if is_fmt (pcformat c) [PC_TEX_FMT_DXT1] then
    u32 (u32 (blocks4 w * blocks4 h) * 8)
  else if is_fmt (pcformat c) [PC_TEX_FMT_DXT3; PC_TEX_FMT_DXT5] then
    u32 (u32 (blocks4 w * blocks4 h) * 16)
  else 0.

Definition GetSizeInBytes `{PC_TexFormat} (c : TCacheEntryConfig) : Z :=
  let result := base_size c in
  let result :=
    if (1 <? levels c) || rendertarget c
    then u32 (result + u32 (result * 2)) else result in
  let result := if materialmap c then u32 (result * 2) else result in
  Z.max result 4096.

(** [operator==]: member-wise comparison through [std::tie]. *)
Definition config_eq (a b : TCacheEntryConfig) : bool :=
  (width a =? width b) && (height a =? height b) &&
  (levels a =? levels b) && (layers a =? layers b) &&
  Bool.eqb (rendertarget a) (rendertarget b) &&
  (pcformat a =? pcformat b) &&
  Bool.eqb (materialmap a) (materialmap b).

(** [(u64)x << n]. *)
Definition shl64 (x n : Z) : Z := u64 (Z.shiftl (u64 x) n).

(** [Hasher::operator()], with a 64-bit [size_t]. *)
Definition Hasher (c : TCacheEntryConfig) : Z :=
  u64 (Z.lor (Z.lor (Z.lor (Z.lor (Z.lor (Z.lor
    (shl64 (b2z (materialmap c)) 57)
    (shl64 (b2z (rendertarget c)) 56))
    (shl64 (pcformat c) 48))
    (shl64 (layers c) 40))
    (shl64 (levels c) 32))
    (shl64 (height c) 16))
    (u64 (width c))).

(** The in-range configurations of the hash: 16-bit extents, 8-bit
    level and layer counts and format. *)
Definition hash_range (c : TCacheEntryConfig) : Prop :=
  0 <= width c < 2 ^ 16 /\ 0 <= height c < 2 ^ 16 /\
  0 <= levels c < 2 ^ 8 /\ 0 <= layers c < 2 ^ 8 /\
  0 <= pcformat c < 2 ^ 8.

(** A configuration used in the examples: 640x528 RGBA with mipmaps. *)
Definition sample_config : TCacheEntryConfig :=
  {| width := 640; height := 528; levels := 3; layers := 1;
     rendertarget := false; materialmap := false; pcformat := 2 |}.

End TexConfig.

(** ** Texture cache eviction *)

Module TexCache.

(** [enum TextureCacheParams]. *)
Definition TEXHASH_INVALID : Z := 0.
Definition FRAMECOUNT_INVALID : Z := 0.
Definition TEXTURE_KILL_MULTIPLIER : Z := 2.
Definition TEXTURE_KILL_THRESHOLD : Z := 120.
Definition TEXTURE_POOL_KILL_THRESHOLD : Z := 3.
Definition TEXTURE_POOL_MEMORY_LIMIT : Z := 64 * 1024 * 1024.

(** The members of [TCacheEntryBase] that eviction looks at. *)
Record TCacheEntryBase := {
  addr : Z;
  hash : Z;
  frameCount : Z
}.

(** [std::multimap<u64, TCacheEntryBase*>], in iteration order. *)
Definition TexCacheMap : Type := list (Z * TCacheEntryBase).

(** An entry is stale at frame [f] when it has not been used for more than
    [TEXTURE_KILL_THRESHOLD] frames. *)
Definition stale (f : Z) (e : TCacheEntryBase) : bool :=
  TEXTURE_KILL_THRESHOLD + frameCount e <? f.

(** Modelled from the spec: the body of [TextureCacheBase::Cleanup]
    (TextureCacheBase.cpp) is not among the sources, only its declaration
    and the comment on it: remove the textures which have not been used for
    more than [TEXTURE_KILL_THRESHOLD] frames, [f] being the current frame
    number.  The walk over [textures_by_address] erases the stale entries
    and steps over the others. *)
Fixpoint Cleanup (f : Z) (textures_by_address : TexCacheMap) : TexCacheMap :=
  match textures_by_address with
  | [] => []
  | (key, entry) :: rest =>
      if stale f entry then Cleanup f rest
      else (key, entry) :: Cleanup f rest
  end.

(** A cache of three textures: last used at frames 10, 200 and 80. *)
Definition sample_cache : TexCacheMap :=
  [ (0x1000, {| addr := 0x1000; hash := 7; frameCount := 10 |});
    (0x2000, {| addr := 0x2000; hash := 8; frameCount := 200 |});
    (0x3000, {| addr := 0x3000; hash := 9; frameCount := 80 |}) ].

End TexCache.

(** ** Vulkan object cache *)

Module ObjCache.

(** SPIR-V binaries: [std::vector<u32>]. *)
Definition SPIRVCodeVector : Type := list Z.

(** Generated shader source text, as bytes. *)
Definition ShaderCode : Type := list Z.

(** [VkResult]; [VK_SUCCESS] is zero. *)
Definition VK_SUCCESS : Z := 0.

Inductive Stage := Vertex | Geometry | Pixel.

#[global] Instance Stage_eq_dec : EqDecision Stage.
Proof. solve_decision. Defined.

(** The Vulkan entry points the cache calls.  [Device] is whatever the
    driver keeps behind the device handle; a call returns the new driver
    state with its results.  [vkCreateGraphicsPipelines] yields the
    [VkResult] and the value left in [pipeline]; [CreateShaderModule] is
    [Util::CreateShaderModule], which yields [VK_NULL_HANDLE] on failure. *)
Class VulkanDriver (PipelineInfo Device : Type) := {
  vkCreateGraphicsPipelines : Device -> PipelineInfo -> Z * Z * Device;
  CreateShaderModule : Device -> SPIRVCodeVector -> Z * Device
}.

(** Shader generation and [ShaderCompiler::Compile*Shader], per stage:
    [GenerateVertexShaderCodeVulkan], [GenerateGeometryShaderCode] and
    [GeneratePixelShaderCodeVulkan]; [CompileShader] is [None] when the
    compiler returns false and the SPIR-V it stored otherwise. *)
Class ShaderCompiler (Uid : Type) := {
  GenerateShaderCode : Stage -> Uid -> ShaderCode;
  CompileShader : Stage -> ShaderCode -> option SPIRVCodeVector
}.

(** [ObjectCache::vkShaderItem]: [initialized] is the [std::atomic_flag]. *)
Record vkShaderItem := {
  initialized : bool;
  compiled : bool;
  module : Z
}.

(** A default-constructed item. *)
Definition new_item : vkShaderItem :=
  {| initialized := false; compiled := false; module := VK_NULL_HANDLE |}.

(** The counters of [stats] that the shader paths touch. *)
Record Statistics := {
  numVertexShadersCreated : Z;
  numVertexShadersAlive : Z;
  numPixelShadersCreated : Z;
  numPixelShadersAlive : Z
}.

Section Cache.
Context {PipelineInfo Uid Device : Type}.
Context `{Countable PipelineInfo} `{Countable Uid}.
Context `{!VulkanDriver PipelineInfo Device} `{!ShaderCompiler Uid}.

(** One of [m_vs_cache], [m_gs_cache], [m_ps_cache]: the in-memory map and
    the records appended to the [LinearDiskCache] file. *)
Record ShaderCache := {
  shader_map : gmap Uid vkShaderItem;
  disk_cache : list (Uid * SPIRVCodeVector)
}.

(** The object cache with the driver state and statistics it acts on.
    [pipeline_log] and [compile_log] record the calls made to
    [vkCreateGraphicsPipelines] and to the shader compiler. *)
Record ObjectCache := {
  m_pipeline_objects : gmap PipelineInfo Z;
  m_vs_cache : ShaderCache;
  m_gs_cache : ShaderCache;
  m_ps_cache : ShaderCache;
  device : Device;
  stats : Statistics;
  pipeline_log : list PipelineInfo;
  compile_log : list (Stage * Uid)
}.

Definition cache_of (s : Stage) (oc : ObjectCache) : ShaderCache :=
  match s with
  | Vertex => m_vs_cache oc
  | Geometry => m_gs_cache oc
  | Pixel => m_ps_cache oc
  end.

Definition set_cache (s : Stage) (c : ShaderCache) (oc : ObjectCache) : ObjectCache :=
  {| m_pipeline_objects := m_pipeline_objects oc;
     m_vs_cache := match s with Vertex => c | _ => m_vs_cache oc end;
     m_gs_cache := match s with Geometry => c | _ => m_gs_cache oc end;
     m_ps_cache := match s with Pixel => c | _ => m_ps_cache oc end;
     device := device oc;
     stats := stats oc;
     pipeline_log := pipeline_log oc;
     compile_log := compile_log oc |}.

Definition set_device (d : Device) (oc : ObjectCache) : ObjectCache :=
  {| m_pipeline_objects := m_pipeline_objects oc;
     m_vs_cache := m_vs_cache oc;
     m_gs_cache := m_gs_cache oc;
     m_ps_cache := m_ps_cache oc;
     device := d;
     stats := stats oc;
     pipeline_log := pipeline_log oc;
     compile_log := compile_log oc |}.

Definition set_stats (st : Statistics) (oc : ObjectCache) : ObjectCache :=
  {| m_pipeline_objects := m_pipeline_objects oc;
     m_vs_cache := m_vs_cache oc;
     m_gs_cache := m_gs_cache oc;
     m_ps_cache := m_ps_cache oc;
     device := device oc;
     stats := st;
     pipeline_log := pipeline_log oc;
     compile_log := compile_log oc |}.

Definition log_compile (s : Stage) (uid : Uid) (oc : ObjectCache) : ObjectCache :=
  {| m_pipeline_objects := m_pipeline_objects oc;
     m_vs_cache := m_vs_cache oc;
     m_gs_cache := m_gs_cache oc;
     m_ps_cache := m_ps_cache oc;
     device := device oc;
     stats := stats oc;
     pipeline_log := pipeline_log oc;
     compile_log := compile_log oc ++ [(s, uid)] |}.

(** [std::unordered_map::emplace]: no effect when the key is present. *)
Definition emplace {K V} `{Countable K} (k : K) (v : V) (m : gmap K V) : gmap K V :=
  match m !! k with
  | Some _ => m
  | None => <[k := v]> m
  end.

(** [ObjectCache::GetPipeline].  The descriptor structures built between
    the lookup and the call are functions of [info] alone and are part of
    the driver call here. *)
Definition GetPipeline (info : PipelineInfo) (oc : ObjectCache) : Z * ObjectCache :=
  match m_pipeline_objects oc !! info with
  | Some pipeline => (pipeline, oc)
  | None =>
      let '(res, pipeline, dev) := vkCreateGraphicsPipelines (device oc) info in
      (pipeline,
       {| m_pipeline_objects := emplace info pipeline (m_pipeline_objects oc);
          m_vs_cache := m_vs_cache oc;
          m_gs_cache := m_gs_cache oc;
          m_ps_cache := m_ps_cache oc;
          device := dev;
          stats := stats oc;
          pipeline_log := pipeline_log oc ++ [info];
          compile_log := compile_log oc |})
  end.

(** [disk_cache.Append(uid, spv.data(), spv.size())]. *)
Definition Append (uid : Uid) (spv : SPIRVCodeVector) (c : ShaderCache) : ShaderCache :=
  {| shader_map := shader_map c; disk_cache := disk_cache c ++ [(uid, spv)] |}.

(** [INCSTAT] of the created and alive counters: the vertex and the pixel
    path count, the geometry path does not. *)
Definition count_created (s : Stage) (st : Statistics) : Statistics :=
  match s with
  | Vertex =>
      {| numVertexShadersCreated := numVertexShadersCreated st + 1;
         numVertexShadersAlive := numVertexShadersAlive st + 1;
         numPixelShadersCreated := numPixelShadersCreated st;
         numPixelShadersAlive := numPixelShadersAlive st |}
  | Geometry => st
  | Pixel =>
      {| numVertexShadersCreated := numVertexShadersCreated st;
         numVertexShadersAlive := numVertexShadersAlive st;
         numPixelShadersCreated := numPixelShadersCreated st + 1;
         numPixelShadersAlive := numPixelShadersAlive st + 1 |}
  end.

(** The item of [uid], as a reference into the map: the writes through
    [it] land in the map entry. *)
Definition item_of (s : Stage) (uid : Uid) (oc : ObjectCache) : vkShaderItem :=
  default new_item (shader_map (cache_of s oc) !! uid).

Definition set_item (s : Stage) (uid : Uid) (it : vkShaderItem) (oc : ObjectCache)
  : ObjectCache :=
  let c := cache_of s oc in
  set_cache s {| shader_map := <[uid := it]> (shader_map c);
                 disk_cache := disk_cache c |} oc.

(** [ObjectCache::Compile{Vertex,Geometry,Pixel}ShaderForUid(uid, it)],
    where [it] is the map entry of [uid]. *)
Definition CompileShaderForUid (s : Stage) (uid : Uid) (oc : ObjectCache) : ObjectCache :=
  let source_code := GenerateShaderCode s uid in
  let oc := log_compile s uid oc in
  let '(module, oc) :=
    match CompileShader s source_code with
    | Some spv =>
        let '(module, dev) := CreateShaderModule (device oc) spv in
        let oc := set_device dev oc in
        if negb (module =? VK_NULL_HANDLE) then
          (module,
           set_stats (count_created s (stats oc))
             (set_cache s (Append uid spv (cache_of s oc)) oc))
        else (module, oc)
    | None => (VK_NULL_HANDLE, oc)
    end in
  let it := item_of s uid oc in
  set_item s uid
    {| initialized := initialized it; compiled := true; module := module |} oc.

Definition CompileVertexShaderForUid := CompileShaderForUid Vertex.
Definition CompileGeometryShaderForUid := CompileShaderForUid Geometry.
Definition CompilePixelShaderForUid := CompileShaderForUid Pixel.

(** Modelled from the spec: [ObjectUsageProfiler::GetOrAdd]
    (VideoCommon/ObjectUsageProfiler.h) is not among the sources.  The
    shader map is the in-memory side of the cache keyed by shader UID, and
    [shader_map->GetOrAdd(uid)] yields the entry of [uid],
    default-constructed first when the map has none. *)
Definition GetOrAdd (s : Stage) (uid : Uid) (oc : ObjectCache) : ObjectCache :=
  match shader_map (cache_of s oc) !! uid with
  | Some _ => oc
  | None => set_item s uid new_item oc
  end.

(** [ObjectCache::Get{Vertex,Geometry,Pixel}ShaderForUid]:
    [initialized.test_and_set()] yields the old flag and leaves it set. *)
Definition GetShaderForUid (s : Stage) (uid : Uid) (oc : ObjectCache) : Z * ObjectCache :=
  let oc := GetOrAdd s uid oc in
  let it := item_of s uid oc in
  let was_set := initialized it in
  let oc :=
    set_item s uid
      {| initialized := true; compiled := compiled it; module := module it |} oc in
  if was_set then (module (item_of s uid oc), oc)
  else
    let oc := CompileShaderForUid s uid oc in
    (module (item_of s uid oc), oc).

Definition GetVertexShaderForUid := GetShaderForUid Vertex.
Definition GetGeometryShaderForUid := GetShaderForUid Geometry.
Definition GetPixelShaderForUid := GetShaderForUid Pixel.

(** [ShaderCacheReader::Read]: a record of the disk cache becomes an
    initialized entry, unless the module cannot be created. *)
Definition ShaderCacheReader_Read (s : Stage) (key : Uid) (value : SPIRVCodeVector)
    (oc : ObjectCache) : ObjectCache :=
  let '(module, dev) := CreateShaderModule (device oc) value in
  let oc := set_device dev oc in
  if module =? VK_NULL_HANDLE then oc
  else
    set_item s key
      {| initialized := true; compiled := true; module := module |}
      (GetOrAdd s key oc).

(** The calls a client makes on the cache, and runs of them. *)
Inductive Call :=
| CallGetPipeline (info : PipelineInfo)
| CallGetShader (s : Stage) (uid : Uid).

Definition step (oc : ObjectCache) (c : Call) : ObjectCache :=
  match c with
  | CallGetPipeline info => snd (GetPipeline info oc)
  | CallGetShader s uid => snd (GetShaderForUid s uid oc)
  end.

Definition run (calls : list Call) (oc : ObjectCache) : ObjectCache :=
  fold_left step calls oc.

(** The compile attempts made since the log had [n] entries. *)
Definition compiles_since (n : nat) (oc : ObjectCache) : list (Stage * Uid) :=
  drop n (compile_log oc).

(** The binary and the module of [uid] when both the SPIR-V compilation
    and the creation of the shader module succeed on the device of [oc]. *)
Definition compile_outcome (s : Stage) (uid : Uid) (oc : ObjectCache)
  : option (SPIRVCodeVector * Z) :=
  match CompileShader s (GenerateShaderCode s uid) with
  | Some spv =>
      let module := fst (CreateShaderModule (device oc) spv) in
      if module =? VK_NULL_HANDLE then None else Some (spv, module)
  | None => None
  end.

(** The module [Compile*ShaderForUid] stores in the entry. *)
Definition outcome_module (o : option (SPIRVCodeVector * Z)) : Z :=
  match o with
  | Some (_, module) => module
  | None => VK_NULL_HANDLE
  end.

(** The records it appends to the disk cache. *)
Definition outcome_records (uid : Uid) (o : option (SPIRVCodeVector * Z))
  : list (Uid * SPIRVCodeVector) :=
  match o with
  | Some (spv, _) => [(uid, spv)]
  | None => []
  end.

(** The state in which [GetShaderForUid] starts a compilation: the entry
    exists and its flag is set. *)
Definition claimed (s : Stage) (uid : Uid) (oc : ObjectCache) : ObjectCache :=
  set_item s uid
    {| initialized := true;
       compiled := compiled (item_of s uid oc);
       module := module (item_of s uid oc) |}
    (GetOrAdd s uid oc).

(** An object cache with nothing in it, on a device in state [d]. *)
Definition empty_cache (d : Device) : ObjectCache :=
  {| m_pipeline_objects := ∅;
     m_vs_cache := {| shader_map := ∅; disk_cache := [] |};
     m_gs_cache := {| shader_map := ∅; disk_cache := [] |};
     m_ps_cache := {| shader_map := ∅; disk_cache := [] |};
     device := d;
     stats := {| numVertexShadersCreated := 0; numVertexShadersAlive := 0;
                 numPixelShadersCreated := 0; numPixelShadersAlive := 0 |};
     pipeline_log := [];
     compile_log := [] |}.

End Cache.

Arguments ShaderCache Uid {_ _}.
Arguments ObjectCache PipelineInfo Uid Device {_ _ _ _}.

(** A driver and a compiler for the examples.  The device state counts the
    objects created; pipeline and module handles are drawn from it.  A
    pipeline description below zero is refused, an empty binary makes no
    module, and the compiler rejects the UIDs that are odd. *)
Definition counting_driver : VulkanDriver Z Z :=
  {| vkCreateGraphicsPipelines := fun d info =>
       if info <? 0 then (-1, VK_NULL_HANDLE, d) else (VK_SUCCESS, 1000 + d, d + 1);
     CreateShaderModule := fun d spv =>
       match spv with
       | [] => (VK_NULL_HANDLE, d)
       | _ => (2000 + d, d + 1)
       end |}.

Definition parity_compiler : ShaderCompiler Z :=
  {| GenerateShaderCode := fun _ uid => [uid];
     CompileShader := fun _ code =>
       match code with
       | [uid] => if Z.even uid then Some [0x07230203; uid] else None
       | _ => None
       end |}.

Definition sample_cache : ObjectCache Z Z Z := empty_cache 0.

End ObjCache.

(** ** Vertex shader constants *)

Module VSM.

(** The address map of XF memory (XFMemory.h): the first index and the
    end of the position, normal and post-transform matrices and of the
    lights.  [XFMEM_POSMATRICES] is zero. *)
Class XFLayout := {
  XFMEM_POSMATRICES_END : Z;
  XFMEM_NORMALMATRICES : Z;
  XFMEM_NORMALMATRICES_END : Z;
  XFMEM_POSTMATRICES : Z;
  XFMEM_POSTMATRICES_END : Z;
  XFMEM_LIGHTS : Z;
  XFMEM_LIGHTS_END : Z
}.

(** The console's map; the sizes are the ones [Dirty] marks
    (256, 96, 256 and 0x80 words). *)
Definition gamecube_layout : XFLayout :=
  {| XFMEM_POSMATRICES_END := 0x100;
     XFMEM_NORMALMATRICES := 0x400;
     XFMEM_NORMALMATRICES_END := 0x460;
     XFMEM_POSTMATRICES := 0x500;
     XFMEM_POSTMATRICES_END := 0x600;
     XFMEM_LIGHTS := 0x600;
     XFMEM_LIGHTS_END := 0x680 |}.

(** The layouts the code is compiled against: ordered, within [int]. *)
Definition layout_ok `{XFLayout} : Prop :=
  0 < XFMEM_POSMATRICES_END < 2 ^ 31 /\
  0 <= XFMEM_NORMALMATRICES < XFMEM_NORMALMATRICES_END /\
  XFMEM_NORMALMATRICES_END < 2 ^ 31 /\
  0 <= XFMEM_POSTMATRICES < XFMEM_POSTMATRICES_END /\
  XFMEM_POSTMATRICES_END < 2 ^ 31 /\
  0 <= XFMEM_LIGHTS < XFMEM_LIGHTS_END /\
  XFMEM_LIGHTS_END < 2 ^ 31.

(** The floating-point side of the manager.  [FloatInputs] stands for the
    float members of [xfmem], [bpmem] and [g_ActiveConfig] and the
    free-look view; [ViewState] for [g_fProjectionMatrix],
    [s_viewportCorrection] and [Core::g_aspect_wide].  The three functions
    are the float computations whose outcome the control flow or the state
    depends on: the test on a light's distance attenuation,
    [ViewportCorrectionMatrix(s_viewportCorrection)], and the [switch] on
    the projection type that fills [g_fProjectionMatrix]. *)
Class FloatModel := {
  FloatInputs : Type;
  ViewState : Type;
  distatt_negligible : FloatInputs -> Z -> bool;
  ViewportCorrectionMatrix : FloatInputs -> ViewState -> ViewState;
  LoadProjection : FloatInputs -> Z -> ViewState -> ViewState
}.

(** The integer members of [g_ActiveConfig] that [SetConstants] reads. *)
Record ActiveConfig := {
  iRimBase : Z;
  iRimPower : Z;
  iRimIntesity : Z;
  iSpecularMultiplier : Z;
  iSimBumpStrength : Z;
  iSimBumpThreshold : Z;
  iSimBumpDetailBlend : Z;
  iSimBumpDetailFrequency : Z;
  bSupportsOversizedViewports : bool;
  bSupportsPostProcessing : bool
}.

(** [g_main_cp_state.matrix_index_a] and [matrix_index_b]. *)
Record CPState := {
  Tex0MtxIdx : Z;
  Tex1MtxIdx : Z;
  Tex2MtxIdx : Z;
  Tex3MtxIdx : Z;
  Tex4MtxIdx : Z;
  Tex5MtxIdx : Z;
  Tex6MtxIdx : Z;
  Tex7MtxIdx : Z
}.

(** What [SetConstants] reads and does not write. *)
Record Env `{FloatModel} := {
  config : ActiveConfig;
  cp : CPState;
  ambColor : Z -> Z;
  matColor : Z -> Z;
  projection_type : Z;
  has_post_processor : bool;
  floats : FloatInputs
}.

(** Base registers of the constant buffer (VertexShaderGen.h). *)
Inductive Reg :=
| C_PHONG | C_TRANSFORMMATRICES | C_NORMALMATRICES | C_POSTTRANSFORMMATRICES
| C_LIGHTS | C_MATERIALS | C_TEXMATRICES | C_DEPTHPARAMS | C_PROJECTION.

(** Where the floats of a write come from. *)
Inductive Floats `{FloatModel} :=
| PhongRim (base power intensity specular : Z)
| PhongBump (strength threshold blend frequency : Z)
| PosMatrices (offset : Z)
| NormalMatrices (offset : Z)
| PostMatrices (offset : Z)
| LightColor (i : Z)
| LightCosatt (i : Z)
| LightDistattFloor (i : Z)
| LightDistatt (i : Z)
| LightDpos (i : Z)
| LightDdirNormalized (i : Z)
| Colour (a b g r : Z)
| DepthParams
| CorrectedProjection (v : ViewState).

(** The calls on [m_buffer]: the register is [reg + off]. *)
Inductive ConstWrite `{FloatModel} :=
| SetConstant4 (reg : Reg) (off : Z) (v : Floats)
| SetConstant3v (reg : Reg) (off : Z) (v : Floats)
| SetMultiConstant4v (reg : Reg) (off count : Z) (v : Floats)
| SetMultiConstant3v (reg : Reg) (off count : Z) (v : Floats).

Inductive RendererCall :=
| Renderer_SetViewport
| OnProjectionLoaded (type : Z).

(** The statics of VertexShaderManager.cpp, the constant buffer as the log
    of the writes made to it, and the calls made on the renderer.  The
    array [s_lights_phong] is a function of the index. *)
Record State `{FloatModel} := {
  s_lights_phong : Z -> Z;
  s_transform_matrices_changed : Z * Z;
  s_normal_matrices_changed : Z * Z;
  nPostTransformMatricesChanged : Z * Z;
  s_lights_changed : Z * Z;
  s_materials_changed : Z;
  s_tex_matrices_changed : bool * bool;
  bViewportChanged : bool;
  bProjectionChanged : bool;
  view : ViewState;
  m_buffer : list ConstWrite;
  renderer : list RendererCall
}.

Section Manager.
Context `{FloatModel} `{XFLayout}.

Definition set_phong (f : Z -> Z) (st : State) : State :=
  {| s_lights_phong := f;
     s_transform_matrices_changed := s_transform_matrices_changed st;
     s_normal_matrices_changed := s_normal_matrices_changed st;
     nPostTransformMatricesChanged := nPostTransformMatricesChanged st;
     s_lights_changed := s_lights_changed st;
     s_materials_changed := s_materials_changed st;
     s_tex_matrices_changed := s_tex_matrices_changed st;
     bViewportChanged := bViewportChanged st;
     bProjectionChanged := bProjectionChanged st;
     view := view st;
     m_buffer := m_buffer st;
     renderer := renderer st |}.

Definition set_transform (v : Z * Z) (st : State) : State :=
  {| s_lights_phong := s_lights_phong st;
     s_transform_matrices_changed := v;
     s_normal_matrices_changed := s_normal_matrices_changed st;
     nPostTransformMatricesChanged := nPostTransformMatricesChanged st;
     s_lights_changed := s_lights_changed st;
     s_materials_changed := s_materials_changed st;
     s_tex_matrices_changed := s_tex_matrices_changed st;
     bViewportChanged := bViewportChanged st;
     bProjectionChanged := bProjectionChanged st;
     view := view st;
     m_buffer := m_buffer st;
     renderer := renderer st |}.

Definition set_normal (v : Z * Z) (st : State) : State :=
  {| s_lights_phong := s_lights_phong st;
     s_transform_matrices_changed := s_transform_matrices_changed st;
     s_normal_matrices_changed := v;
     nPostTransformMatricesChanged := nPostTransformMatricesChanged st;
     s_lights_changed := s_lights_changed st;
     s_materials_changed := s_materials_changed st;
     s_tex_matrices_changed := s_tex_matrices_changed st;
     bViewportChanged := bViewportChanged st;
     bProjectionChanged := bProjectionChanged st;
     view := view st;
     m_buffer := m_buffer st;
     renderer := renderer st |}.

Definition set_post (v : Z * Z) (st : State) : State :=
  {| s_lights_phong := s_lights_phong st;
     s_transform_matrices_changed := s_transform_matrices_changed st;
     s_normal_matrices_changed := s_normal_matrices_changed st;
     nPostTransformMatricesChanged := v;
     s_lights_changed := s_lights_changed st;
     s_materials_changed := s_materials_changed st;
     s_tex_matrices_changed := s_tex_matrices_changed st;
     bViewportChanged := bViewportChanged st;
     bProjectionChanged := bProjectionChanged st;
     view := view st;
     m_buffer := m_buffer st;
     renderer := renderer st |}.

Definition set_lights (v : Z * Z) (st : State) : State :=
  {| s_lights_phong := s_lights_phong st;
     s_transform_matrices_changed := s_transform_matrices_changed st;
     s_normal_matrices_changed := s_normal_matrices_changed st;
     nPostTransformMatricesChanged := nPostTransformMatricesChanged st;
     s_lights_changed := v;
     s_materials_changed := s_materials_changed st;
     s_tex_matrices_changed := s_tex_matrices_changed st;
     bViewportChanged := bViewportChanged st;
     bProjectionChanged := bProjectionChanged st;
     view := view st;
     m_buffer := m_buffer st;
     renderer := renderer st |}.

Definition set_materials (v : Z) (st : State) : State :=
  {| s_lights_phong := s_lights_phong st;
     s_transform_matrices_changed := s_transform_matrices_changed st;
     s_normal_matrices_changed := s_normal_matrices_changed st;
     nPostTransformMatricesChanged := nPostTransformMatricesChanged st;
     s_lights_changed := s_lights_changed st;
     s_materials_changed := v;
     s_tex_matrices_changed := s_tex_matrices_changed st;
     bViewportChanged := bViewportChanged st;
     bProjectionChanged := bProjectionChanged st;
     view := view st;
     m_buffer := m_buffer st;
     renderer := renderer st |}.

Definition set_tex (v : bool * bool) (st : State) : State :=
  {| s_lights_phong := s_lights_phong st;
     s_transform_matrices_changed := s_transform_matrices_changed st;
     s_normal_matrices_changed := s_normal_matrices_changed st;
     nPostTransformMatricesChanged := nPostTransformMatricesChanged st;
     s_lights_changed := s_lights_changed st;
     s_materials_changed := s_materials_changed st;
     s_tex_matrices_changed := v;
     bViewportChanged := bViewportChanged st;
     bProjectionChanged := bProjectionChanged st;
     view := view st;
     m_buffer := m_buffer st;
     renderer := renderer st |}.

Definition set_viewport_changed (v : bool) (st : State) : State :=
  {| s_lights_phong := s_lights_phong st;
     s_transform_matrices_changed := s_transform_matrices_changed st;
     s_normal_matrices_changed := s_normal_matrices_changed st;
     nPostTransformMatricesChanged := nPostTransformMatricesChanged st;
     s_lights_changed := s_lights_changed st;
     s_materials_changed := s_materials_changed st;
     s_tex_matrices_changed := s_tex_matrices_changed st;
     bViewportChanged := v;
     bProjectionChanged := bProjectionChanged st;
     view := view st;
     m_buffer := m_buffer st;
     renderer := renderer st |}.

Definition set_projection_changed (v : bool) (st : State) : State :=
  {| s_lights_phong := s_lights_phong st;
     s_transform_matrices_changed := s_transform_matrices_changed st;
     s_normal_matrices_changed := s_normal_matrices_changed st;
     nPostTransformMatricesChanged := nPostTransformMatricesChanged st;
     s_lights_changed := s_lights_changed st;
     s_materials_changed := s_materials_changed st;
     s_tex_matrices_changed := s_tex_matrices_changed st;
     bViewportChanged := bViewportChanged st;
     bProjectionChanged := v;
     view := view st;
     m_buffer := m_buffer st;
     renderer := renderer st |}.

Definition set_view (v : ViewState) (st : State) : State :=
  {| s_lights_phong := s_lights_phong st;
     s_transform_matrices_changed := s_transform_matrices_changed st;
     s_normal_matrices_changed := s_normal_matrices_changed st;
     nPostTransformMatricesChanged := nPostTransformMatricesChanged st;
     s_lights_changed := s_lights_changed st;
     s_materials_changed := s_materials_changed st;
     s_tex_matrices_changed := s_tex_matrices_changed st;
     bViewportChanged := bViewportChanged st;
     bProjectionChanged := bProjectionChanged st;
     view := v;
     m_buffer := m_buffer st;
     renderer := renderer st |}.

(** Calls on [m_buffer], appended to the log. *)
Definition write (ws : list ConstWrite) (st : State) : State :=
  {| s_lights_phong := s_lights_phong st;
     s_transform_matrices_changed := s_transform_matrices_changed st;
     s_normal_matrices_changed := s_normal_matrices_changed st;
     nPostTransformMatricesChanged := nPostTransformMatricesChanged st;
     s_lights_changed := s_lights_changed st;
     s_materials_changed := s_materials_changed st;
     s_tex_matrices_changed := s_tex_matrices_changed st;
     bViewportChanged := bViewportChanged st;
     bProjectionChanged := bProjectionChanged st;
     view := view st;
     m_buffer := m_buffer st ++ ws;
     renderer := renderer st |}.

Definition call_renderer (c : RendererCall) (st : State) : State :=
  {| s_lights_phong := s_lights_phong st;
     s_transform_matrices_changed := s_transform_matrices_changed st;
     s_normal_matrices_changed := s_normal_matrices_changed st;
     nPostTransformMatricesChanged := nPostTransformMatricesChanged st;
     s_lights_changed := s_lights_changed st;
     s_materials_changed := s_materials_changed st;
     s_tex_matrices_changed := s_tex_matrices_changed st;
     bViewportChanged := bViewportChanged st;
     bProjectionChanged := bProjectionChanged st;
     view := view st;
     m_buffer := m_buffer st;
     renderer := renderer st ++ [c] |}.

(** [VertexShaderManager::Dirty]; [memset] clears [s_lights_phong]. *)
Definition Dirty (st : State) : State :=
  let st := set_transform (0, 256) st in
  let st := set_normal (0, 96) st in
  let st := set_post (0, 256) st in
  let st := set_lights (0, 0x80) st in
  let st := set_tex (true, true) st in
  let st := set_projection_changed true st in
  let st := set_materials 15 st in
  set_phong (fun _ => 0) st.

(** Four consecutive entries of [s_lights_phong] assigned from [base]. *)
Definition assign4 (f : Z -> Z) (base a b c d : Z) : Z -> Z :=
  fun i =>
    if i =? base then a
    else if i =? base + 1 then b
    else if i =? base + 2 then c
    else if i =? base + 3 then d
    else f i.

(** The conditions of the [if] statements of
    [VertexShaderManager::SetConstants], in source order. *)

Definition phong_rim_changed (env : Env) (st : State) : bool :=
  let c := config env in
  negb (iRimBase c =? s_lights_phong st 0)
  || negb (iRimPower c =? s_lights_phong st 1)
  || negb (iRimIntesity c =? s_lights_phong st 2)
  || negb (iSpecularMultiplier c =? s_lights_phong st 3).

Definition phong_bump_changed (env : Env) (st : State) : bool :=
  let c := config env in
  negb (iSimBumpStrength c =? s_lights_phong st 4)
  || negb (iSimBumpThreshold c =? s_lights_phong st 5)
  || negb (iSimBumpDetailBlend c =? s_lights_phong st 6)
  || negb (iSimBumpDetailFrequency c =? s_lights_phong st 7).

(** [changed[0] >= 0]. *)
Definition dirty (iv : Z * Z) : bool := 0 <=? fst iv.

Definition materials_dirty (st : State) : bool :=
  negb (s_materials_changed st =? 0).

Definition pending (env : Env) (st : State) : list bool :=
  [ phong_rim_changed env st;
    phong_bump_changed env st;
    dirty (s_transform_matrices_changed st);
    dirty (s_normal_matrices_changed st);
    dirty (nPostTransformMatricesChanged st);
    dirty (s_lights_changed st);
    materials_dirty st;
    fst (s_tex_matrices_changed st);
    snd (s_tex_matrices_changed st);
    bViewportChanged st;
    bProjectionChanged st ].

(** The blocks of [SetConstants], one per condition. *)

Definition sync_phong_rim (env : Env) (st : State) : State :=
  let c := config env in
  if phong_rim_changed env st
  then
    let st :=
      set_phong (assign4 (s_lights_phong st) 0 (iRimBase c) (iRimPower c)
                   (iRimIntesity c) (iSpecularMultiplier c)) st in
    write [SetConstant4 C_PHONG 0
             (PhongRim (iRimBase c) (iRimPower c) (iRimIntesity c)
                (iSpecularMultiplier c))] st
  else st.

Definition sync_phong_bump (env : Env) (st : State) : State :=
  let c := config env in
  if phong_bump_changed env st
  then
    let st :=
      set_phong (assign4 (s_lights_phong st) 4 (iSimBumpStrength c)
                   (iSimBumpThreshold c) (iSimBumpDetailBlend c)
                   (iSimBumpDetailFrequency c)) st in
    write [SetConstant4 C_PHONG 1
             (PhongBump (iSimBumpStrength c) (iSimBumpThreshold c)
                (iSimBumpDetailBlend c) (iSimBumpDetailFrequency c))] st
  else st.

Definition sync_transform (st : State) : State :=
  let iv := s_transform_matrices_changed st in
  if dirty iv then
    let startn := Z.quot (fst iv) 4 in
    let endn := Z.quot (snd iv + 3) 4 in
    let st :=
      write [SetMultiConstant4v C_TRANSFORMMATRICES startn (endn - startn)
               (PosMatrices (startn * 4))] st in
    set_transform (-1, -1) st
  else st.

Definition sync_normal (st : State) : State :=
  let iv := s_normal_matrices_changed st in
  if dirty iv then
    let startn := Z.quot (fst iv) 3 in
    let endn := Z.quot (snd iv + 2) 3 in
    let st :=
      write [SetMultiConstant3v C_NORMALMATRICES startn (endn - startn)
               (NormalMatrices (3 * startn))] st in
    set_normal (-1, -1) st
  else st.

Definition sync_post (st : State) : State :=
  let iv := nPostTransformMatricesChanged st in
  if dirty iv then
    let startn := Z.quot (fst iv) 4 in
    let endn := Z.quot (snd iv + 3) 4 in
    let st :=
      write [SetMultiConstant4v C_POSTTRANSFORMMATRICES startn (endn - startn)
               (PostMatrices (startn * 4))] st in
    set_post (-1, -1) st
  else st.

(** The body of the loop over the lights. *)
Definition light_writes (env : Env) (i : Z) : list ConstWrite :=
  [ SetConstant4 C_LIGHTS (5 * i) (LightColor i);
    SetConstant3v C_LIGHTS (5 * i + 1) (LightCosatt i);
    (if distatt_negligible (floats env) i
     then SetConstant4 C_LIGHTS (5 * i + 2) (LightDistattFloor i)
     else SetConstant3v C_LIGHTS (5 * i + 2) (LightDistatt i));
    SetConstant3v C_LIGHTS (5 * i + 3) (LightDpos i);
    SetConstant4 C_LIGHTS (5 * i + 4) (LightDdirNormalized i) ].

Definition sync_lights (env : Env) (st : State) : State :=
  let iv := s_lights_changed st in
  if dirty iv then
    let istart := Z.quot (fst iv) 0x10 in
    let iend := Z.quot (snd iv + 15) 0x10 in
    let st :=
      write (flat_map (light_writes env) (seqZ istart (iend - istart))) st in
    set_lights (-1, -1) st
  else st.

(** The four bytes of a packed colour, most significant first. *)
Definition colour_of (data : Z) : Floats :=
  Colour (Z.land (Z.shiftr data 24) 0xFF) (Z.land (Z.shiftr data 16) 0xFF)
         (Z.land (Z.shiftr data 8) 0xFF) (Z.land data 0xFF).

Definition material_writes (env : Env) (changed : Z) : list ConstWrite :=
  flat_map (fun i =>
      if negb (Z.land changed (Z.shiftl 1 i) =? 0)
      then [SetConstant4 C_MATERIALS i (colour_of (ambColor env i))] else [])
    [0; 1]
  ++
  flat_map (fun i =>
      if negb (Z.land changed (Z.shiftl 1 (i + 2)) =? 0)
      then [SetConstant4 C_MATERIALS (i + 2) (colour_of (matColor env i))] else [])
    [0; 1].

Definition sync_materials (env : Env) (st : State) : State :=
  if materials_dirty st then
    let st := write (material_writes env (s_materials_changed st)) st in
    set_materials 0 st
  else st.

Definition sync_tex_a (env : Env) (st : State) : State :=
  if fst (s_tex_matrices_changed st) then
    let st := set_tex (false, snd (s_tex_matrices_changed st)) st in
    write [ SetMultiConstant4v C_TEXMATRICES (3 * 0) 3 (PosMatrices (Tex0MtxIdx (cp env) * 4));
            SetMultiConstant4v C_TEXMATRICES (3 * 1) 3 (PosMatrices (Tex1MtxIdx (cp env) * 4));
            SetMultiConstant4v C_TEXMATRICES (3 * 2) 3 (PosMatrices (Tex2MtxIdx (cp env) * 4));
            SetMultiConstant4v C_TEXMATRICES (3 * 3) 3 (PosMatrices (Tex3MtxIdx (cp env) * 4)) ]
      st
  else st.

Definition sync_tex_b (env : Env) (st : State) : State :=
  if snd (s_tex_matrices_changed st) then
    let st := set_tex (fst (s_tex_matrices_changed st), false) st in
    write [ SetMultiConstant4v C_TEXMATRICES (3 * 0 + 12) 3 (PosMatrices (Tex4MtxIdx (cp env) * 4));
            SetMultiConstant4v C_TEXMATRICES (3 * 1 + 12) 3 (PosMatrices (Tex5MtxIdx (cp env) * 4));
            SetMultiConstant4v C_TEXMATRICES (3 * 2 + 12) 3 (PosMatrices (Tex6MtxIdx (cp env) * 4));
            SetMultiConstant4v C_TEXMATRICES (3 * 3 + 12) 3 (PosMatrices (Tex7MtxIdx (cp env) * 4)) ]
      st
  else st.

Definition sync_viewport (env : Env) (st : State) : State :=
  if bViewportChanged st then
    let st := set_viewport_changed false st in
    let st := write [SetConstant4 C_DEPTHPARAMS 0 DepthParams] st in
    let st := call_renderer Renderer_SetViewport st in
    if negb (bSupportsOversizedViewports (config env)) then
      let st := set_view (ViewportCorrectionMatrix (floats env) (view st)) st in
      set_projection_changed true st
    else st
  else st.

Definition sync_projection (env : Env) (st : State) : State :=
  if bProjectionChanged st then
    let st :=
      if bSupportsPostProcessing (config env) && has_post_processor env
      then call_renderer (OnProjectionLoaded (projection_type env)) st
      else st in
    let st := set_projection_changed false st in
    let st :=
      set_view (LoadProjection (floats env) (projection_type env) (view st)) st in
    write [SetMultiConstant4v C_PROJECTION 0 4 (CorrectedProjection (view st))] st
  else st.

(** [VertexShaderManager::SetConstants]. *)
Definition SetConstants (env : Env) (st : State) : State :=
  let st := sync_phong_rim env st in
  let st := sync_phong_bump env st in
  let st := sync_transform st in
  let st := sync_normal st in
  let st := sync_post st in
  let st := sync_lights env st in
  let st := sync_materials env st in
  let st := sync_tex_a env st in
  let st := sync_tex_b env st in
  let st := sync_viewport env st in
  sync_projection env st.

(** [start >= idx * 4u && start < idx * 4u + 12u]. *)
Definition in_tex_matrix (start idx : Z) : bool :=
  (u32 (idx * 4) <=? start) && (start <? u32 (u32 (idx * 4) + 12)).

(** The update of a [min,max] pair with the interval [_start, _end]. *)
Definition widen (iv : Z * Z) (_start _end : Z) : Z * Z :=
  if fst iv =? -1 then (_start, _end)
  else (if _start <? fst iv then _start else fst iv,
        if snd iv <? _end then _end else snd iv).

(** The position-matrix branch: the bounds are tested against [start] and
    [end], and [end] is clamped when it is stored. *)
Definition widen_transform (iv : Z * Z) (start end_ : Z) : Z * Z :=
  let clamped :=
    s32 (if XFMEM_POSMATRICES_END <? end_ then XFMEM_POSMATRICES_END else end_) in
  if fst iv =? -1 then (s32 start, clamped)
  else (if s32 start <? fst iv then s32 start else fst iv,
        if snd iv <? s32 end_ then clamped else snd iv).

(** The six [if] statements of [VertexShaderManager::InvalidateXFRange],
    in source order; [start] and [end] are [u32]. *)

Definition mark_tex_a (c : CPState) (start : Z) (st : State) : State :=
  if in_tex_matrix start (Tex0MtxIdx c) || in_tex_matrix start (Tex1MtxIdx c)
     || in_tex_matrix start (Tex2MtxIdx c) || in_tex_matrix start (Tex3MtxIdx c)
  then set_tex (true, snd (s_tex_matrices_changed st)) st
  else st.

Definition mark_tex_b (c : CPState) (start : Z) (st : State) : State :=
  if in_tex_matrix start (Tex4MtxIdx c) || in_tex_matrix start (Tex5MtxIdx c)
     || in_tex_matrix start (Tex6MtxIdx c) || in_tex_matrix start (Tex7MtxIdx c)
  then set_tex (fst (s_tex_matrices_changed st), true) st
  else st.

Definition mark_transform (start end_ : Z) (st : State) : State :=
  if start <? XFMEM_POSMATRICES_END
  then set_transform
         (widen_transform (s_transform_matrices_changed st) start end_) st
  else st.

Definition mark_normal (start end_ : Z) (st : State) : State :=
  if (start <? XFMEM_NORMALMATRICES_END) && (XFMEM_NORMALMATRICES <? end_) then
    let _start :=
      s32 (if start <? XFMEM_NORMALMATRICES then 0
           else u32 (start - XFMEM_NORMALMATRICES)) in
    let _end :=
      s32 (if end_ <? XFMEM_NORMALMATRICES_END
           then u32 (end_ - XFMEM_NORMALMATRICES)
           else u32 (XFMEM_NORMALMATRICES_END - XFMEM_NORMALMATRICES)) in
    set_normal (widen (s_normal_matrices_changed st) _start _end) st
  else st.

Definition mark_post (start end_ : Z) (st : State) : State :=
  if (start <? XFMEM_POSTMATRICES_END) && (XFMEM_POSTMATRICES <? end_) then
    let _start :=
      s32 (if start <? XFMEM_POSTMATRICES then XFMEM_POSTMATRICES
           else u32 (start - XFMEM_POSTMATRICES)) in
    let _end :=
      s32 (if end_ <? XFMEM_POSTMATRICES_END
           then u32 (end_ - XFMEM_POSTMATRICES)
           else u32 (XFMEM_POSTMATRICES_END - XFMEM_POSTMATRICES)) in
    set_post (widen (nPostTransformMatricesChanged st) _start _end) st
  else st.

Definition mark_lights (start end_ : Z) (st : State) : State :=
  if (start <? XFMEM_LIGHTS_END) && (XFMEM_LIGHTS <? end_) then
    let _start :=
      s32 (if start <? XFMEM_LIGHTS then XFMEM_LIGHTS
           else u32 (start - XFMEM_LIGHTS)) in
    let _end :=
      s32 (if end_ <? XFMEM_LIGHTS_END
           then u32 (end_ - XFMEM_LIGHTS)
           else u32 (XFMEM_LIGHTS_END - XFMEM_LIGHTS)) in
    set_lights (widen (s_lights_changed st) _start _end) st
  else st.

(** [VertexShaderManager::InvalidateXFRange(start, end)]. *)
Definition InvalidateXFRange (c : CPState) (start end_ : Z) (st : State) : State :=
  let st := mark_tex_a c start st in
  let st := mark_tex_b c start st in
  let st := mark_transform start end_ st in
  let st := mark_normal start end_ st in
  let st := mark_post start end_ st in
  mark_lights start end_ st.

(** The part of a matrix block that [start, end] overlaps, in indices
    relative to the first index [base] of the block. *)
Definition overlap_lo (base start : Z) : Z := Z.max 0 (start - base).
Definition overlap_hi (base limit end_ : Z) : Z := Z.min end_ limit - base.

(** A dirty interval is empty when it is [-1, -1]; otherwise its lower
    bound is an index. *)
Definition interval_ok (iv : Z * Z) : Prop := 0 <= fst iv \/ iv = (-1, -1).

(** The shape the four intervals have in every state the manager reaches:
    the zero-initialised statics and [Dirty] give it, [InvalidateXFRange]
    and [SetConstants] keep it. *)
Definition intervals_ok (st : State) : Prop :=
  interval_ok (s_transform_matrices_changed st) /\
  interval_ok (s_normal_matrices_changed st) /\
  interval_ok (nPostTransformMatricesChanged st) /\
  interval_ok (s_lights_changed st).

(** No dirty marker is set and [s_lights_phong] agrees with the
    configuration: no condition of [SetConstants] holds. *)
Definition clean (env : Env) (st : State) : Prop :=
  pending env st = repeat false 11.

(** The four dirty intervals. *)
Definition intervals (st : State) : list (Z * Z) :=
  [ s_transform_matrices_changed st; s_normal_matrices_changed st;
    nPostTransformMatricesChanged st; s_lights_changed st ].

(** What [SetConstants] leaves of an interval. *)
Definition consumed (iv : Z * Z) : Z * Z := if dirty iv then (-1, -1) else iv.

(** The closed interval [lo, hi] lies within the dirty interval [iv]. *)
Definition covers (iv : Z * Z) (lo hi : Z) : Prop :=
  fst iv <= lo /\ hi <= snd iv.

(** The statics before [Init]: zero-initialised. *)
Definition zero_state (v : ViewState) : State :=
  {| s_lights_phong := fun _ => 0;
     s_transform_matrices_changed := (0, 0);
     s_normal_matrices_changed := (0, 0);
     nPostTransformMatricesChanged := (0, 0);
     s_lights_changed := (0, 0);
     s_materials_changed := 0;
     s_tex_matrices_changed := (false, false);
     bViewportChanged := false;
     bProjectionChanged := false;
     view := v;
     m_buffer := [];
     renderer := [] |}.

End Manager.

(** A float model with nothing in it, and an environment over it, for the
    examples: the integer side does not look at the floats. *)
Definition unit_floats : FloatModel :=
  {| FloatInputs := unit;
     ViewState := unit;
     distatt_negligible := fun _ _ => false;
     ViewportCorrectionMatrix := fun _ v => v;
     LoadProjection := fun _ _ v => v |}.

Definition sample_config : ActiveConfig :=
  {| iRimBase := 8; iRimPower := 4; iRimIntesity := 2;
     iSpecularMultiplier := 255; iSimBumpStrength := 0;
     iSimBumpThreshold := 16; iSimBumpDetailBlend := 0;
     iSimBumpDetailFrequency := 1;
     bSupportsOversizedViewports := false;
     bSupportsPostProcessing := true |}.

Definition sample_cp : CPState :=
  {| Tex0MtxIdx := 30; Tex1MtxIdx := 33; Tex2MtxIdx := 36;
     Tex3MtxIdx := 39; Tex4MtxIdx := 42; Tex5MtxIdx := 45;
     Tex6MtxIdx := 48; Tex7MtxIdx := 51 |}.

Definition sample_env : @Env unit_floats :=
  @Build_Env unit_floats sample_config sample_cp
    (fun _ => 0x101010FF) (fun _ => 0xFFFFFFFF) 0 false tt.

(** The manager after [Init]'s [Dirty] and one [SetConstants]: every
    constant is uploaded and no marker is set. *)
Definition synced : @State unit_floats :=
  SetConstants sample_env (Dirty (@zero_state unit_floats tt)).

End VSM.

(** ** Palette upload of the OpenGL texture cache *)

Module OGLTexCache.

(** What [LoadLut] calls: [GetHash64] over the bytes [addr] points at in
    emulated memory, and [StreamBuffer::Stream], which copies them into
    the palette buffer and yields where they went. *)
Class PaletteBackend := {
  Memory : Type;
  StreamBuffer : Type;
  GetHash64 : Memory -> Z -> Z -> Z -> Z;
  Stream : StreamBuffer -> Memory -> Z -> Z -> Z * StreamBuffer
}.

(** The members of [g_ActiveConfig] that [LoadLut] reads. *)
Record Config := {
  iSafeTextureCache_ColorSamples : Z;
  bSupportsPaletteConversion : bool
}.

(** The [m_last_*] members of [OGL::TextureCache], the palette statics of
    the translation unit, and the log of the [Stream(size, addr)] calls. *)
Record State `{PaletteBackend} := {
  m_last_addr : Z;
  m_last_size : Z;
  m_last_hash : Z;
  m_last_lutFmt : Z;
  s_last_TlutFormat : Z;
  s_last_pallet_Buffer : Z;
  s_palette_stream_buffer : StreamBuffer;
  streamed : list (Z * Z)
}.

Section Lut.
Context `{PaletteBackend}.

(** A fresh cache: the members are value-initialised. *)
Definition fresh (buf : StreamBuffer) : State :=
  {| m_last_addr := 0; m_last_size := 0; m_last_hash := 0; m_last_lutFmt := 0;
     s_last_TlutFormat := 0; s_last_pallet_Buffer := 0;
     s_palette_stream_buffer := buf; streamed := [] |}.

(** The tail of [LoadLut], reached with [m_last_hash] already assigned
    [hash]. *)
Definition record_and_stream (cfg : Config) (mem : Memory)
    (lutFmt addr size hash : Z) (st : State) : State :=
  if bSupportsPaletteConversion cfg then
    let '(where_, buf) := Stream (s_palette_stream_buffer st) mem size addr in
    {| m_last_addr := addr; m_last_size := size; m_last_hash := hash;
       m_last_lutFmt := lutFmt;
       s_last_TlutFormat := lutFmt;
       s_last_pallet_Buffer := where_;
       s_palette_stream_buffer := buf;
       streamed := streamed st ++ [(size, addr)] |}
  else
    {| m_last_addr := addr; m_last_size := size; m_last_hash := hash;
       m_last_lutFmt := lutFmt;
       s_last_TlutFormat := s_last_TlutFormat st;
       s_last_pallet_Buffer := s_last_pallet_Buffer st;
       s_palette_stream_buffer := s_palette_stream_buffer st;
       streamed := streamed st |}.

(** The hash of the palette, a [u64]. *)
Definition lut_hash (cfg : Config) (mem : Memory) (addr size : Z) : Z :=
  u64 (GetHash64 mem addr size (iSafeTextureCache_ColorSamples cfg)).

(** [OGL::TextureCache::LoadLut(lutFmt, addr, size)]. *)
Definition LoadLut (cfg : Config) (mem : Memory) (lutFmt addr size : Z)
    (st : State) : State :=
  if (lutFmt =? m_last_lutFmt st) && (addr =? m_last_addr st)
     && (size =? m_last_size st) && negb (m_last_hash st =? 0)
  then
    let hash := lut_hash cfg mem addr size in
    if hash =? m_last_hash st then st
    else record_and_stream cfg mem lutFmt addr size hash st
  else
    record_and_stream cfg mem lutFmt addr size (lut_hash cfg mem addr size) st.

End Lut.

(** A backend for the examples: memory is a list of bytes, [addr] an
    index into it, the hash the sum of the bytes, the stream buffer the
    count of bytes written so far. *)
Definition sum_backend : PaletteBackend :=
  {| Memory := list Z;
     StreamBuffer := Z;
     GetHash64 := fun mem addr size _ =>
       fold_right Z.add 0 (firstn (Z.to_nat size) (skipn (Z.to_nat addr) mem));
     Stream := fun buf _ size _ => (buf, buf + size) |}.

Definition sample_cfg : Config :=
  {| iSafeTextureCache_ColorSamples := 0; bSupportsPaletteConversion := true |}.

(** A palette of four black entries, loaded once into a fresh cache. *)
Definition black_palette : list Z := [0; 0; 0; 0].

Definition black_loaded : @State sum_backend :=
  @LoadLut sum_backend sample_cfg black_palette 1 0 4 (@fresh sum_backend 0).

End OGLTexCache.

(** ** Vulkan state tracker *)

Module VkStateTracker.

(** [enum DITRY_FLAG] of StateTracker.h. *)
Definition DIRTY_FLAG_VS_UBO : Z := Z.shiftl 1 0.
Definition DIRTY_FLAG_GS_UBO : Z := Z.shiftl 1 1.
Definition DIRTY_FLAG_PS_UBO : Z := Z.shiftl 1 2.
Definition DIRTY_FLAG_PS_SAMPLERS : Z := Z.shiftl 1 3.
Definition DIRTY_FLAG_PS_SSBO : Z := Z.shiftl 1 4.
Definition DIRTY_FLAG_DYNAMIC_OFFSETS : Z := Z.shiftl 1 5.
Definition DIRTY_FLAG_VERTEX_BUFFER : Z := Z.shiftl 1 6.
Definition DIRTY_FLAG_INDEX_BUFFER : Z := Z.shiftl 1 7.
Definition DIRTY_FLAG_VIEWPORT : Z := Z.shiftl 1 8.
Definition DIRTY_FLAG_SCISSOR : Z := Z.shiftl 1 9.
Definition DIRTY_FLAG_PIPELINE : Z := Z.shiftl 1 10.
Definition DIRTY_FLAG_DESCRIPTOR_SET_BINDING : Z := Z.shiftl 1 11.
Definition DIRTY_FLAG_PIPELINE_BINDING : Z := Z.shiftl 1 12.
Definition DIRTY_FLAG_ALL_DESCRIPTOR_SETS : Z :=
  Z.lor (Z.lor (Z.lor DIRTY_FLAG_VS_UBO DIRTY_FLAG_GS_UBO) DIRTY_FLAG_PS_SAMPLERS)
        DIRTY_FLAG_PS_SSBO.

(** The objects the flags stand for, in the order of the enumeration. *)
Inductive Binding :=
| VsUbo | GsUbo | PsUbo | PsSamplers | PsSsbo | DynamicOffsets
| VertexBuffer | IndexBuffer | Viewport | Scissor | Pipeline
| DescriptorSetBinding | PipelineBinding.

#[global] Instance Binding_eq_dec : EqDecision Binding.
Proof. solve_decision. Defined.

Definition flag_of (b : Binding) : Z :=
  match b with
  | VsUbo => DIRTY_FLAG_VS_UBO
  | GsUbo => DIRTY_FLAG_GS_UBO
  | PsUbo => DIRTY_FLAG_PS_UBO
  | PsSamplers => DIRTY_FLAG_PS_SAMPLERS
  | PsSsbo => DIRTY_FLAG_PS_SSBO
  | DynamicOffsets => DIRTY_FLAG_DYNAMIC_OFFSETS
  | VertexBuffer => DIRTY_FLAG_VERTEX_BUFFER
  | IndexBuffer => DIRTY_FLAG_INDEX_BUFFER
  | Viewport => DIRTY_FLAG_VIEWPORT
  | Scissor => DIRTY_FLAG_SCISSOR
  | Pipeline => DIRTY_FLAG_PIPELINE
  | DescriptorSetBinding => DIRTY_FLAG_DESCRIPTOR_SET_BINDING
  | PipelineBinding => DIRTY_FLAG_PIPELINE_BINDING
  end.

Definition all_bindings : list Binding :=
  [VsUbo; GsUbo; PsUbo; PsSamplers; PsSsbo; DynamicOffsets; VertexBuffer;
   IndexBuffer; Viewport; Scissor; Pipeline; DescriptorSetBinding;
   PipelineBinding].

(** The three state words of [PipelineInfo] that have setters. *)
Record PipelineState := {
  rasterization_state : Z;
  depth_stencil_state : Z;
  blend_state : Z
}.

(** A Vulkan command recorded into the command buffer: the re-bind of one
    of the tracked objects. *)
Inductive Command := Rebind (b : Binding).

(** The members of [StateTracker] behind these setters, and the commands
    recorded so far.  [m_viewport] and [m_scissor] hold the numbers of the
    Vulkan structures; [ps_samplers] the image view and the sampler of
    each slot. *)
Record StateTracker := {
  m_dirty_flags : Z;
  m_vertex_buffer : Z;
  m_vertex_buffer_offset : Z;
  m_pipeline_state : PipelineState;
  ps_samplers : list (Z * Z);
  m_viewport : list Z;
  m_scissor : list Z;
  commands : list Command
}.

(** [m_dirty_flags & flag]. *)
Definition is_dirty (st : StateTracker) (b : Binding) : bool :=
  negb (Z.land (m_dirty_flags st) (flag_of b) =? 0).

Definition set_flags (f : Z) (st : StateTracker) : StateTracker :=
  {| m_dirty_flags := f;
     m_vertex_buffer := m_vertex_buffer st;
     m_vertex_buffer_offset := m_vertex_buffer_offset st;
     m_pipeline_state := m_pipeline_state st;
     ps_samplers := ps_samplers st;
     m_viewport := m_viewport st;
     m_scissor := m_scissor st;
     commands := commands st |}.

(** [m_dirty_flags |= flag]. *)
Definition mark (b : Binding) (st : StateTracker) : StateTracker :=
  set_flags (Z.lor (m_dirty_flags st) (flag_of b)) st.

(** Modelled from the spec: the bodies of the [StateTracker] member
    functions (StateTracker.cpp) are not among the sources, only their
    declarations.  A setter records its argument in the member it names
    and sets the dirty flag of that object; it records no command. *)
Definition SetVertexBuffer (buffer offset : Z) (st : StateTracker) : StateTracker :=
  mark VertexBuffer
    {| m_dirty_flags := m_dirty_flags st;
       m_vertex_buffer := buffer;
       m_vertex_buffer_offset := offset;
       m_pipeline_state := m_pipeline_state st;
       ps_samplers := ps_samplers st;
       m_viewport := m_viewport st;
       m_scissor := m_scissor st;
       commands := commands st |}.

Definition set_samplers (l : list (Z * Z)) (st : StateTracker) : StateTracker :=
  {| m_dirty_flags := m_dirty_flags st;
     m_vertex_buffer := m_vertex_buffer st;
     m_vertex_buffer_offset := m_vertex_buffer_offset st;
     m_pipeline_state := m_pipeline_state st;
     ps_samplers := l;
     m_viewport := m_viewport st;
     m_scissor := m_scissor st;
     commands := commands st |}.

(** Modelled from the spec: [SetTexture(index, view)] (body not among the
    sources) stores the image view of slot [index]. *)
Definition SetTexture (index : nat) (view : Z) (st : StateTracker) : StateTracker :=
  mark PsSamplers
    (set_samplers (alter (fun p => (view, snd p)) index (ps_samplers st)) st).

(** Modelled from the spec: [SetSampler(index, sampler)] (body not among
    the sources) stores the sampler of slot [index]. *)
Definition SetSampler (index : nat) (sampler : Z) (st : StateTracker) : StateTracker :=
  mark PsSamplers
    (set_samplers (alter (fun p => (fst p, sampler)) index (ps_samplers st)) st).

(** Modelled from the spec: [SetViewport] (body not among the sources). *)
Definition SetViewport (viewport : list Z) (st : StateTracker) : StateTracker :=
  mark Viewport
    {| m_dirty_flags := m_dirty_flags st;
       m_vertex_buffer := m_vertex_buffer st;
       m_vertex_buffer_offset := m_vertex_buffer_offset st;
       m_pipeline_state := m_pipeline_state st;
       ps_samplers := ps_samplers st;
       m_viewport := viewport;
       m_scissor := m_scissor st;
       commands := commands st |}.

(** Modelled from the spec: [SetScissor] (body not among the sources). *)
Definition SetScissor (scissor : list Z) (st : StateTracker) : StateTracker :=
  mark Scissor
    {| m_dirty_flags := m_dirty_flags st;
       m_vertex_buffer := m_vertex_buffer st;
       m_vertex_buffer_offset := m_vertex_buffer_offset st;
       m_pipeline_state := m_pipeline_state st;
       ps_samplers := ps_samplers st;
       m_viewport := m_viewport st;
       m_scissor := scissor;
       commands := commands st |}.

Definition set_pipeline_state (p : PipelineState) (st : StateTracker) : StateTracker :=
  {| m_dirty_flags := m_dirty_flags st;
     m_vertex_buffer := m_vertex_buffer st;
     m_vertex_buffer_offset := m_vertex_buffer_offset st;
     m_pipeline_state := p;
     ps_samplers := ps_samplers st;
     m_viewport := m_viewport st;
     m_scissor := m_scissor st;
     commands := commands st |}.

(** Modelled from the spec: [SetRasterizationState], the first of the
    pipeline-state setters (body not among the sources). *)
Definition SetRasterizationState (state : Z) (st : StateTracker) : StateTracker :=
  let p := m_pipeline_state st in
  mark Pipeline
    (set_pipeline_state
       {| rasterization_state := state;
          depth_stencil_state := depth_stencil_state p;
          blend_state := blend_state p |} st).

(** Modelled from the spec: [SetDepthStencilState] (body not among the
    sources). *)
Definition SetDepthStencilState (state : Z) (st : StateTracker) : StateTracker :=
  let p := m_pipeline_state st in
  mark Pipeline
    (set_pipeline_state
       {| rasterization_state := rasterization_state p;
          depth_stencil_state := state;
          blend_state := blend_state p |} st).

(** Modelled from the spec: [SetBlendState] (body not among the sources). *)
Definition SetBlendState (state : Z) (st : StateTracker) : StateTracker :=
  let p := m_pipeline_state st in
  mark Pipeline
    (set_pipeline_state
       {| rasterization_state := rasterization_state p;
          depth_stencil_state := depth_stencil_state p;
          blend_state := state |} st).

(** Modelled from the spec: [SetPendingRebind] (body not among the
    sources; the header says it sets the dirty flags on everything to force
    a re-bind at the next draw). *)
Definition SetPendingRebind (st : StateTracker) : StateTracker :=
  fold_right mark st all_bindings.

(** Modelled from the spec: [Bind] (body not among the sources) re-binds
    the objects whose dirty flag is set, all of them when [rebind_all],
    and clears the flags. *)
Definition Bind (rebind_all : bool) (st : StateTracker) : StateTracker :=
  {| m_dirty_flags := 0;
     m_vertex_buffer := m_vertex_buffer st;
     m_vertex_buffer_offset := m_vertex_buffer_offset st;
     m_pipeline_state := m_pipeline_state st;
     ps_samplers := ps_samplers st;
     m_viewport := m_viewport st;
     m_scissor := m_scissor st;
     commands :=
       commands st ++
       map Rebind
         (List.filter (fun b => is_dirty st b || rebind_all) all_bindings) |}.

(** The state-setting calls. *)
Inductive Setter :=
| CallSetVertexBuffer (buffer offset : Z)
| CallSetTexture (index : nat) (view : Z)
| CallSetSampler (index : nat) (sampler : Z)
| CallSetViewport (viewport : list Z)
| CallSetScissor (scissor : list Z)
| CallSetRasterizationState (state : Z)
| CallSetDepthStencilState (state : Z)
| CallSetBlendState (state : Z).

Definition apply_setter (st : StateTracker) (c : Setter) : StateTracker :=
  match c with
  | CallSetVertexBuffer b o => SetVertexBuffer b o st
  | CallSetTexture i v => SetTexture i v st
  | CallSetSampler i s => SetSampler i s st
  | CallSetViewport v => SetViewport v st
  | CallSetScissor s => SetScissor s st
  | CallSetRasterizationState s => SetRasterizationState s st
  | CallSetDepthStencilState s => SetDepthStencilState s st
  | CallSetBlendState s => SetBlendState s st
  end.

(** The object whose flag a setter sets. *)
Definition target (c : Setter) : Binding :=
  match c with
  | CallSetVertexBuffer _ _ => VertexBuffer
  | CallSetTexture _ _ | CallSetSampler _ _ => PsSamplers
  | CallSetViewport _ => Viewport
  | CallSetScissor _ => Scissor
  | CallSetRasterizationState _ | CallSetDepthStencilState _
  | CallSetBlendState _ => Pipeline
  end.

(** The tracker as constructed: the member initialisers of the header. *)
Definition initial : StateTracker :=
  {| m_dirty_flags := 0;
     m_vertex_buffer := VK_NULL_HANDLE;
     m_vertex_buffer_offset := 0;
     m_pipeline_state :=
       {| rasterization_state := 0; depth_stencil_state := 0; blend_state := 0 |};
     ps_samplers := repeat (VK_NULL_HANDLE, VK_NULL_HANDLE) 8;
     m_viewport := [0; 0; 1; 1; 0; 1];
     m_scissor := [0; 0; 1; 1];
     commands := [] |}.

End VkStateTracker.

(** ** TCacheEntryBase references (TextureCacheBase.h)

    A cache entry holds [std::unordered_set<TCacheEntryBase*> references].
    Entries are identified by their address; the store maps each entry to
    its [references] member, an entry that was never written to having the
    empty set. *)

Module TexRefs.

Definition references (e : Z) (h : gmap Z (gset Z)) : gset Z := default ∅ (h !! e).

(** [x->references.emplace(y)] *)
Definition emplace_reference (x y : Z) (h : gmap Z (gset Z)) : gmap Z (gset Z) :=
  <[x := references x h ∪ {[y]}]> h.

(** [x->references.erase(y)] *)
Definition erase_reference (x y : Z) (h : gmap Z (gset Z)) : gmap Z (gset Z) :=
  <[x := references x h ∖ {[y]}]> h.

(** [x->references.clear()] *)
Definition clear_references (x : Z) (h : gmap Z (gset Z)) : gmap Z (gset Z) :=
  <[x := ∅]> h.

(** [void CreateReference(TCacheEntryBase* other_entry)]:
    [this->references.emplace(other_entry);
     other_entry->references.emplace(this);] *)
Definition CreateReference (this other_entry : Z) (h : gmap Z (gset Z))
  : gmap Z (gset Z) :=
  emplace_reference other_entry this (emplace_reference this other_entry h).

(** [void DestroyAllReferences()]:
    [for (auto& reference : references) reference->references.erase(this);
     references.clear();]  The loop visits the elements of [references] in
    the container's order ([elements]).  An entry that references itself
    would erase from the set being walked; the model covers the entries
    that do not. *)
Definition DestroyAllReferences (this : Z) (h : gmap Z (gset Z)) : gmap Z (gset Z) :=
  clear_references this
    (fold_left (fun h reference => erase_reference reference this h)
       (elements (references this h)) h).

(** References are two-way. *)
Definition two_way (h : gmap Z (gset Z)) : Prop :=
  forall a b, b ∈ references a h -> a ∈ references b h.

End TexRefs.

(** ** The sampler cache and the pipeline cache object (ObjectCache.cpp) *)

Module ObjCacheObjects.
Import ObjCache.

(** The sampler entry points.  [sampler_create_info info aniso] is the
    [VkSamplerCreateInfo] that [GetSampler] fills from [info], with
    [anisotropyEnable] set (and [maxAnisotropy] capped to the device limit)
    when [aniso] holds; [point_sampler_info] and [linear_sampler_info] are
    the two structures of [CreateStaticSamplers].  [vkCreateSampler] yields
    the [VkResult] and the value left in the handle. *)
Class SamplerDriver (SamplerState CreateInfo Device : Type) := {
  enable_anisotropic_filtering : SamplerState -> bool;
  sampler_create_info : SamplerState -> bool -> CreateInfo;
  point_sampler_info : CreateInfo;
  linear_sampler_info : CreateInfo;
  vkCreateSampler : Device -> CreateInfo -> Z * Z * Device;
  vkDestroySampler : Device -> Z -> Device
}.

(** The pipeline cache object and pipeline destruction.
    [vkCreatePipelineCache] takes the initial data. *)
Class PipelineCacheDriver (Device : Type) := {
  vkCreatePipelineCache : Device -> list Z -> Z * Z * Device;
  vkDestroyPipeline : Device -> Z -> Device;
  vkDestroyPipelineCache : Device -> Z -> Device
}.

Section Samplers.
Context {SamplerState CreateInfo Device : Type}.
Context `{Countable SamplerState}.
Context `{!SamplerDriver SamplerState CreateInfo Device}.

(** The sampler members of [ObjectCache] with the driver state;
    [sampler_log] and [destroy_log] record the calls to [vkCreateSampler]
    and [vkDestroySampler]. *)
Record Samplers := {
  m_sampler_cache : gmap SamplerState Z;
  m_point_sampler : Z;
  m_linear_sampler : Z;
  sampler_device : Device;
  sampler_log : list CreateInfo;
  destroy_log : list Z
}.

(** [vkCreateSampler(device, &create_info, nullptr, &sampler)] *)
Definition create_sampler (ci : CreateInfo) (st : Samplers) : Z * Z * Samplers :=
  let '(res, sampler, dev) := vkCreateSampler (sampler_device st) ci in
  (res, sampler,
   {| m_sampler_cache := m_sampler_cache st;
      m_point_sampler := m_point_sampler st;
      m_linear_sampler := m_linear_sampler st;
      sampler_device := dev;
      sampler_log := sampler_log st ++ [ci];
      destroy_log := destroy_log st |}).

(** [vkDestroySampler(device, sampler, nullptr)] *)
Definition destroy_sampler (sampler : Z) (st : Samplers) : Samplers :=
  {| m_sampler_cache := m_sampler_cache st;
     m_point_sampler := m_point_sampler st;
     m_linear_sampler := m_linear_sampler st;
     sampler_device := vkDestroySampler (sampler_device st) sampler;
     sampler_log := sampler_log st;
     destroy_log := destroy_log st ++ [sampler] |}.

Definition set_sampler_cache (m : gmap SamplerState Z) (st : Samplers) : Samplers :=
  {| m_sampler_cache := m;
     m_point_sampler := m_point_sampler st;
     m_linear_sampler := m_linear_sampler st;
     sampler_device := sampler_device st;
     sampler_log := sampler_log st;
     destroy_log := destroy_log st |}.

Definition set_point_sampler (s : Z) (st : Samplers) : Samplers :=
  {| m_sampler_cache := m_sampler_cache st;
     m_point_sampler := s;
     m_linear_sampler := m_linear_sampler st;
     sampler_device := sampler_device st;
     sampler_log := sampler_log st;
     destroy_log := destroy_log st |}.

Definition set_linear_sampler (s : Z) (st : Samplers) : Samplers :=
  {| m_sampler_cache := m_sampler_cache st;
     m_point_sampler := m_point_sampler st;
     m_linear_sampler := s;
     sampler_device := sampler_device st;
     sampler_log := sampler_log st;
     destroy_log := destroy_log st |}.

(** [ObjectCache::GetSampler]; [SupportsAnisotropicFiltering] is the
    device feature bit of [g_vulkan_context]. *)
Definition GetSampler (SupportsAnisotropicFiltering : bool) (info : SamplerState)
    (st : Samplers) : Z * Samplers :=
  match m_sampler_cache st !! info with
  | Some sampler => (sampler, st)
  | None =>
      let create_info :=
        sampler_create_info info
          (enable_anisotropic_filtering info && SupportsAnisotropicFiltering) in
      let '(res, sampler, st) := create_sampler create_info st in
      (sampler, set_sampler_cache (emplace info sampler (m_sampler_cache st)) st)
  end.

(** The body of the loop of [ClearSamplerCache]:
    [if (it.second != VK_NULL_HANDLE) vkDestroySampler(device, it.second, nullptr);] *)
Definition destroy_live (st : Samplers) (it : SamplerState * Z) : Samplers :=
  if negb (snd it =? VK_NULL_HANDLE) then destroy_sampler (snd it) st else st.

(** [ObjectCache::ClearSamplerCache]; the loop walks the map in the
    container's order ([map_to_list]). *)
Definition ClearSamplerCache (st : Samplers) : Samplers :=
  set_sampler_cache ∅ (fold_left destroy_live (map_to_list (m_sampler_cache st)) st).

(** [ObjectCache::DestroySamplers] *)
Definition DestroySamplers (st : Samplers) : Samplers :=
  let st := ClearSamplerCache st in
  let st :=
    if negb (m_point_sampler st =? VK_NULL_HANDLE)
    then set_point_sampler VK_NULL_HANDLE (destroy_sampler (m_point_sampler st) st)
    else st in
  if negb (m_linear_sampler st =? VK_NULL_HANDLE)
  then set_linear_sampler VK_NULL_HANDLE (destroy_sampler (m_linear_sampler st) st)
  else st.

(** [ObjectCache::CreateStaticSamplers] *)
Definition CreateStaticSamplers (st : Samplers) : bool * Samplers :=
  let '(res, sampler, st) := create_sampler point_sampler_info st in
  let st := set_point_sampler sampler st in
  if negb (res =? VK_SUCCESS) then (false, st)
  else
    let '(res, sampler, st) := create_sampler linear_sampler_info st in
    let st := set_linear_sampler sampler st in
    if negb (res =? VK_SUCCESS) then (false, st) else (true, st).

(** A run of [GetSampler] calls. *)
Definition GetSamplers (aniso : bool) (infos : list SamplerState) (st : Samplers)
  : Samplers :=
  fold_left (fun st info => snd (GetSampler aniso info st)) infos st.

(** The handles [ClearSamplerCache] hands to [vkDestroySampler]. *)
Definition live_samplers (st : Samplers) : list Z :=
  filter (fun s => s <> VK_NULL_HANDLE) (map snd (map_to_list (m_sampler_cache st))).

Definition no_samplers (d : Device) : Samplers :=
  {| m_sampler_cache := ∅;
     m_point_sampler := VK_NULL_HANDLE;
     m_linear_sampler := VK_NULL_HANDLE;
     sampler_device := d;
     sampler_log := [];
     destroy_log := [] |}.

End Samplers.

Arguments Samplers SamplerState CreateInfo Device {_ _}.

Section PipelineCache.
Context {PipelineInfo Uid Device : Type}.
Context `{Countable PipelineInfo} `{Countable Uid}.
Context `{!VulkanDriver PipelineInfo Device} `{!ShaderCompiler Uid}.
Context `{!PipelineCacheDriver Device}.

(** The object cache, its [m_pipeline_cache] handle, and the calls made to
    [vkCreatePipelineCache] (with the initial data passed) and to
    [vkDestroyPipeline]. *)
Record PipelineCacheState := {
  objects : ObjectCache PipelineInfo Uid Device;
  m_pipeline_cache : Z;
  cache_log : list (list Z);
  destroyed_pipelines : list Z
}.

(** [vkCreatePipelineCache(device, &info, nullptr, &m_pipeline_cache)] *)
Definition create_pipeline_cache (data : list Z) (st : PipelineCacheState)
  : Z * PipelineCacheState :=
  let '(res, cache, dev) := vkCreatePipelineCache (device (objects st)) data in
  (res,
   {| objects := set_device dev (objects st);
      m_pipeline_cache := cache;
      cache_log := cache_log st ++ [data];
      destroyed_pipelines := destroyed_pipelines st |}).

(** [PipelineCacheReadCallback::Read]: the vector takes the record's value. *)
Definition PipelineCacheReadCallback_Read (key : Z) (value : list Z) (m_data : list Z)
  : list Z := value.

(** [ObjectCache::CreatePipelineCache].  [LinearDiskCache::OpenAndRead] is
    not among the sources: [delivered] are the records it hands to the read
    callback and [count] is the number it returns. *)
Definition CreatePipelineCache (load_from_disk : bool)
    (delivered : list (Z * list Z)) (count : Z) (st : PipelineCacheState)
  : bool * PipelineCacheState :=
  let disk_data : list Z :=
    if load_from_disk then
      let disk_data :=
        fold_left (fun d r => PipelineCacheReadCallback_Read (fst r) (snd r) d)
          delivered [] in
      if negb (count =? 1) then [] else disk_data
    else [] in
  let '(res, st) := create_pipeline_cache disk_data st in
  if res =? VK_SUCCESS then (true, st)
  else
    let '(res, st) := create_pipeline_cache [] st in
    if res =? VK_SUCCESS then (true, st) else (false, st).

(** [vkDestroyPipeline(device, pipeline, nullptr)] *)
Definition destroy_pipeline (pipeline : Z) (st : PipelineCacheState)
  : PipelineCacheState :=
  {| objects := set_device (vkDestroyPipeline (device (objects st)) pipeline) (objects st);
     m_pipeline_cache := m_pipeline_cache st;
     cache_log := cache_log st;
     destroyed_pipelines := destroyed_pipelines st ++ [pipeline] |}.

Definition clear_pipeline_objects (oc : ObjectCache PipelineInfo Uid Device)
  : ObjectCache PipelineInfo Uid Device :=
  {| m_pipeline_objects := ∅;
     m_vs_cache := m_vs_cache oc;
     m_gs_cache := m_gs_cache oc;
     m_ps_cache := m_ps_cache oc;
     device := device oc;
     stats := stats oc;
     pipeline_log := pipeline_log oc;
     compile_log := compile_log oc |}.

(** The body of the loop of [DestroyPipelineCache]:
    [if (it.second != VK_NULL_HANDLE) vkDestroyPipeline(device, it.second, nullptr);] *)
Definition destroy_live_pipeline (st : PipelineCacheState) (it : PipelineInfo * Z)
  : PipelineCacheState :=
  if negb (snd it =? VK_NULL_HANDLE) then destroy_pipeline (snd it) st else st.

(** [ObjectCache::DestroyPipelineCache] *)
Definition DestroyPipelineCache (st : PipelineCacheState) : PipelineCacheState :=
  let st :=
    fold_left destroy_live_pipeline (map_to_list (m_pipeline_objects (objects st))) st in
  let oc := clear_pipeline_objects (objects st) in
  {| objects := set_device (vkDestroyPipelineCache (device oc) (m_pipeline_cache st)) oc;
     m_pipeline_cache := VK_NULL_HANDLE;
     cache_log := cache_log st;
     destroyed_pipelines := destroyed_pipelines st |}.

(** [ObjectCache::ClearPipelineCache]; a failure to re-create the cache
    object raises a [PanicAlert] and execution goes on. *)
Definition ClearPipelineCache (st : PipelineCacheState) : PipelineCacheState :=
  snd (CreatePipelineCache false [] 0 (DestroyPipelineCache st)).

(** [GetPipeline] on the object cache of the state. *)
Definition GetPipelineIn (info : PipelineInfo) (st : PipelineCacheState)
  : Z * PipelineCacheState :=
  let '(pipeline, oc) := GetPipeline info (objects st) in
  (pipeline,
   {| objects := oc;
      m_pipeline_cache := m_pipeline_cache st;
      cache_log := cache_log st;
      destroyed_pipelines := destroyed_pipelines st |}).

(** The reader of a shader cache applied to the records that
    [disk_cache.OpenAndRead] hands to it, in order. *)
Definition ReadRecords (s : Stage) (records : list (Uid * SPIRVCodeVector))
    (oc : ObjectCache PipelineInfo Uid Device) : ObjectCache PipelineInfo Uid Device :=
  fold_left (fun oc r => ShaderCacheReader_Read s (fst r) (snd r) oc) records oc.

End PipelineCache.

Arguments PipelineCacheState PipelineInfo Uid Device {_ _ _ _}.

(** Drivers for the examples: sampler handles are drawn from the device
    counter and a negative sampler state is refused; a pipeline cache is
    created from empty data or from data that starts with the header word
    [1], and refused otherwise. *)
Definition counting_samplers : SamplerDriver Z Z Z :=
  {| enable_anisotropic_filtering := fun info => Z.odd info;
     sampler_create_info := fun info aniso => 2 * info + b2z aniso;
     point_sampler_info := 0;
     linear_sampler_info := 2;
     vkCreateSampler := fun d ci =>
       if ci <? 0 then (-1, VK_NULL_HANDLE, d) else (VK_SUCCESS, 3000 + d, d + 1);
     vkDestroySampler := fun d s => d |}.

Definition header_checking_driver : PipelineCacheDriver Z :=
  {| vkCreatePipelineCache := fun d data =>
       match data with
       | [] => (VK_SUCCESS, 4000 + d, d + 1)
       | h :: _ => if h =? 1 then (VK_SUCCESS, 4000 + d, d + 1) else (-3, VK_NULL_HANDLE, d)
       end;
     vkDestroyPipeline := fun d p => d;
     vkDestroyPipelineCache := fun d c => d |}.

(** A driver that makes a module of every binary. *)
Definition accepting_driver : VulkanDriver Z Z :=
  {| vkCreateGraphicsPipelines := fun d info => (VK_SUCCESS, 1000 + Z.abs d, d + 1);
     CreateShaderModule := fun d spv => (2000 + Z.abs d, d + 1) |}.

Definition sample_pipeline_state : PipelineCacheState Z Z Z :=
  {| objects := sample_cache;
     m_pipeline_cache := VK_NULL_HANDLE;
     cache_log := [];
     destroyed_pipelines := [] |}.

End ObjCacheObjects.

(** ** Runs of the vertex shader manager *)

Module VSMRuns.
Import VSM.

Section Runs.
Context `{FloatModel} `{XFLayout}.

(** The entry points that touch the dirty markers, and runs of them from
    the zero-initialised statics. *)
Inductive Op :=
| OpDirty
| OpInvalidateXFRange (c : CPState) (start end_ : Z)
| OpSetConstants (env : Env).

Definition apply_op (st : State) (o : Op) : State :=
  match o with
  | OpDirty => Dirty st
  | OpInvalidateXFRange c start end_ => InvalidateXFRange c start end_ st
  | OpSetConstants env => SetConstants env st
  end.

Definition run_ops (ops : list Op) (st : State) : State := fold_left apply_op ops st.

(** [InvalidateXFRange] is called with a range of [u32] addresses. *)
Definition op_valid (o : Op) : Prop :=
  match o with
  | OpInvalidateXFRange _ start end_ => 0 <= start <= end_ /\ end_ < 2 ^ 32
  | _ => True
  end.

(** The blocks are no larger than the ranges [Dirty] marks. *)
Definition sizes_ok : Prop :=
  XFMEM_POSMATRICES_END <= 256 /\
  XFMEM_NORMALMATRICES_END - XFMEM_NORMALMATRICES <= 96.

(** A dirty interval that is empty or runs upwards within [limit]. *)
Definition bounded (limit : Z) (iv : Z * Z) : Prop :=
  iv = (-1, -1) \/ 0 <= fst iv <= snd iv /\ snd iv <= limit.

(** An upload of position-matrix or normal-matrix rows that has a
    non-negative count and stays within the 64 (32) rows of the block. *)
Definition rows_ok (w : ConstWrite) : Prop :=
  match w with
  | SetMultiConstant4v C_TRANSFORMMATRICES off count _ =>
      0 <= off /\ 0 <= count /\ off + count <= 64
  | SetMultiConstant3v C_NORMALMATRICES off count _ =>
      0 <= off /\ 0 <= count /\ off + count <= 32
  | _ => True
  end.

(** The writes of the first [SetConstants] after [Dirty], from the
    matrices on: every row of the three matrix blocks, the eight lights,
    the four material colours and the eight texture matrices. *)
Definition full_upload (env : Env) : list ConstWrite :=
  [ SetMultiConstant4v C_TRANSFORMMATRICES 0 64 (PosMatrices 0);
    SetMultiConstant3v C_NORMALMATRICES 0 32 (NormalMatrices 0);
    SetMultiConstant4v C_POSTTRANSFORMMATRICES 0 64 (PostMatrices 0) ]
  ++ flat_map (light_writes env) [0; 1; 2; 3; 4; 5; 6; 7]
  ++ [ SetConstant4 C_MATERIALS 0 (colour_of (ambColor env 0));
       SetConstant4 C_MATERIALS 1 (colour_of (ambColor env 1));
       SetConstant4 C_MATERIALS 2 (colour_of (matColor env 0));
       SetConstant4 C_MATERIALS 3 (colour_of (matColor env 1)) ]
  ++ [ SetMultiConstant4v C_TEXMATRICES 0 3 (PosMatrices (Tex0MtxIdx (cp env) * 4));
       SetMultiConstant4v C_TEXMATRICES 3 3 (PosMatrices (Tex1MtxIdx (cp env) * 4));
       SetMultiConstant4v C_TEXMATRICES 6 3 (PosMatrices (Tex2MtxIdx (cp env) * 4));
       SetMultiConstant4v C_TEXMATRICES 9 3 (PosMatrices (Tex3MtxIdx (cp env) * 4));
       SetMultiConstant4v C_TEXMATRICES 12 3 (PosMatrices (Tex4MtxIdx (cp env) * 4));
       SetMultiConstant4v C_TEXMATRICES 15 3 (PosMatrices (Tex5MtxIdx (cp env) * 4));
       SetMultiConstant4v C_TEXMATRICES 18 3 (PosMatrices (Tex6MtxIdx (cp env) * 4));
       SetMultiConstant4v C_TEXMATRICES 21 3 (PosMatrices (Tex7MtxIdx (cp env) * 4)) ].

(** The register a write goes to. *)
Definition reg_of (w : ConstWrite) : Reg :=
  match w with
  | SetConstant4 r _ _ | SetConstant3v r _ _
  | SetMultiConstant4v r _ _ _ | SetMultiConstant3v r _ _ _ => r
  end.

End Runs.

End VSMRuns.

(** ** Texture binding of the OpenGL texture cache (OGL/TextureCache.cpp) *)

Module OGLBind.
Import TexConfig.

(** The remaining enumerators of [PC_TexFormat] that [SetFormat] names. *)
Class PC_TexFormatMore := {
  PC_TEX_FMT_NONE : Z;
  PC_TEX_FMT_I4_AS_I8 : Z;
  PC_TEX_FMT_I8 : Z;
  PC_TEX_FMT_R32 : Z
}.

(** The enumerators are pairwise different. *)
Definition enumerators_distinct `{PC_TexFormat} `{PC_TexFormatMore} : Prop :=
  NoDup [ PC_TEX_FMT_NONE; PC_TEX_FMT_BGRA32; PC_TEX_FMT_RGBA32;
          PC_TEX_FMT_I4_AS_I8; PC_TEX_FMT_IA4_AS_IA8; PC_TEX_FMT_I8;
          PC_TEX_FMT_IA8; PC_TEX_FMT_RGB565; PC_TEX_FMT_DXT1; PC_TEX_FMT_DXT3;
          PC_TEX_FMT_DXT5; PC_TEX_FMT_R32 ].

(** The OpenGL constants the entry stores; [GL_0] is the literal 0. *)
Inductive GLenum :=
| GL_0 | GL_BGRA | GL_RGBA | GL_RGB | GL_LUMINANCE | GL_LUMINANCE_ALPHA
| GL_INTENSITY4 | GL_INTENSITY8 | GL_LUMINANCE4_ALPHA4 | GL_LUMINANCE8_ALPHA8
| GL_UNSIGNED_BYTE | GL_UNSIGNED_SHORT_5_6_5
| GL_COMPRESSED_RGBA_S3TC_DXT1_EXT | GL_COMPRESSED_RGBA_S3TC_DXT3_EXT
| GL_COMPRESSED_RGBA_S3TC_DXT5_EXT
| GL_DEPTH_COMPONENT32F | GL_DEPTH_COMPONENT.

Inductive PixelStore :=
| GL_UNPACK_ALIGNMENT | GL_UNPACK_COMPRESSED_BLOCK_WIDTH
| GL_UNPACK_COMPRESSED_BLOCK_HEIGHT | GL_UNPACK_COMPRESSED_BLOCK_DEPTH
| GL_UNPACK_COMPRESSED_BLOCK_SIZE | GL_UNPACK_ROW_LENGTH.

(** The OpenGL calls of [Bind], [Load], [SetStage] and the destructor.
    [glActiveTexture unit] is [glActiveTexture(GL_TEXTURE0 + unit)]; the
    target of [glBindTexture] and of the image calls is
    [GL_TEXTURE_2D_ARRAY]. *)
Inductive GLCall :=
| glActiveTexture (unit : Z)
| glBindTexture (texture : Z)
| glDeleteTextures (texture : Z)
| glDeleteFramebuffers (framebuffer : Z)
| glPixelStorei (pname : PixelStore) (param : Z)
| glCompressedTexImage3D (level : Z) (internalformat : GLenum)
    (width height imageSize : Z)
| glTexImage3D (level : Z) (internalformat : GLenum) (width height : Z)
    (format type : GLenum).

(** The part of the OpenGL context the cache shadows: the selected texture
    unit and the texture bound to [GL_TEXTURE_2D_ARRAY] on each unit, with
    the log of the calls made.  [glActiveTexture] selects a unit,
    [glBindTexture] binds on the selected unit, and deleting a texture
    resets every binding of it to 0. *)
Record GL := {
  active_unit : Z;
  bound : Z -> Z;
  calls : list GLCall
}.

Definition gl_call (c : GLCall) (g : GL) : GL :=
  {| active_unit :=
       match c with glActiveTexture unit => unit | _ => active_unit g end;
     bound :=
       match c with
       | glBindTexture texture =>
           fun unit => if unit =? active_unit g then texture else bound g unit
       | glDeleteTextures texture =>
           fun unit => if bound g unit =? texture then 0 else bound g unit
       | _ => bound g
       end;
     calls := calls g ++ [c] |}.

(** The members of [TextureCache::TCacheEntry] used here. *)
Record TCacheEntry := {
  config : TCacheEntryConfig;
  texture : Z;
  nrm_texture : Z;
  framebuffer : Z;
  compressed : bool;
  gl_format : GLenum;
  gl_iformat : GLenum;
  gl_type : GLenum
}.

(** The statics [s_Textures[8]] and [s_ActiveTexture], and the context. *)
Record Statics := {
  s_Textures : list Z;
  s_ActiveTexture : Z;
  gl : GL
}.

Definition call (c : GLCall) (st : Statics) : Statics :=
  {| s_Textures := s_Textures st;
     s_ActiveTexture := s_ActiveTexture st;
     gl := gl_call c (gl st) |}.

Definition set_ActiveTexture (v : Z) (st : Statics) : Statics :=
  {| s_Textures := s_Textures st; s_ActiveTexture := v; gl := gl st |}.

Definition set_Textures (l : list Z) (st : Statics) : Statics :=
  {| s_Textures := l; s_ActiveTexture := s_ActiveTexture st; gl := gl st |}.

(** [(u32)-1], the value that stands for an unknown binding. *)
Definition UNKNOWN : Z := 0xFFFFFFFF.

(** The constructor of [TextureCache]: nothing is known about the context
    [g]. *)
Definition init (g : GL) : Statics :=
  {| s_Textures := repeat UNKNOWN 8; s_ActiveTexture := UNKNOWN; gl := g |}.

(** [TextureCache::SetStage] *)
Definition SetStage (st : Statics) : Statics :=
  if negb (s_ActiveTexture st =? UNKNOWN)
  then call (glActiveTexture (s_ActiveTexture st)) st
  else st.

(** [TextureCache::TCacheEntry::Bind(u32 stage)], for [stage < 8];
    [hires] is [g_ActiveConfig.HiresMaterialMapsEnabled()]. *)
Definition Bind (hires : bool) (e : TCacheEntry) (stage : Z) (st : Statics)
  : Statics :=
  let st :=
    if negb (nrm_texture e =? 0) && hires then
      let st := set_ActiveTexture (u32 (8 + stage)) st in
      let st := call (glActiveTexture (8 + stage)) st in
      call (glBindTexture (nrm_texture e)) st
    else st in
  if negb (s_Textures st !!! Z.to_nat stage =? texture e) then
    let st :=
      if negb (s_ActiveTexture st =? stage)
      then set_ActiveTexture stage (call (glActiveTexture stage) st)
      else st in
    let st := call (glBindTexture (texture e)) st in
    set_Textures (<[Z.to_nat stage := texture e]> (s_Textures st)) st
  else st.

(** [TextureCache::TCacheEntry::~TCacheEntry] *)
Definition Destroy (e : TCacheEntry) (st : Statics) : Statics :=
  let st :=
    if negb (texture e =? 0) then
      let st :=
        set_Textures
          (map (fun gtex => if gtex =? texture e then 0 else gtex) (s_Textures st))
          st in
      call (glDeleteTextures (texture e)) st
    else st in
  let st :=
    if negb (nrm_texture e =? 0) then call (glDeleteTextures (nrm_texture e)) st
    else st in
  if negb (framebuffer e =? 0) then call (glDeleteFramebuffers (framebuffer e)) st
  else st.

Section Formats.
Context `{PC_TexFormat} `{PC_TexFormatMore}.

Definition set_format (compressed' : bool) (format iformat type : GLenum)
    (e : TCacheEntry) : TCacheEntry :=
  {| config := config e; texture := texture e; nrm_texture := nrm_texture e;
     framebuffer := framebuffer e; compressed := compressed';
     gl_format := format; gl_iformat := iformat; gl_type := type |}.

(** [TextureCache::TCacheEntry::SetFormat]: the [switch] on
    [config.pcformat]; the [default] label and [PC_TEX_FMT_NONE] fall
    through to the first case after the [PanicAlert]. *)
Definition SetFormat (e : TCacheEntry) : TCacheEntry :=
  let f := pcformat (config e) in
  if f =? PC_TEX_FMT_NONE then set_format false GL_BGRA GL_RGBA GL_UNSIGNED_BYTE e
  else if f =? PC_TEX_FMT_BGRA32 then set_format false GL_BGRA GL_RGBA GL_UNSIGNED_BYTE e
  else if f =? PC_TEX_FMT_RGBA32 then set_format false GL_RGBA GL_RGBA GL_UNSIGNED_BYTE e
  else if f =? PC_TEX_FMT_I4_AS_I8
  then set_format false GL_LUMINANCE GL_INTENSITY4 GL_UNSIGNED_BYTE e
  else if f =? PC_TEX_FMT_IA4_AS_IA8
  then set_format false GL_LUMINANCE_ALPHA GL_LUMINANCE4_ALPHA4 GL_UNSIGNED_BYTE e
  else if f =? PC_TEX_FMT_I8
  then set_format false GL_LUMINANCE GL_INTENSITY8 GL_UNSIGNED_BYTE e
  else if f =? PC_TEX_FMT_IA8
  then set_format false GL_LUMINANCE_ALPHA GL_LUMINANCE8_ALPHA8 GL_UNSIGNED_BYTE e
  else if f =? PC_TEX_FMT_RGB565
  then set_format false GL_RGB GL_RGB GL_UNSIGNED_SHORT_5_6_5 e
  else if f =? PC_TEX_FMT_DXT1
  then set_format true GL_0 GL_COMPRESSED_RGBA_S3TC_DXT1_EXT GL_0 e
  else if f =? PC_TEX_FMT_DXT3
  then set_format true GL_0 GL_COMPRESSED_RGBA_S3TC_DXT3_EXT GL_0 e
  else if f =? PC_TEX_FMT_DXT5
  then set_format true GL_0 GL_COMPRESSED_RGBA_S3TC_DXT5_EXT GL_0 e
  else if f =? PC_TEX_FMT_R32
  then set_format true GL_DEPTH_COMPONENT32F GL_DEPTH_COMPONENT GL_UNSIGNED_BYTE e
  else set_format false GL_BGRA GL_RGBA GL_UNSIGNED_BYTE e.

(** The image calls of [Load], between the binding of the texture on unit
    9 and [SetStage]. *)
Definition load_calls (e : TCacheEntry) (width height expanded_width level : Z)
  : list GLCall :=
  let f := pcformat (config e) in
  let blocksize := if f =? PC_TEX_FMT_DXT1 then 8 else 16 in
  if is_fmt f [PC_TEX_FMT_DXT1; PC_TEX_FMT_DXT3; PC_TEX_FMT_DXT5] then
    (if negb (expanded_width =? width) then
       [ glPixelStorei GL_UNPACK_ALIGNMENT 1;
         glPixelStorei GL_UNPACK_COMPRESSED_BLOCK_WIDTH 4;
         glPixelStorei GL_UNPACK_COMPRESSED_BLOCK_HEIGHT 4;
         glPixelStorei GL_UNPACK_COMPRESSED_BLOCK_DEPTH 1;
         glPixelStorei GL_UNPACK_COMPRESSED_BLOCK_SIZE blocksize;
         glPixelStorei GL_UNPACK_ROW_LENGTH expanded_width ]
     else [])
    ++ [ glCompressedTexImage3D level (gl_iformat e) width height
           (u32 (u32 (blocks4 width * blocks4 height) * blocksize)) ]
    ++ (if negb (expanded_width =? width) then
          [ glPixelStorei GL_UNPACK_ROW_LENGTH 0;
            glPixelStorei GL_UNPACK_ALIGNMENT 0;
            glPixelStorei GL_UNPACK_COMPRESSED_BLOCK_WIDTH 0;
            glPixelStorei GL_UNPACK_COMPRESSED_BLOCK_HEIGHT 0;
            glPixelStorei GL_UNPACK_COMPRESSED_BLOCK_DEPTH 0;
            glPixelStorei GL_UNPACK_COMPRESSED_BLOCK_SIZE 0 ]
        else [])
  else
    (if negb (expanded_width =? width)
     then [glPixelStorei GL_UNPACK_ROW_LENGTH expanded_width] else [])
    ++ [ glTexImage3D level (gl_iformat e) width height (gl_format e) (gl_type e) ]
    ++ (if negb (expanded_width =? width)
        then [glPixelStorei GL_UNPACK_ROW_LENGTH 0] else []).

(** [TextureCache::TCacheEntry::Load(src, width, height, expanded_width,
    level)]. *)
Definition Load (e : TCacheEntry) (width height expanded_width level : Z)
    (st : Statics) : Statics :=
  let st := call (glActiveTexture 9) st in
  let st := call (glBindTexture (texture e)) st in
  let st := fold_left (fun st c => call c st)
              (load_calls e width height expanded_width level) st in
  SetStage st.

(** Whether [Load] takes the compressed path. *)
Definition uploads_compressed (e : TCacheEntry) : bool :=
  is_fmt (pcformat (config e)) [PC_TEX_FMT_DXT1; PC_TEX_FMT_DXT3; PC_TEX_FMT_DXT5].

End Formats.

(** The shadow state agrees with the context: a known active unit is the
    selected unit, and a known entry of [s_Textures] is the texture bound
    on its unit. *)
Definition coherent (st : Statics) : Prop :=
  length (s_Textures st) = 8%nat /\
  (s_ActiveTexture st <> UNKNOWN -> active_unit (gl st) = s_ActiveTexture st) /\
  forall stage, 0 <= stage < 8 ->
    s_Textures st !!! Z.to_nat stage <> UNKNOWN ->
    bound (gl st) stage = s_Textures st !!! Z.to_nat stage.

(** The calls that neither select a unit nor change a binding. *)
Definition binding_neutral (c : GLCall) : Prop :=
  match c with
  | glActiveTexture _ | glBindTexture _ | glDeleteTextures _ => False
  | _ => True
  end.

(** A context for the examples, and two entries. *)
Definition blank_gl : GL := {| active_unit := 0; bound := fun _ => 0; calls := [] |}.

Definition plain_entry (t : Z) : TCacheEntry :=
  {| config := sample_config; texture := t; nrm_texture := 0; framebuffer := 0;
     compressed := false; gl_format := GL_RGBA; gl_iformat := GL_RGBA;
     gl_type := GL_UNSIGNED_BYTE |}.

Definition sample_formats : PC_TexFormat :=
  {| PC_TEX_FMT_BGRA32 := 1; PC_TEX_FMT_RGBA32 := 2; PC_TEX_FMT_IA4_AS_IA8 := 4;
     PC_TEX_FMT_IA8 := 6; PC_TEX_FMT_RGB565 := 7; PC_TEX_FMT_DXT1 := 8;
     PC_TEX_FMT_DXT3 := 9; PC_TEX_FMT_DXT5 := 10 |}.

Definition sample_formats_more : PC_TexFormatMore :=
  {| PC_TEX_FMT_NONE := 0; PC_TEX_FMT_I4_AS_I8 := 3; PC_TEX_FMT_I8 := 5;
     PC_TEX_FMT_R32 := 11 |}.

(** A 64x64 entry of the format with number [f]. *)
Definition entry_of_format (f : Z) : TCacheEntry :=
  {| config := {| width := 64; height := 64; levels := 1; layers := 1;
                  rendertarget := false; materialmap := false; pcformat := f |};
     texture := 7; nrm_texture := 0; framebuffer := 0; compressed := false;
     gl_format := GL_0; gl_iformat := GL_0; gl_type := GL_0 |}.

End OGLBind.

(** ** Runs of palette loads *)

Module OGLTexCacheRuns.
Import OGLTexCache.

Section Runs.
Context `{PaletteBackend}.

(** One call [LoadLut(lutFmt, addr, size)], made when emulated memory is
    [req_mem]. *)
Record Request := {
  req_mem : Memory;
  req_lutFmt : Z;
  req_addr : Z;
  req_size : Z
}.

Definition load (cfg : Config) (st : State) (r : Request) : State :=
  LoadLut cfg (req_mem r) (req_lutFmt r) (req_addr r) (req_size r) st.

Definition run_loads (cfg : Config) (reqs : list Request) (st : State) : State :=
  fold_left (load cfg) reqs st.

(** The palette streamed last is the palette of [m_last_*], in the format
    recorded for the conversion shader. *)
Definition tracked (st : State) : Prop :=
  last (streamed st) = Some (m_last_size st, m_last_addr st) /\
  s_last_TlutFormat st = m_last_lutFmt st.

End Runs.

End OGLTexCacheRuns.

(** ** Render target geometry (RenderBase.cpp) *)

Module RenderGeometry.

(** [MathUtil::Rectangle<int>] *)
Record TargetRectangle := {
  left : Z;
  top : Z;
  right : Z;
  bottom : Z
}.

(** [int] arithmetic as the compiled code performs it: the result of
    [+], [-] and [*] is reduced to 32 bits in two's complement, and [/]
    truncates towards zero.  The program traps on a division by zero, where
    [Z.quot] yields 0. *)
Definition int_add (a b : Z) : Z := s32 (a + b).
Definition int_sub (a b : Z) : Z := s32 (a - b).
Definition int_mul (a b : Z) : Z := s32 (a * b).
Definition int_div (a b : Z) : Z := s32 (Z.quot a b).

(** [Renderer::ConvertStereoRectangle]; [tab] is
    [g_ActiveConfig.iStereoMode == STEREO_TAB].  The members of the
    rectangles, [height], [width] and the backbuffer sizes are [int]. *)
Definition ConvertStereoRectangle (tab : bool)
    (s_backbuffer_width s_backbuffer_height : Z) (rc : TargetRectangle)
  : TargetRectangle * TargetRectangle :=
  let drawRc :=
    if tab then
      let height := int_sub (bottom rc) (top rc) in
      {| left := left rc; top := int_add (top rc) (int_div height 4);
         right := right rc; bottom := int_sub (bottom rc) (int_div height 4) |}
    else
      let width := int_sub (right rc) (left rc) in
      {| left := int_add (left rc) (int_div width 4); top := top rc;
         right := int_sub (right rc) (int_div width 4); bottom := bottom rc |} in
  if tab then
    ({| left := left drawRc;
        top := int_sub (top drawRc) (int_div s_backbuffer_height 4);
        right := right drawRc;
        bottom := int_sub (bottom drawRc) (int_div s_backbuffer_height 4) |},
     {| left := left drawRc;
        top := int_add (top drawRc) (int_div s_backbuffer_height 4);
        right := right drawRc;
        bottom := int_add (bottom drawRc) (int_div s_backbuffer_height 4) |})
  else
    ({| left := int_sub (left drawRc) (int_div s_backbuffer_width 4);
        top := top drawRc;
        right := int_sub (right drawRc) (int_div s_backbuffer_width 4);
        bottom := bottom drawRc |},
     {| left := int_add (left drawRc) (int_div s_backbuffer_width 4);
        top := top drawRc;
        right := int_add (right drawRc) (int_div s_backbuffer_width 4);
        bottom := bottom drawRc |}).

(** The coordinates of [rc] have magnitude at most [b]. *)
Definition within (b : Z) (rc : TargetRectangle) : Prop :=
  (- b <= left rc <= b /\ - b <= right rc <= b) /\
  (- b <= top rc <= b /\ - b <= bottom rc <= b).

(** The [unsigned int] scale factors of [Renderer]. *)
Record Scale := {
  efb_scale_numeratorX : Z;
  efb_scale_numeratorY : Z;
  efb_scale_denominatorX : Z;
  efb_scale_denominatorY : Z
}.

(** [Renderer::CalculateTargetScale]; [auto] is
    [g_ActiveConfig.iEFBScale == SCALE_AUTO].  The scale factors are cast
    to [int], and the product and the quotient are [int]. *)
Definition CalculateTargetScale (auto : bool) (s : Scale) (x y : Z) : Z * Z :=
  if auto then (x, y)
  else (int_div (int_mul x (s32 (efb_scale_numeratorX s)))
          (s32 (efb_scale_denominatorX s)),
        int_div (int_mul y (s32 (efb_scale_numeratorY s)))
          (s32 (efb_scale_denominatorY s))).

(** [Renderer::SetWindowSize]: the size passed to
    [Host_RequestRenderWindowSize]. *)
Definition SetWindowSize (auto : bool) (s : Scale) (width height : Z) : Z * Z :=
  let width := if width <? 16 then 16 else width in
  let height := if height <? 16 then 16 else height in
  CalculateTargetScale auto s width height.

Definition width_of (rc : TargetRectangle) : Z := right rc - left rc.
Definition height_of (rc : TargetRectangle) : Z := bottom rc - top rc.

End RenderGeometry.

(** * Facts *)

(** ** Fixed-width arithmetic *)

Lemma u32_range z : 0 <= u32 z < 2 ^ 32.
Proof. unfold u32. apply Z.mod_pos_bound. lia. Qed.

Lemma u64_range z : 0 <= u64 z < 2 ^ 64.
Proof. unfold u64. apply Z.mod_pos_bound. lia. Qed.

Lemma u32_small z : 0 <= z < 2 ^ 32 -> u32 z = z.
Proof. intros Hz. unfold u32. now apply Z.mod_small. Qed.

Lemma u64_small z : 0 <= z < 2 ^ 64 -> u64 z = z.
Proof. intros Hz. unfold u64. now apply Z.mod_small. Qed.

Lemma s32_small z : 0 <= z < 2 ^ 31 -> s32 z = z.
Proof.
  intros Hz. unfold s32. rewrite Z.mod_small by lia.
  destruct (Z.ltb_spec z (2 ^ 31)); lia.
Qed.

Lemma b2z_range b : 0 <= b2z b <= 1.
Proof. destruct b; simpl; lia. Qed.

Lemma b2z_inj a b : b2z a = b2z b -> a = b.
Proof. destruct a, b; simpl; intros Hab; congruence || lia. Qed.

(** A value shifted above [k] bits and a value below [2^k] share no bit,
    so or-ing them adds them. *)
Lemma land_shifted_low a b k :
  0 <= k -> 0 <= b < 2 ^ k -> Z.land (a * 2 ^ k) b = 0.
Proof.
  intros Hk Hb. apply Z.bits_inj'. intros n Hn.
  rewrite Z.land_spec, Z.bits_0.
  destruct (Z.lt_ge_cases n k) as [Hlt | Hge].
  - rewrite Z.mul_pow2_bits_low by lia. reflexivity.
  - replace (Z.testbit b n) with false; [apply andb_false_r |].
    symmetry. destruct (Z.eq_dec b 0) as [-> | Hne]; [apply Z.bits_0 |].
    apply Z.bits_above_log2; [lia |].
    apply Z.lt_le_trans with k; [| lia].
    apply Z.log2_lt_pow2; lia.
Qed.

Lemma lor_shifted_low a b k :
  0 <= k -> 0 <= b < 2 ^ k -> Z.lor (a * 2 ^ k) b = a * 2 ^ k + b.
Proof.
  intros Hk Hb.
  rewrite <- Z.lxor_lor by now apply land_shifted_low.
  symmetry. apply Z.add_nocarry_lxor. now apply land_shifted_low.
Qed.

(** ** TCacheEntryConfig *)

Module TexConfigFacts.
Import TexConfig.

Lemma shl64_small x n :
  0 <= n -> 0 <= x -> x * 2 ^ n < 2 ^ 64 -> shl64 x n = x * 2 ^ n.
Proof.
  intros Hn Hx Hlt. unfold shl64.
  assert (1 <= 2 ^ n) by (apply (Z.pow_le_mono_r 2 0 n); lia).
  rewrite (u64_small x) by nia.
  rewrite Z.shiftl_mul_pow2 by lia. apply u64_small. nia.
Qed.

(** Within the ranges of the hash, the fields sit side by side: the hash
    is their positional sum. *)
Lemma Hasher_positional c :
  hash_range c ->
  Hasher c =
    b2z (materialmap c) * 2 ^ 57 + b2z (rendertarget c) * 2 ^ 56 +
    pcformat c * 2 ^ 48 + layers c * 2 ^ 40 + levels c * 2 ^ 32 +
    height c * 2 ^ 16 + width c.
Proof.
  intros (Hw & Hh & Hle & Hla & Hpc). unfold Hasher.
  pose proof (b2z_range (materialmap c)) as Hm.
  pose proof (b2z_range (rendertarget c)) as Hr.
  set (m := b2z (materialmap c)) in *. set (r := b2z (rendertarget c)) in *.
  rewrite !shl64_small by lia.
  rewrite (u64_small (width c)) by lia.
  rewrite (lor_shifted_low m (r * 2 ^ 56) 57) by lia.
  replace (m * 2 ^ 57 + r * 2 ^ 56) with ((m * 2 + r) * 2 ^ 56) by lia.
  rewrite (lor_shifted_low _ (pcformat c * 2 ^ 48) 56) by lia.
  replace ((m * 2 + r) * 2 ^ 56 + pcformat c * 2 ^ 48)
    with (((m * 2 + r) * 2 ^ 8 + pcformat c) * 2 ^ 48) by lia.
  rewrite (lor_shifted_low _ (layers c * 2 ^ 40) 48) by lia.
  replace (((m * 2 + r) * 2 ^ 8 + pcformat c) * 2 ^ 48 + layers c * 2 ^ 40)
    with ((((m * 2 + r) * 2 ^ 8 + pcformat c) * 2 ^ 8 + layers c) * 2 ^ 40) by lia.
  rewrite (lor_shifted_low _ (levels c * 2 ^ 32) 40) by lia.
  replace ((((m * 2 + r) * 2 ^ 8 + pcformat c) * 2 ^ 8 + layers c) * 2 ^ 40
           + levels c * 2 ^ 32)
    with (((((m * 2 + r) * 2 ^ 8 + pcformat c) * 2 ^ 8 + layers c) * 2 ^ 8
           + levels c) * 2 ^ 32) by lia.
  rewrite (lor_shifted_low _ (height c * 2 ^ 16) 32) by lia.
  replace (((((m * 2 + r) * 2 ^ 8 + pcformat c) * 2 ^ 8 + layers c) * 2 ^ 8
            + levels c) * 2 ^ 32 + height c * 2 ^ 16)
    with ((((((m * 2 + r) * 2 ^ 8 + pcformat c) * 2 ^ 8 + layers c) * 2 ^ 8
            + levels c) * 2 ^ 16 + height c) * 2 ^ 16) by lia.
  rewrite (lor_shifted_low _ (width c) 16) by lia.
  rewrite u64_small by lia. lia.
Qed.

(** [operator==] decides equality of configurations. *)
Lemma config_eq_spec a b : config_eq a b = true <-> a = b.
Proof.
  unfold config_eq. split.
  - rewrite !andb_true_iff, !Z.eqb_eq, !Bool.eqb_true_iff.
    destruct a, b; simpl. intros [[[[[[-> ->] ->] ->] ->] ->] ->]. reflexivity.
  - intros ->. rewrite !Z.eqb_refl, !Bool.eqb_reflx. reflexivity.
Qed.

(** C9: on configurations whose width and height are below 2^16 and whose
    levels, layers and format are below 2^8, [Hasher] is injective: two
    such configurations with the same hash are equal, and [operator==]
    says so. *)
Theorem Hasher_injective c1 c2 :
  hash_range c1 -> hash_range c2 ->
  Hasher c1 = Hasher c2 ->
  config_eq c1 c2 = true /\ c1 = c2.
Proof.
  intros H1 H2 Heq.
  rewrite (Hasher_positional c1 H1), (Hasher_positional c2 H2) in Heq.
  destruct H1 as (Hw1 & Hh1 & Hle1 & Hla1 & Hpc1).
  destruct H2 as (Hw2 & Hh2 & Hle2 & Hla2 & Hpc2).
  pose proof (b2z_range (materialmap c1)). pose proof (b2z_range (materialmap c2)).
  pose proof (b2z_range (rendertarget c1)). pose proof (b2z_range (rendertarget c2)).
  assert (Hm : b2z (materialmap c1) = b2z (materialmap c2)) by lia.
  assert (Hr : b2z (rendertarget c1) = b2z (rendertarget c2)) by lia.
  assert (Hp : pcformat c1 = pcformat c2) by lia.
  assert (Hl : layers c1 = layers c2) by lia.
  assert (Hv : levels c1 = levels c2) by lia.
  assert (Hh : height c1 = height c2) by lia.
  assert (Hw : width c1 = width c2) by lia.
  apply b2z_inj in Hm. apply b2z_inj in Hr.
  assert (c1 = c2) as ->.
  { destruct c1, c2; simpl in *; subst; reflexivity. }
  split; [apply config_eq_spec |]; reflexivity.
Qed.

Lemma Hasher_injective_witness :
  config_eq sample_config sample_config = true /\ sample_config = sample_config.
Proof.
  apply (Hasher_injective sample_config sample_config).
  - unfold hash_range; simpl; lia.
  - unfold hash_range; simpl; lia.
  - reflexivity.
Defined.

(** Outside the ranges the fields overlap: a width of 2^16 collides with
    a height of 1. *)
Example Hasher_collision_out_of_range :
  Hasher {| width := 2 ^ 16; height := 0; levels := 1; layers := 1;
            rendertarget := false; materialmap := false; pcformat := 0 |}
  = Hasher {| width := 0; height := 1; levels := 1; layers := 1;
              rendertarget := false; materialmap := false; pcformat := 0 |}.
Proof. reflexivity. Qed.

(** C10: [GetSizeInBytes] returns at least 4096 for every configuration,
    whatever the pixel format, the extents and the flags. *)
Theorem GetSizeInBytes_at_least_4096 `{PC_TexFormat} (c : TCacheEntryConfig) :
  4096 <= GetSizeInBytes c.
Proof. unfold GetSizeInBytes. apply Z.le_max_r. Qed.

(** A format none of the [case] labels names leaves the size at the floor. *)
Lemma GetSizeInBytes_unknown_format `{PC_TexFormat} (c : TCacheEntryConfig) :
  base_size c = 0 -> GetSizeInBytes c = 4096.
Proof.
  intros Hb. unfold GetSizeInBytes. rewrite Hb. simpl.
  destruct ((1 <? levels c) || rendertarget c), (materialmap c); reflexivity.
Qed.

(** The result fits a [u32]. *)
Lemma GetSizeInBytes_u32 `{PC_TexFormat} (c : TCacheEntryConfig) :
  GetSizeInBytes c < 2 ^ 32.
Proof.
  assert (Hb : 0 <= base_size c < 2 ^ 32).
  { unfold base_size. repeat case_match; try apply u32_range; lia. }
  unfold GetSizeInBytes.
  pose proof (u32_range (base_size c + u32 (base_size c * 2))).
  pose proof (u32_range (base_size c * 2)).
  pose proof (u32_range (u32 (base_size c + u32 (base_size c * 2)) * 2)).
  destruct ((1 <? levels c) || rendertarget c), (materialmap c); lia.
Qed.

End TexConfigFacts.

(** ** Texture cache eviction *)

Module TexCacheFacts.
Import TexCache.

Lemma stale_spec f e :
  stale f e = true <-> TEXTURE_KILL_THRESHOLD < f - frameCount e.
Proof. unfold stale. rewrite Z.ltb_lt. lia. Qed.

(** The entries [Cleanup] leaves are those of the cache that are not stale. *)
Lemma Cleanup_elem f cache kv :
  kv ∈ Cleanup f cache <-> kv ∈ cache /\ stale f (snd kv) = false.
Proof.
  induction cache as [| [key entry] rest IH]; simpl.
  - split; [intros Hin | intros [Hin _]]; inversion Hin.
  - destruct (stale f entry) eqn:Hs.
    + rewrite IH, elem_of_cons. split; [tauto |].
      intros [[-> | Hin] Hk]; [simpl in Hk; congruence | tauto].
    + rewrite !elem_of_cons, IH. split.
      * intros [-> | [Hin Hk]]; [simpl; tauto | tauto].
      * tauto.
Qed.

(** Eviction keeps the survivors in their order. *)
Lemma Cleanup_sublist f cache : sublist (Cleanup f cache) cache.
Proof.
  induction cache as [| [key entry] rest IH]; simpl; [constructor |].
  destruct (stale f entry); [now apply sublist_cons | now apply sublist_skip].
Qed.

(** A second pass at the same frame finds nothing to evict. *)
Lemma Cleanup_idempotent f cache : Cleanup f (Cleanup f cache) = Cleanup f cache.
Proof.
  induction cache as [| [key entry] rest IH]; simpl; [reflexivity |].
  destruct (stale f entry) eqn:Hs; simpl; [exact IH |].
  rewrite Hs, IH. reflexivity.
Qed.

(** C1: at frame [f], [Cleanup] removes every entry of the cache that has
    not been used for more than [TEXTURE_KILL_THRESHOLD] = 120 frames and
    keeps every entry used within the last 120 frames; it adds none. *)
Theorem Cleanup_evicts_by_frame_age f cache kv :
  kv ∈ cache ->
  (120 < f - frameCount (snd kv) -> kv ∉ Cleanup f cache) /\
  (f - frameCount (snd kv) <= 120 -> kv ∈ Cleanup f cache) /\
  (forall kv', kv' ∈ Cleanup f cache -> kv' ∈ cache).
Proof.
  intros Hin. split; [| split].
  - intros Hold Hk. apply Cleanup_elem in Hk as [_ Hs].
    assert (stale f (snd kv) = true) by (apply stale_spec; unfold TEXTURE_KILL_THRESHOLD; lia).
    congruence.
  - intros Hnew. apply Cleanup_elem. split; [exact Hin |].
    destruct (stale f (snd kv)) eqn:Hs; [| reflexivity].
    apply stale_spec in Hs. unfold TEXTURE_KILL_THRESHOLD in Hs. lia.
  - intros kv' Hk. now apply Cleanup_elem in Hk as [? _].
Qed.

Lemma Cleanup_evicts_by_frame_age_witness :
  let kv := (0x2000, {| addr := 0x2000; hash := 8; frameCount := 200 |}) in
  (120 < 201 - frameCount (snd kv) -> kv ∉ Cleanup 201 sample_cache) /\
  (201 - frameCount (snd kv) <= 120 -> kv ∈ Cleanup 201 sample_cache) /\
  (forall kv', kv' ∈ Cleanup 201 sample_cache -> kv' ∈ sample_cache).
Proof.
  apply (Cleanup_evicts_by_frame_age 201 sample_cache).
  unfold sample_cache. apply list_elem_of_further, list_elem_of_here.
Defined.

(** At frame 200 the texture of frame 80 has been unused for 120 frames and
    stays; at frame 201 it goes, as the one of frame 10 did. *)
Example Cleanup_sample :
  map fst (Cleanup 201 sample_cache) = [0x2000] /\
  map fst (Cleanup 200 sample_cache) = [0x2000; 0x3000].
Proof. split; reflexivity. Qed.

End TexCacheFacts.

(** ** Vulkan object cache *)

Module ObjCacheFacts.
Import ObjCache.

Section Facts.
Context {PipelineInfo Uid Device : Type}.
Context `{Countable PipelineInfo} `{Countable Uid}.
Context `{!VulkanDriver PipelineInfo Device} `{!ShaderCompiler Uid}.

Implicit Types (oc : ObjectCache PipelineInfo Uid Device) (s : Stage) (uid : Uid).

Lemma emplace_fresh {K V} `{Countable K} (k : K) (v : V) (m : gmap K V) :
  m !! k = None -> emplace k v m = <[k := v]> m.
Proof. intros Hk. unfold emplace. now rewrite Hk. Qed.

Lemma emplace_present {K V} `{Countable K} (k : K) (v w : V) (m : gmap K V) :
  m !! k = Some w -> emplace k v m = m.
Proof. intros Hk. unfold emplace. now rewrite Hk. Qed.

(** *** Pipelines *)

Lemma GetPipeline_hit info oc h :
  m_pipeline_objects oc !! info = Some h -> GetPipeline info oc = (h, oc).
Proof. intros Hh. unfold GetPipeline. now rewrite Hh. Qed.

Lemma GetPipeline_miss info oc :
  m_pipeline_objects oc !! info = None ->
  let r := vkCreateGraphicsPipelines (device oc) info in
  fst (GetPipeline info oc) = snd (fst r) /\
  m_pipeline_objects (snd (GetPipeline info oc))
    = <[info := snd (fst r)]> (m_pipeline_objects oc) /\
  device (snd (GetPipeline info oc)) = snd r /\
  pipeline_log (snd (GetPipeline info oc)) = pipeline_log oc ++ [info].
Proof.
  intros Hn. unfold GetPipeline. rewrite Hn.
  destruct (vkCreateGraphicsPipelines (device oc) info) as [[res p] dev]; simpl.
  rewrite (emplace_fresh _ _ _ Hn). auto.
Qed.

(** After a call the map holds the handle the call returned. *)
Lemma GetPipeline_stored info oc :
  m_pipeline_objects (snd (GetPipeline info oc)) !! info
    = Some (fst (GetPipeline info oc)).
Proof.
  destruct (m_pipeline_objects oc !! info) as [h |] eqn:Hl.
  - now rewrite (GetPipeline_hit _ _ _ Hl).
  - destruct (GetPipeline_miss info oc Hl) as (-> & -> & _).
    apply lookup_insert_eq.
Qed.

(** An entry of the pipeline map is never replaced or removed. *)
Lemma GetPipeline_keeps info' info oc h :
  m_pipeline_objects oc !! info = Some h ->
  m_pipeline_objects (snd (GetPipeline info' oc)) !! info = Some h.
Proof.
  intros Hh.
  destruct (m_pipeline_objects oc !! info') as [h' |] eqn:Hl.
  - now rewrite (GetPipeline_hit _ _ _ Hl).
  - destruct (GetPipeline_miss info' oc Hl) as (_ & -> & _).
    rewrite lookup_insert_ne; [exact Hh | congruence].
Qed.

(** *** Shader modules: the effect of a compilation *)

Lemma cache_of_set_cache s s' c oc :
  cache_of s' (set_cache s c oc) = if decide (s' = s) then c else cache_of s' oc.
Proof. destruct s, s'; simpl; try case_decide; congruence. Qed.

Lemma CompileShaderForUid_pipelines s uid oc :
  m_pipeline_objects (CompileShaderForUid s uid oc) = m_pipeline_objects oc /\
  pipeline_log (CompileShaderForUid s uid oc) = pipeline_log oc.
Proof.
  unfold CompileShaderForUid.
  destruct (CompileShader s (GenerateShaderCode s uid)) as [spv |]; simpl.
  - destruct (CreateShaderModule (device oc) spv) as [m dev]; simpl.
    destruct (m =? VK_NULL_HANDLE); destruct s; simpl; auto.
  - destruct s; simpl; auto.
Qed.

Lemma CompileShaderForUid_log s uid oc :
  compile_log (CompileShaderForUid s uid oc) = compile_log oc ++ [(s, uid)].
Proof.
  unfold CompileShaderForUid.
  destruct (CompileShader s (GenerateShaderCode s uid)) as [spv |]; simpl.
  - destruct (CreateShaderModule (device oc) spv) as [m dev]; simpl.
    destruct (m =? VK_NULL_HANDLE); destruct s; reflexivity.
  - destruct s; reflexivity.
Qed.

Lemma CompileShaderForUid_map s uid oc s' :
  shader_map (cache_of s' (CompileShaderForUid s uid oc)) =
    if decide (s' = s) then
      <[uid := {| initialized := initialized (item_of s uid oc);
                  compiled := true;
                  module := outcome_module (compile_outcome s uid oc) |}]>
        (shader_map (cache_of s oc))
    else shader_map (cache_of s' oc).
Proof.
  unfold CompileShaderForUid, compile_outcome, item_of.
  destruct (CompileShader s (GenerateShaderCode s uid)) as [spv |]; simpl.
  - destruct (CreateShaderModule (device oc) spv) as [m dev]; simpl.
    destruct (Z.eqb_spec m VK_NULL_HANDLE) as [-> | Hne]; destruct s, s'; simpl;
      try case_decide; congruence.
  - destruct s, s'; simpl; try case_decide; congruence.
Qed.

Lemma CompileShaderForUid_disk s uid oc s' :
  disk_cache (cache_of s' (CompileShaderForUid s uid oc)) =
    if decide (s' = s) then
      disk_cache (cache_of s oc) ++ outcome_records uid (compile_outcome s uid oc)
    else disk_cache (cache_of s' oc).
Proof.
  unfold CompileShaderForUid, compile_outcome.
  destruct (CompileShader s (GenerateShaderCode s uid)) as [spv |]; simpl.
  - destruct (CreateShaderModule (device oc) spv) as [m dev]; simpl.
    destruct (m =? VK_NULL_HANDLE); destruct s, s'; simpl;
      try case_decide; rewrite ?app_nil_r; congruence.
  - destruct s, s'; simpl; try case_decide; rewrite ?app_nil_r; congruence.
Qed.

(** The outcome is a success exactly when the compiler produced a binary
    and the driver made a module of it. *)
Lemma compile_outcome_Some s uid oc spv m :
  compile_outcome s uid oc = Some (spv, m) <->
  CompileShader s (GenerateShaderCode s uid) = Some spv /\
  fst (CreateShaderModule (device oc) spv) = m /\ m <> VK_NULL_HANDLE.
Proof.
  unfold compile_outcome.
  destruct (CompileShader s (GenerateShaderCode s uid)) as [spv' |].
  - destruct (Z.eqb_spec (fst (CreateShaderModule (device oc) spv')) VK_NULL_HANDLE)
      as [He | Hne].
    + split; [discriminate |]. intros (Hs & Hm & Hn). congruence.
    + split.
      * intros Hs. inversion Hs; subst. auto.
      * intros (Hs & Hm & _). congruence.
  - split; [discriminate | intros (Hs & _); discriminate].
Qed.

(** C3: [Compile{Vertex,Geometry,Pixel}ShaderForUid] appends the SPIR-V
    binary to the disk cache of its stage, under the UID, if and only if
    the compilation and the creation of the shader module both succeed:
    then the one record [(uid, spv)] is appended and the entry holds the
    module; when either step fails the disk cache is left as it was and
    the entry of the in-memory map holds [VK_NULL_HANDLE].  Either way the
    entry is marked compiled and the disk caches of the other stages are
    untouched. *)
Theorem CompileShaderForUid_appends_iff_success s uid oc :
  let oc' := CompileShaderForUid s uid oc in
  let code := GenerateShaderCode s uid in
  (forall spv,
     CompileShader s code = Some spv ->
     fst (CreateShaderModule (device oc) spv) <> VK_NULL_HANDLE ->
     disk_cache (cache_of s oc') = disk_cache (cache_of s oc) ++ [(uid, spv)] /\
     module (item_of s uid oc') = fst (CreateShaderModule (device oc) spv)) /\
  (CompileShader s code = None \/
   (exists spv, CompileShader s code = Some spv /\
                fst (CreateShaderModule (device oc) spv) = VK_NULL_HANDLE) ->
     disk_cache (cache_of s oc') = disk_cache (cache_of s oc) /\
     module (item_of s uid oc') = VK_NULL_HANDLE) /\
  (exists it, shader_map (cache_of s oc') !! uid = Some it /\ compiled it = true) /\
  (forall s', s' <> s -> disk_cache (cache_of s' oc') = disk_cache (cache_of s' oc)).
Proof.
  cbv zeta.
  assert (Hitem : item_of s uid (CompileShaderForUid s uid oc)
                  = {| initialized := initialized (item_of s uid oc);
                       compiled := true;
                       module := outcome_module (compile_outcome s uid oc) |}).
  { unfold item_of at 1.
    now rewrite CompileShaderForUid_map, decide_True, lookup_insert_eq. }
  split; [| split; [| split]].
  - intros spv Hs Hm.
    assert (Ho : compile_outcome s uid oc
                 = Some (spv, fst (CreateShaderModule (device oc) spv)))
      by (apply compile_outcome_Some; auto).
    rewrite CompileShaderForUid_disk, decide_True, Hitem, Ho by reflexivity.
    auto.
  - intros Hfail.
    assert (Ho : compile_outcome s uid oc = None).
    { unfold compile_outcome. destruct Hfail as [-> | (spv & -> & ->)];
        [reflexivity | now rewrite Z.eqb_refl]. }
    rewrite CompileShaderForUid_disk, decide_True, Hitem, Ho by reflexivity.
    simpl. now rewrite app_nil_r.
  - rewrite CompileShaderForUid_map, decide_True, lookup_insert_eq by reflexivity.
    eexists. split; reflexivity.
  - intros s' Hne. rewrite CompileShaderForUid_disk. now rewrite decide_False.
Qed.

(** *** Shader modules: lookup through the cache *)

Lemma set_cache_same s oc : set_cache s (cache_of s oc) oc = oc.
Proof. destruct oc, s; reflexivity. Qed.

Lemma set_item_present s uid it oc :
  shader_map (cache_of s oc) !! uid = Some it -> set_item s uid it oc = oc.
Proof.
  intros Hl. unfold set_item. rewrite (insert_id _ _ _ Hl).
  destruct (cache_of s oc) eqn:Hc; simpl. rewrite <- Hc. apply set_cache_same.
Qed.

Lemma item_of_initialized s uid oc :
  initialized (item_of s uid oc) = true ->
  shader_map (cache_of s oc) !! uid = Some (item_of s uid oc).
Proof.
  unfold item_of. destruct (shader_map (cache_of s oc) !! uid); simpl;
    [reflexivity | discriminate].
Qed.

Lemma cache_of_set_item s uid it oc s' :
  shader_map (cache_of s' (set_item s uid it oc)) =
    if decide (s' = s) then <[uid := it]> (shader_map (cache_of s oc))
    else shader_map (cache_of s' oc).
Proof.
  unfold set_item. rewrite cache_of_set_cache. case_decide; reflexivity.
Qed.

Lemma set_item_log s uid it oc :
  compile_log (set_item s uid it oc) = compile_log oc /\
  m_pipeline_objects (set_item s uid it oc) = m_pipeline_objects oc /\
  device (set_item s uid it oc) = device oc.
Proof. destruct s; simpl; auto. Qed.

Lemma GetOrAdd_item s uid oc : item_of s uid (GetOrAdd s uid oc) = item_of s uid oc.
Proof.
  unfold GetOrAdd, item_of.
  destruct (shader_map (cache_of s oc) !! uid) eqn:Hl; [now rewrite Hl |].
  rewrite cache_of_set_item, decide_True, lookup_insert_eq by reflexivity.
  reflexivity.
Qed.

Lemma GetOrAdd_map s uid oc s' uid' :
  (s', uid') <> (s, uid) ->
  shader_map (cache_of s' (GetOrAdd s uid oc)) !! uid'
    = shader_map (cache_of s' oc) !! uid'.
Proof.
  intros Hne. unfold GetOrAdd.
  destruct (shader_map (cache_of s oc) !! uid); [reflexivity |].
  rewrite cache_of_set_item. case_decide; [subst |]; [| reflexivity].
  rewrite lookup_insert_ne; [reflexivity | congruence].
Qed.

Lemma GetOrAdd_log s uid oc :
  compile_log (GetOrAdd s uid oc) = compile_log oc /\
  m_pipeline_objects (GetOrAdd s uid oc) = m_pipeline_objects oc /\
  device (GetOrAdd s uid oc) = device oc.
Proof.
  unfold GetOrAdd. destruct (shader_map (cache_of s oc) !! uid); [auto |].
  apply set_item_log.
Qed.

(** A call on an initialized entry returns its module and changes nothing. *)
Lemma GetShaderForUid_hit s uid oc :
  initialized (item_of s uid oc) = true ->
  GetShaderForUid s uid oc = (module (item_of s uid oc), oc).
Proof.
  intros Hi. pose proof (item_of_initialized _ _ _ Hi) as Hl.
  unfold GetShaderForUid, GetOrAdd. rewrite Hl.
  assert (Hit : {| initialized := true; compiled := compiled (item_of s uid oc);
                   module := module (item_of s uid oc) |} = item_of s uid oc).
  { destruct (item_of s uid oc); simpl in *; congruence. }
  rewrite Hit, (set_item_present _ _ _ _ Hl), Hi. reflexivity.
Qed.

Lemma GetShaderForUid_miss s uid oc :
  initialized (item_of s uid oc) = false ->
  GetShaderForUid s uid oc =
    (outcome_module (compile_outcome s uid oc),
     CompileShaderForUid s uid (claimed s uid oc)).
Proof.
  intros Hi. unfold GetShaderForUid. rewrite GetOrAdd_item, Hi.
  fold (claimed s uid oc). f_equal.
  unfold item_of at 1.
  rewrite CompileShaderForUid_map, decide_True, lookup_insert_eq by reflexivity.
  simpl. unfold compile_outcome, claimed.
  destruct (set_item_log s uid
              {| initialized := true; compiled := compiled (item_of s uid oc);
                 module := module (item_of s uid oc) |} (GetOrAdd s uid oc))
    as (_ & _ & ->).
  destruct (GetOrAdd_log s uid oc) as (_ & _ & ->). reflexivity.
Qed.

(** What a call leaves in the entries of the shader maps. *)
Lemma GetShaderForUid_entry s uid oc :
  shader_map (cache_of s (snd (GetShaderForUid s uid oc))) !! uid =
    Some {| initialized := true; compiled :=
              if initialized (item_of s uid oc) then compiled (item_of s uid oc) else true;
            module := fst (GetShaderForUid s uid oc) |}.
Proof.
  destruct (initialized (item_of s uid oc)) eqn:Hi.
  - rewrite (GetShaderForUid_hit _ _ _ Hi); simpl.
    rewrite (item_of_initialized _ _ _ Hi). f_equal.
    destruct (item_of s uid oc); simpl in *; congruence.
  - rewrite (GetShaderForUid_miss _ _ _ Hi); simpl.
    rewrite CompileShaderForUid_map, decide_True, lookup_insert_eq by reflexivity.
    f_equal. f_equal.
    + unfold claimed, item_of.
      now rewrite cache_of_set_item, decide_True, lookup_insert_eq by reflexivity.
    + unfold compile_outcome, claimed.
      destruct (set_item_log s uid
                  {| initialized := true; compiled := compiled (item_of s uid oc);
                     module := module (item_of s uid oc) |} (GetOrAdd s uid oc))
        as (_ & _ & ->).
      destruct (GetOrAdd_log s uid oc) as (_ & _ & ->). reflexivity.
Qed.

Lemma GetShaderForUid_others s uid oc s' uid' :
  (s', uid') <> (s, uid) ->
  shader_map (cache_of s' (snd (GetShaderForUid s uid oc))) !! uid'
    = shader_map (cache_of s' oc) !! uid'.
Proof.
  intros Hne. destruct (initialized (item_of s uid oc)) eqn:Hi.
  - now rewrite (GetShaderForUid_hit _ _ _ Hi).
  - rewrite (GetShaderForUid_miss _ _ _ Hi); simpl.
    rewrite CompileShaderForUid_map. unfold claimed.
    case_decide as Hs.
    + subst s'. rewrite lookup_insert_ne by congruence.
      rewrite cache_of_set_item, decide_True by reflexivity.
      rewrite lookup_insert_ne by congruence. now apply GetOrAdd_map.
    + rewrite cache_of_set_item, decide_False by exact Hs. now apply GetOrAdd_map.
Qed.

Lemma GetShaderForUid_log s uid oc :
  compile_log (snd (GetShaderForUid s uid oc)) =
    compile_log oc ++ (if initialized (item_of s uid oc) then [] else [(s, uid)]).
Proof.
  destruct (initialized (item_of s uid oc)) eqn:Hi.
  - rewrite (GetShaderForUid_hit _ _ _ Hi); simpl. now rewrite app_nil_r.
  - rewrite (GetShaderForUid_miss _ _ _ Hi); simpl.
    rewrite CompileShaderForUid_log. unfold claimed.
    destruct (set_item_log s uid
                {| initialized := true; compiled := compiled (item_of s uid oc);
                   module := module (item_of s uid oc) |} (GetOrAdd s uid oc))
      as (-> & _).
    destruct (GetOrAdd_log s uid oc) as (-> & _). reflexivity.
Qed.

Lemma GetShaderForUid_pipelines s uid oc :
  m_pipeline_objects (snd (GetShaderForUid s uid oc)) = m_pipeline_objects oc.
Proof.
  destruct (initialized (item_of s uid oc)) eqn:Hi.
  - now rewrite (GetShaderForUid_hit _ _ _ Hi).
  - rewrite (GetShaderForUid_miss _ _ _ Hi); simpl.
    destruct (CompileShaderForUid_pipelines s uid (claimed s uid oc)) as (-> & _).
    unfold claimed.
    destruct (set_item_log s uid
                {| initialized := true; compiled := compiled (item_of s uid oc);
                   module := module (item_of s uid oc) |} (GetOrAdd s uid oc))
      as (_ & -> & _).
    now destruct (GetOrAdd_log s uid oc) as (_ & -> & _).
Qed.

(** *** Runs of calls *)

Lemma GetPipeline_caches info oc s :
  cache_of s (snd (GetPipeline info oc)) = cache_of s oc /\
  compile_log (snd (GetPipeline info oc)) = compile_log oc.
Proof.
  unfold GetPipeline. destruct (m_pipeline_objects oc !! info); [auto |].
  destruct (vkCreateGraphicsPipelines (device oc) info) as [[res p] dev].
  destruct s; simpl; auto.
Qed.

(** An initialized entry stays as it is, whatever is called next. *)
Lemma step_keeps_entry c s uid oc :
  initialized (item_of s uid oc) = true ->
  item_of s uid (step oc c) = item_of s uid oc.
Proof.
  intros Hi. destruct c as [info | s' uid']; simpl.
  - unfold item_of. now destruct (GetPipeline_caches info oc s) as (-> & _).
  - destruct (decide ((s, uid) = (s', uid'))) as [He | Hne].
    + inversion He; subst. now rewrite (GetShaderForUid_hit _ _ _ Hi).
    + unfold item_of. now rewrite GetShaderForUid_others.
Qed.

Lemma run_keeps_entry calls s uid oc :
  initialized (item_of s uid oc) = true ->
  item_of s uid (run calls oc) = item_of s uid oc.
Proof.
  revert oc. induction calls as [| c calls IH]; intros oc Hi; [reflexivity |].
  simpl. rewrite IH; rewrite (step_keeps_entry c _ _ _ Hi); auto.
Qed.

Lemma step_keeps_pipeline c info oc h :
  m_pipeline_objects oc !! info = Some h ->
  m_pipeline_objects (step oc c) !! info = Some h.
Proof.
  intros Hh. destruct c as [info' | s uid]; simpl.
  - now apply GetPipeline_keeps.
  - now rewrite GetShaderForUid_pipelines.
Qed.

Lemma run_keeps_pipeline calls info oc h :
  m_pipeline_objects oc !! info = Some h ->
  m_pipeline_objects (run calls oc) !! info = Some h.
Proof.
  revert oc. induction calls as [| c calls IH]; intros oc Hh; [exact Hh |].
  simpl. apply IH. now apply step_keeps_pipeline.
Qed.

(** The compile attempts of a step: none, or one for an entry that was
    not initialized. *)
Lemma step_log c oc :
  exists new,
    compile_log (step oc c) = compile_log oc ++ new /\
    (new = [] \/
     exists s uid, new = [(s, uid)] /\
       initialized (item_of s uid oc) = false /\
       initialized (item_of s uid (step oc c)) = true).
Proof.
  destruct c as [info | s uid]; simpl.
  - exists []. destruct (GetPipeline_caches info oc Vertex) as (_ & ->).
    rewrite app_nil_r. auto.
  - rewrite GetShaderForUid_log.
    destruct (initialized (item_of s uid oc)) eqn:Hi; eexists; split; eauto.
    right. exists s, uid. repeat split; [exact Hi |].
    unfold item_of at 1. now rewrite GetShaderForUid_entry.
Qed.

(** Over any run, the new compile attempts are pairwise distinct and are
    for entries that were not initialized when the run began. *)
Lemma run_log calls oc :
  exists new,
    compile_log (run calls oc) = compile_log oc ++ new /\
    NoDup new /\
    (forall s uid, (s, uid) ∈ new -> initialized (item_of s uid oc) = false).
Proof.
  revert oc. induction calls as [| c calls IH]; intros oc.
  - exists []. simpl. rewrite app_nil_r. split; [reflexivity |].
    split; [constructor | intros s uid Hin; inversion Hin].
  - simpl. destruct (IH (step oc c)) as (new2 & Hlog2 & Hnd2 & Hun2).
    destruct (step_log c oc) as (new1 & Hlog1 & Hnew1).
    exists (new1 ++ new2). split; [| split].
    + rewrite Hlog2, Hlog1. now rewrite app_assoc.
    + destruct Hnew1 as [-> | (s & uid & -> & Hi & Hi')]; [exact Hnd2 |].
      simpl. constructor; [| exact Hnd2].
      intros Hin. apply Hun2 in Hin. congruence.
    + intros s uid Hin. apply elem_of_app in Hin as [Hin | Hin].
      * destruct Hnew1 as [-> | (s0 & uid0 & -> & Hi & _)]; [inversion Hin |].
        apply list_elem_of_singleton in Hin. inversion Hin; subst. exact Hi.
      * apply Hun2 in Hin.
        destruct (initialized (item_of s uid oc)) eqn:Hi; [| reflexivity].
        rewrite (step_keeps_entry c _ _ _ Hi) in Hin. congruence.
Qed.

(** A record read back from the disk cache is never compiled again: the
    entry is initialized, and a request returns the module made of it. *)
Lemma ShaderCacheReader_Read_then_Get s key value oc :
  fst (CreateShaderModule (device oc) value) <> VK_NULL_HANDLE ->
  let oc' := ShaderCacheReader_Read s key value oc in
  GetShaderForUid s key oc'
    = (fst (CreateShaderModule (device oc) value), oc').
Proof.
  intros Hm. cbv zeta.
  assert (Hit : item_of s key (ShaderCacheReader_Read s key value oc)
                = {| initialized := true; compiled := true;
                     module := fst (CreateShaderModule (device oc) value) |}).
  { unfold ShaderCacheReader_Read.
    destruct (CreateShaderModule (device oc) value) as [m dev]; simpl in *.
    destruct (Z.eqb_spec m VK_NULL_HANDLE); [contradiction |].
    unfold item_of.
    now rewrite cache_of_set_item, decide_True, lookup_insert_eq. }
  rewrite GetShaderForUid_hit by now rewrite Hit.
  now rewrite Hit.
Qed.

(** C2: [GetPipeline] is a cache in front of [vkCreateGraphicsPipelines].
    When the map holds the description, the stored handle is returned and
    nothing changes: no pipeline is created.  Otherwise one pipeline is
    created and the handle is stored under the description.  So every later
    call with the same description, whatever was called in between,
    returns the handle of the first and creates nothing. *)
Theorem GetPipeline_cached info oc :
  (forall h, m_pipeline_objects oc !! info = Some h ->
     GetPipeline info oc = (h, oc)) /\
  (m_pipeline_objects oc !! info = None ->
     let r := vkCreateGraphicsPipelines (device oc) info in
     fst (GetPipeline info oc) = snd (fst r) /\
     m_pipeline_objects (snd (GetPipeline info oc))
       = <[info := snd (fst r)]> (m_pipeline_objects oc) /\
     pipeline_log (snd (GetPipeline info oc)) = pipeline_log oc ++ [info]) /\
  (forall calls,
     let oc1 := run calls (snd (GetPipeline info oc)) in
     GetPipeline info oc1 = (fst (GetPipeline info oc), oc1)).
Proof.
  split; [| split].
  - intros h Hh. now apply GetPipeline_hit.
  - intros Hn. destruct (GetPipeline_miss info oc Hn) as (Hf & Hm & _ & Hl). auto.
  - intros calls oc1. apply GetPipeline_hit. subst oc1.
    apply run_keeps_pipeline, GetPipeline_stored.
Qed.

(** C8: [Get{Vertex,Geometry,Pixel}ShaderForUid] attempts the compilation
    of a UID at most once.  A call on an entry that is not initialized
    makes one attempt and caches the module, [VK_NULL_HANDLE] when the
    attempt fails; a call on an initialized entry makes none.  Every later
    call with the UID, whatever was called in between, returns the cached
    module and changes nothing; and over any run of calls no UID is
    compiled twice. *)
Theorem GetShaderForUid_compiles_once s uid oc :
  let m := fst (GetShaderForUid s uid oc) in
  let oc1 := snd (GetShaderForUid s uid oc) in
  (initialized (item_of s uid oc) = false ->
     compile_log oc1 = compile_log oc ++ [(s, uid)] /\
     m = outcome_module (compile_outcome s uid oc) /\
     (compile_outcome s uid oc = None -> m = VK_NULL_HANDLE)) /\
  (initialized (item_of s uid oc) = true ->
     oc1 = oc /\ m = module (item_of s uid oc)) /\
  shader_map (cache_of s oc1) !! uid =
    Some {| initialized := true;
            compiled := if initialized (item_of s uid oc)
                        then compiled (item_of s uid oc) else true;
            module := m |} /\
  (forall calls,
     let oc2 := run calls oc1 in GetShaderForUid s uid oc2 = (m, oc2)) /\
  (forall calls,
     NoDup (compiles_since (length (compile_log oc)) (run calls oc))).
Proof.
  intros m oc1. subst m oc1. split; [| split; [| split; [| split]]].
  - intros Hi. rewrite GetShaderForUid_log, Hi.
    rewrite (GetShaderForUid_miss _ _ _ Hi); simpl.
    split; [reflexivity |]. split; [reflexivity |]. now intros ->.
  - intros Hi. now rewrite (GetShaderForUid_hit _ _ _ Hi).
  - apply GetShaderForUid_entry.
  - intros calls oc2.
    assert (Hi : initialized (item_of s uid (snd (GetShaderForUid s uid oc))) = true).
    { unfold item_of. now rewrite GetShaderForUid_entry. }
    assert (Hk : item_of s uid oc2 = item_of s uid (snd (GetShaderForUid s uid oc))).
    { subst oc2. now apply run_keeps_entry. }
    rewrite GetShaderForUid_hit by (now rewrite Hk).
    rewrite Hk. unfold item_of. now rewrite GetShaderForUid_entry.
  - intros calls. destruct (run_log calls oc) as (new & Hlog & Hnd & _).
    unfold compiles_since. now rewrite Hlog, drop_app_length.
Qed.

End Facts.
End ObjCacheFacts.

(** ** Vertex shader constants *)

Module VSMFacts.
Import VSM.

Section Facts.
Context `{FloatModel}.

Implicit Types (env : Env) (st : State) (iv : Z * Z).

(** *** A block whose condition fails does nothing *)

Lemma sync_phong_rim_skip env st :
  phong_rim_changed env st = false -> sync_phong_rim env st = st.
Proof. intros Hc. unfold sync_phong_rim. now rewrite Hc. Qed.

Lemma sync_phong_bump_skip env st :
  phong_bump_changed env st = false -> sync_phong_bump env st = st.
Proof. intros Hc. unfold sync_phong_bump. now rewrite Hc. Qed.

Lemma sync_transform_skip st :
  dirty (s_transform_matrices_changed st) = false -> sync_transform st = st.
Proof. intros Hc. unfold sync_transform. now rewrite Hc. Qed.

Lemma sync_normal_skip st :
  dirty (s_normal_matrices_changed st) = false -> sync_normal st = st.
Proof. intros Hc. unfold sync_normal. now rewrite Hc. Qed.

Lemma sync_post_skip st :
  dirty (nPostTransformMatricesChanged st) = false -> sync_post st = st.
Proof. intros Hc. unfold sync_post. now rewrite Hc. Qed.

Lemma sync_lights_skip env st :
  dirty (s_lights_changed st) = false -> sync_lights env st = st.
Proof. intros Hc. unfold sync_lights. now rewrite Hc. Qed.

Lemma sync_materials_skip env st :
  materials_dirty st = false -> sync_materials env st = st.
Proof. intros Hc. unfold sync_materials. now rewrite Hc. Qed.

Lemma sync_tex_a_skip env st :
  fst (s_tex_matrices_changed st) = false -> sync_tex_a env st = st.
Proof. intros Hc. unfold sync_tex_a. now rewrite Hc. Qed.

Lemma sync_tex_b_skip env st :
  snd (s_tex_matrices_changed st) = false -> sync_tex_b env st = st.
Proof. intros Hc. unfold sync_tex_b. now rewrite Hc. Qed.

Lemma sync_viewport_skip env st :
  bViewportChanged st = false -> sync_viewport env st = st.
Proof. intros Hc. unfold sync_viewport. now rewrite Hc. Qed.

Lemma sync_projection_skip env st :
  bProjectionChanged st = false -> sync_projection env st = st.
Proof. intros Hc. unfold sync_projection. now rewrite Hc. Qed.

(** [SetConstants] on a clean state is the identity: nothing is written. *)
Lemma SetConstants_clean_id env st : clean env st -> SetConstants env st = st.
Proof.
  unfold clean, pending. simpl. intros Hc.
  injection Hc as H1 H2 H3 H4 H5 H6 H7 H8 H9 H10 H11.
  unfold SetConstants. cbv zeta.
  rewrite (sync_phong_rim_skip _ _ H1), (sync_phong_bump_skip _ _ H2),
    (sync_transform_skip _ H3), (sync_normal_skip _ H4), (sync_post_skip _ H5),
    (sync_lights_skip _ _ H6), (sync_materials_skip _ _ H7),
    (sync_tex_a_skip _ _ H8), (sync_tex_b_skip _ _ H9),
    (sync_viewport_skip _ _ H10).
  now apply sync_projection_skip.
Qed.

(** *** Each block clears its own condition and leaves the earlier ones *)

Lemma sync_phong_rim_pending env st :
  firstn 1 (pending env (sync_phong_rim env st)) = [false].
Proof.
  unfold sync_phong_rim.
  destruct (phong_rim_changed env st) eqn:Hc; simpl; [| unfold pending; simpl; rewrite ?Hc; reflexivity].
  unfold phong_rim_changed; simpl. now rewrite !Z.eqb_refl.
Qed.

Lemma sync_phong_bump_pending env st :
  firstn 2 (pending env (sync_phong_bump env st))
    = firstn 1 (pending env st) ++ [false].
Proof.
  unfold sync_phong_bump.
  destruct (phong_bump_changed env st) eqn:Hc; simpl; [| unfold pending; simpl; rewrite ?Hc; reflexivity].
  unfold phong_bump_changed; simpl. now rewrite !Z.eqb_refl.
Qed.

Lemma sync_transform_pending env st :
  firstn 3 (pending env (sync_transform st)) = firstn 2 (pending env st) ++ [false].
Proof.
  unfold sync_transform.
  destruct (dirty (s_transform_matrices_changed st)) eqn:Hc; simpl;
    [reflexivity | unfold pending; simpl; rewrite ?Hc; reflexivity].
Qed.

Lemma sync_normal_pending env st :
  firstn 4 (pending env (sync_normal st)) = firstn 3 (pending env st) ++ [false].
Proof.
  unfold sync_normal.
  destruct (dirty (s_normal_matrices_changed st)) eqn:Hc; simpl;
    [reflexivity | unfold pending; simpl; rewrite ?Hc; reflexivity].
Qed.

Lemma sync_post_pending env st :
  firstn 5 (pending env (sync_post st)) = firstn 4 (pending env st) ++ [false].
Proof.
  unfold sync_post.
  destruct (dirty (nPostTransformMatricesChanged st)) eqn:Hc; simpl;
    [reflexivity | unfold pending; simpl; rewrite ?Hc; reflexivity].
Qed.

Lemma sync_lights_pending env st :
  firstn 6 (pending env (sync_lights env st)) = firstn 5 (pending env st) ++ [false].
Proof.
  unfold sync_lights.
  destruct (dirty (s_lights_changed st)) eqn:Hc; simpl;
    [reflexivity | unfold pending; simpl; rewrite ?Hc; reflexivity].
Qed.

Lemma sync_materials_pending env st :
  firstn 7 (pending env (sync_materials env st))
    = firstn 6 (pending env st) ++ [false].
Proof.
  unfold sync_materials.
  destruct (materials_dirty st) eqn:Hc; simpl; [reflexivity | unfold pending; simpl; rewrite ?Hc; reflexivity].
Qed.

Lemma sync_tex_a_pending env st :
  firstn 8 (pending env (sync_tex_a env st)) = firstn 7 (pending env st) ++ [false].
Proof.
  unfold sync_tex_a.
  destruct (fst (s_tex_matrices_changed st)) eqn:Hc; simpl;
    [reflexivity | unfold pending; simpl; rewrite ?Hc; reflexivity].
Qed.

Lemma sync_tex_b_pending env st :
  firstn 9 (pending env (sync_tex_b env st)) = firstn 8 (pending env st) ++ [false].
Proof.
  unfold sync_tex_b.
  destruct (snd (s_tex_matrices_changed st)) eqn:Hc; simpl;
    [reflexivity | unfold pending; simpl; rewrite ?Hc; reflexivity].
Qed.

Lemma sync_viewport_pending env st :
  firstn 10 (pending env (sync_viewport env st))
    = firstn 9 (pending env st) ++ [false].
Proof.
  unfold sync_viewport.
  destruct (bViewportChanged st) eqn:Hc; simpl; [| unfold pending; simpl; rewrite ?Hc; reflexivity].
  destruct (bSupportsOversizedViewports (config env)); reflexivity.
Qed.

Lemma sync_projection_pending env st :
  pending env (sync_projection env st) = firstn 10 (pending env st) ++ [false].
Proof.
  unfold sync_projection.
  destruct (bProjectionChanged st) eqn:Hc; simpl; [| unfold pending; simpl; rewrite ?Hc; reflexivity].
  destruct (bSupportsPostProcessing (config env) && has_post_processor env);
    reflexivity.
Qed.

(** After [SetConstants] no condition holds. *)
Lemma SetConstants_clean env st : clean env (SetConstants env st).
Proof.
  unfold clean, SetConstants. cbv zeta.
  rewrite sync_projection_pending, sync_viewport_pending, sync_tex_b_pending,
    sync_tex_a_pending, sync_materials_pending, sync_lights_pending,
    sync_post_pending, sync_normal_pending, sync_transform_pending,
    sync_phong_bump_pending, sync_phong_rim_pending.
  reflexivity.
Qed.

(** Running [SetConstants] twice is running it once. *)
Lemma SetConstants_idempotent env st :
  SetConstants env (SetConstants env st) = SetConstants env st.
Proof. apply SetConstants_clean_id, SetConstants_clean. Qed.

(** *** The dirty intervals through [SetConstants] *)

Lemma intervals_sync_phong_rim env st :
  intervals (sync_phong_rim env st) = intervals st.
Proof. unfold sync_phong_rim. case_match; reflexivity. Qed.

Lemma intervals_sync_phong_bump env st :
  intervals (sync_phong_bump env st) = intervals st.
Proof. unfold sync_phong_bump. case_match; reflexivity. Qed.

Lemma intervals_sync_transform st :
  intervals (sync_transform st) = alter consumed 0%nat (intervals st).
Proof. unfold sync_transform, intervals, consumed. simpl. case_match; reflexivity. Qed.

Lemma intervals_sync_normal st :
  intervals (sync_normal st) = alter consumed 1%nat (intervals st).
Proof. unfold sync_normal, intervals, consumed. simpl. case_match; reflexivity. Qed.

Lemma intervals_sync_post st :
  intervals (sync_post st) = alter consumed 2%nat (intervals st).
Proof. unfold sync_post, intervals, consumed. simpl. case_match; reflexivity. Qed.

Lemma intervals_sync_lights env st :
  intervals (sync_lights env st) = alter consumed 3%nat (intervals st).
Proof. unfold sync_lights, intervals, consumed. simpl. case_match; reflexivity. Qed.

Lemma intervals_sync_materials env st :
  intervals (sync_materials env st) = intervals st.
Proof. unfold sync_materials. case_match; reflexivity. Qed.

Lemma intervals_sync_tex_a env st : intervals (sync_tex_a env st) = intervals st.
Proof. unfold sync_tex_a. case_match; reflexivity. Qed.

Lemma intervals_sync_tex_b env st : intervals (sync_tex_b env st) = intervals st.
Proof. unfold sync_tex_b. case_match; reflexivity. Qed.

Lemma intervals_sync_viewport env st :
  intervals (sync_viewport env st) = intervals st.
Proof. unfold sync_viewport. repeat case_match; reflexivity. Qed.

Lemma intervals_sync_projection env st :
  intervals (sync_projection env st) = intervals st.
Proof. unfold sync_projection. repeat case_match; reflexivity. Qed.

(** [SetConstants] consumes each of the four intervals. *)
Lemma intervals_SetConstants env st :
  intervals (SetConstants env st) = map consumed (intervals st).
Proof.
  unfold SetConstants. cbv zeta.
  rewrite intervals_sync_projection, intervals_sync_viewport,
    intervals_sync_tex_b, intervals_sync_tex_a, intervals_sync_materials,
    intervals_sync_lights, intervals_sync_post, intervals_sync_normal,
    intervals_sync_transform, intervals_sync_phong_bump,
    intervals_sync_phong_rim.
  reflexivity.
Qed.

Lemma consumed_ok iv : interval_ok iv -> consumed iv = (-1, -1).
Proof.
  unfold interval_ok, consumed, dirty. intros [Hge | ->]; [| reflexivity].
  destruct (Z.leb_spec 0 (fst iv)); [reflexivity | lia].
Qed.

Lemma intervals_ok_Dirty st : intervals_ok (Dirty st).
Proof. unfold intervals_ok, interval_ok. simpl. lia. Qed.

Lemma intervals_ok_zero v : intervals_ok (zero_state v).
Proof. unfold intervals_ok, interval_ok. simpl. lia. Qed.

(** A state whose intervals are the consumed intervals of a well-formed
    state has the four of them empty. *)
Lemma consumed_intervals st st' :
  intervals st' = map consumed (intervals st) -> intervals_ok st ->
  s_transform_matrices_changed st' = (-1, -1) /\
  s_normal_matrices_changed st' = (-1, -1) /\
  nPostTransformMatricesChanged st' = (-1, -1) /\
  s_lights_changed st' = (-1, -1).
Proof.
  unfold intervals. simpl. intros Hi (Ht & Hn & Hp & Hl).
  injection Hi as H1 H2 H3 H4.
  rewrite consumed_ok in H1, H2, H3, H4 by assumption. auto.
Qed.

Lemma intervals_ok_SetConstants env st :
  intervals_ok st -> intervals_ok (SetConstants env st).
Proof.
  intros Hok.
  destruct (consumed_intervals st _ (intervals_SetConstants env st) Hok)
    as (H1 & H2 & H3 & H4).
  unfold intervals_ok, interval_ok. rewrite H1, H2, H3, H4. auto.
Qed.

(** In a clean state the flags are down. *)
Lemma clean_flags env st :
  clean env st ->
  s_materials_changed st = 0 /\
  s_tex_matrices_changed st = (false, false) /\
  bViewportChanged st = false /\
  bProjectionChanged st = false.
Proof.
  unfold clean, pending. simpl. intros Hc.
  injection Hc as _ _ _ _ _ _ Hm Ha Hb Hv Hj.
  unfold materials_dirty in Hm. apply negb_false_iff, Z.eqb_eq in Hm.
  repeat split; try assumption.
  destruct (s_tex_matrices_changed st); simpl in *; congruence.
Qed.

(** C5: [SetConstants] clears every dirty marker it consumes.  In a state
    whose intervals are well formed, as they are in every state the
    manager reaches, the four intervals are [-1, -1] afterwards, the
    material and texture-matrix flags are cleared, and [bViewportChanged]
    and [bProjectionChanged] are false.  A second call with the same
    [xfmem], CP state and configuration then changes nothing and writes no
    constant: running [SetConstants] twice equals running it once. *)
Theorem SetConstants_clears_markers env st :
  intervals_ok st ->
  let st' := SetConstants env st in
  s_transform_matrices_changed st' = (-1, -1) /\
  s_normal_matrices_changed st' = (-1, -1) /\
  nPostTransformMatricesChanged st' = (-1, -1) /\
  s_lights_changed st' = (-1, -1) /\
  s_materials_changed st' = 0 /\
  s_tex_matrices_changed st' = (false, false) /\
  bViewportChanged st' = false /\
  bProjectionChanged st' = false /\
  SetConstants env st' = st' /\
  m_buffer (SetConstants env st') = m_buffer st'.
Proof.
  intros Hok. cbv zeta.
  destruct (consumed_intervals st _ (intervals_SetConstants env st) Hok)
    as (H1 & H2 & H3 & H4).
  destruct (clean_flags env _ (SetConstants_clean env st)) as (Hm & Hx & Hv & Hj).
  pose proof (SetConstants_idempotent env st) as Hid.
  repeat split; try assumption.
  exact (f_equal m_buffer Hid).
Qed.

End Facts.

Lemma SetConstants_clears_markers_witness :
  let st' := SetConstants sample_env (Dirty (@zero_state unit_floats tt)) in
  s_transform_matrices_changed st' = (-1, -1) /\
  s_normal_matrices_changed st' = (-1, -1) /\
  nPostTransformMatricesChanged st' = (-1, -1) /\
  s_lights_changed st' = (-1, -1) /\
  s_materials_changed st' = 0 /\
  s_tex_matrices_changed st' = (false, false) /\
  bViewportChanged st' = false /\
  bProjectionChanged st' = false /\
  SetConstants sample_env st' = st' /\
  m_buffer (SetConstants sample_env st') = m_buffer st'.
Proof.
  apply (@SetConstants_clears_markers unit_floats sample_env
           (Dirty (@zero_state unit_floats tt))).
  unfold intervals_ok, interval_ok. simpl. lia.
Defined.

(** The first [SetConstants] after [Dirty] uploads the 64 rows of the
    position matrices in one call; the second uploads nothing. *)
Example SetConstants_after_Dirty :
  hd_error (skipn 2 (m_buffer synced))
    = Some (SetMultiConstant4v C_TRANSFORMMATRICES 0 64 (PosMatrices 0)) /\
  length (m_buffer synced) = 58%nat /\
  length (m_buffer (SetConstants sample_env synced)) = 58%nat.
Proof. vm_compute. auto. Qed.

(** *** Invalidation of XF memory ranges *)

Section Ranges.
Context `{FloatModel} `{XFLayout}.

Implicit Types (st : State) (iv : Z * Z).

(** Widening makes the interval contain the new range. *)
Lemma widen_covers iv a b : covers (widen iv a b) a b.
Proof.
  unfold widen, covers. destruct (fst iv =? -1); simpl; [lia |].
  destruct (Z.ltb_spec a (fst iv)), (Z.ltb_spec (snd iv) b); lia.
Qed.

Lemma widen_ok iv a b : interval_ok iv -> 0 <= a -> interval_ok (widen iv a b).
Proof.
  unfold widen, interval_ok. intros Hiv Ha.
  destruct (Z.eqb_spec (fst iv) (-1)) as [He | Hne]; simpl; [auto |].
  left. destruct Hiv as [Hge | ->]; [| simpl in Hne; lia].
  destruct (Z.ltb_spec a (fst iv)); lia.
Qed.

Lemma widen_transform_ok iv start end_ :
  interval_ok iv -> 0 <= start < 2 ^ 31 ->
  interval_ok (widen_transform iv start end_).
Proof.
  unfold widen_transform, interval_ok. intros Hiv Hs.
  rewrite (s32_small start) by lia.
  destruct (Z.eqb_spec (fst iv) (-1)) as [He | Hne]; simpl; [left; lia |].
  left. destruct Hiv as [Hge | ->]; [| simpl in Hne; lia].
  destruct (Z.ltb_spec start (fst iv)); lia.
Qed.

(** The relative bounds computed by the normal-matrix branch are the
    bounds of the overlap. *)
Lemma normal_bounds start end_ :
  layout_ok -> 0 <= start < 2 ^ 32 -> 0 <= end_ < 2 ^ 32 ->
  start < XFMEM_NORMALMATRICES_END -> XFMEM_NORMALMATRICES < end_ ->
  s32 (if start <? XFMEM_NORMALMATRICES then 0
       else u32 (start - XFMEM_NORMALMATRICES))
    = overlap_lo XFMEM_NORMALMATRICES start /\
  s32 (if end_ <? XFMEM_NORMALMATRICES_END
       then u32 (end_ - XFMEM_NORMALMATRICES)
       else u32 (XFMEM_NORMALMATRICES_END - XFMEM_NORMALMATRICES))
    = overlap_hi XFMEM_NORMALMATRICES XFMEM_NORMALMATRICES_END end_.
Proof.
  intros (_ & Hn & Hne & _) Hs He Hlt Hgt. unfold overlap_lo, overlap_hi. split.
  - destruct (Z.ltb_spec start XFMEM_NORMALMATRICES).
    + rewrite s32_small by lia. lia.
    + rewrite u32_small, s32_small by lia. lia.
  - destruct (Z.ltb_spec end_ XFMEM_NORMALMATRICES_END);
      rewrite u32_small, s32_small by lia; lia.
Qed.

(** The upper bound of the post-matrix branch is the one of the overlap;
    so is the lower bound when [start] is inside the block. *)
Lemma post_upper_bound end_ :
  layout_ok -> 0 <= end_ < 2 ^ 32 -> XFMEM_POSTMATRICES < end_ ->
  s32 (if end_ <? XFMEM_POSTMATRICES_END
       then u32 (end_ - XFMEM_POSTMATRICES)
       else u32 (XFMEM_POSTMATRICES_END - XFMEM_POSTMATRICES))
    = overlap_hi XFMEM_POSTMATRICES XFMEM_POSTMATRICES_END end_.
Proof.
  intros (_ & _ & _ & Hp & Hpe & _) He Hgt. unfold overlap_hi.
  destruct (Z.ltb_spec end_ XFMEM_POSTMATRICES_END);
    rewrite u32_small, s32_small by lia; lia.
Qed.

Lemma post_lower_bound start :
  layout_ok -> 0 <= start < 2 ^ 32 -> start < XFMEM_POSTMATRICES_END ->
  s32 (if start <? XFMEM_POSTMATRICES then XFMEM_POSTMATRICES
       else u32 (start - XFMEM_POSTMATRICES))
    = if start <? XFMEM_POSTMATRICES then XFMEM_POSTMATRICES
      else overlap_lo XFMEM_POSTMATRICES start.
Proof.
  intros (_ & _ & _ & Hp & Hpe & _) Hs Hlt. unfold overlap_lo.
  destruct (Z.ltb_spec start XFMEM_POSTMATRICES).
  - rewrite s32_small by lia. reflexivity.
  - rewrite u32_small, s32_small by lia. lia.
Qed.

(** The blocks other than its own leave an interval alone. *)
Lemma normal_of_InvalidateXFRange c start end_ st :
  s_normal_matrices_changed (InvalidateXFRange c start end_ st)
    = s_normal_matrices_changed (mark_normal start end_ st).
Proof.
  unfold InvalidateXFRange, mark_lights, mark_post, mark_normal, mark_transform,
    mark_tex_b, mark_tex_a.
  repeat match goal with |- context [if ?b then _ else _] => destruct b end;
    reflexivity.
Qed.

Lemma post_of_InvalidateXFRange c start end_ st :
  nPostTransformMatricesChanged (InvalidateXFRange c start end_ st)
    = nPostTransformMatricesChanged (mark_post start end_ st).
Proof.
  unfold InvalidateXFRange, mark_lights, mark_post, mark_normal, mark_transform,
    mark_tex_b, mark_tex_a.
  repeat match goal with |- context [if ?b then _ else _] => destruct b end;
    reflexivity.
Qed.

(** The normal-matrix branch records the whole overlap, wherever the range
    starts. *)
Lemma InvalidateXFRange_normal_covers c start end_ st :
  layout_ok -> 0 <= start < 2 ^ 32 -> 0 <= end_ < 2 ^ 32 ->
  start < XFMEM_NORMALMATRICES_END -> XFMEM_NORMALMATRICES < end_ ->
  covers (s_normal_matrices_changed (InvalidateXFRange c start end_ st))
    (overlap_lo XFMEM_NORMALMATRICES start)
    (overlap_hi XFMEM_NORMALMATRICES XFMEM_NORMALMATRICES_END end_).
Proof.
  intros Hl Hs He Hlt Hgt. rewrite normal_of_InvalidateXFRange.
  unfold mark_normal.
  destruct (Z.ltb_spec start XFMEM_NORMALMATRICES_END); [| lia].
  destruct (Z.ltb_spec XFMEM_NORMALMATRICES end_); [| lia].
  simpl. destruct (normal_bounds start end_ Hl Hs He Hlt Hgt) as (-> & ->).
  apply widen_covers.
Qed.

(** The post-matrix branch records the whole overlap when the range starts
    inside the block. *)
Lemma InvalidateXFRange_post_covers_inside c start end_ st :
  layout_ok -> 0 <= start < 2 ^ 32 -> 0 <= end_ < 2 ^ 32 ->
  XFMEM_POSTMATRICES <= start < XFMEM_POSTMATRICES_END ->
  XFMEM_POSTMATRICES < end_ ->
  covers (nPostTransformMatricesChanged (InvalidateXFRange c start end_ st))
    (overlap_lo XFMEM_POSTMATRICES start)
    (overlap_hi XFMEM_POSTMATRICES XFMEM_POSTMATRICES_END end_).
Proof.
  intros Hl Hs He Hin Hgt. rewrite post_of_InvalidateXFRange.
  unfold mark_post.
  destruct (Z.ltb_spec start XFMEM_POSTMATRICES_END); [| lia].
  destruct (Z.ltb_spec XFMEM_POSTMATRICES end_); [| lia].
  simpl. rewrite (post_upper_bound end_ Hl He Hgt).
  rewrite (post_lower_bound start Hl Hs) by lia.
  destruct (Z.ltb_spec start XFMEM_POSTMATRICES); [lia |].
  apply widen_covers.
Qed.

(** When the range starts below the block and the interval is empty, the
    lower bound recorded is the absolute index [XFMEM_POSTMATRICES], not
    the relative index 0: the start of the overlap is left out. *)
Lemma InvalidateXFRange_post_below c start end_ st :
  layout_ok -> 0 <= start < 2 ^ 32 -> 0 <= end_ < 2 ^ 32 ->
  start < XFMEM_POSTMATRICES -> XFMEM_POSTMATRICES < end_ ->
  nPostTransformMatricesChanged st = (-1, -1) ->
  nPostTransformMatricesChanged (InvalidateXFRange c start end_ st)
    = (XFMEM_POSTMATRICES,
       overlap_hi XFMEM_POSTMATRICES XFMEM_POSTMATRICES_END end_) /\
  ~ covers (nPostTransformMatricesChanged (InvalidateXFRange c start end_ st))
      (overlap_lo XFMEM_POSTMATRICES start)
      (overlap_hi XFMEM_POSTMATRICES XFMEM_POSTMATRICES_END end_).
Proof.
  intros Hl Hs He Hlt Hgt Hempty. rewrite post_of_InvalidateXFRange.
  assert (Hp : XFMEM_POSTMATRICES < XFMEM_POSTMATRICES_END)
    by (destruct Hl as (_ & _ & _ & Hp & _); lia).
  unfold mark_post.
  destruct (Z.ltb_spec start XFMEM_POSTMATRICES_END); [| lia].
  destruct (Z.ltb_spec XFMEM_POSTMATRICES end_); [| lia].
  simpl. rewrite (post_upper_bound end_ Hl He Hgt).
  rewrite (post_lower_bound start Hl Hs) by lia.
  destruct (Z.ltb_spec start XFMEM_POSTMATRICES); [| lia].
  rewrite Hempty. unfold widen. simpl. split; [reflexivity |].
  unfold covers, overlap_lo. simpl. lia.
Qed.

(** [InvalidateXFRange] keeps the intervals well formed. *)
Lemma intervals_ok_InvalidateXFRange c start end_ st :
  layout_ok -> 0 <= start < 2 ^ 32 -> 0 <= end_ < 2 ^ 32 ->
  intervals_ok st -> intervals_ok (InvalidateXFRange c start end_ st).
Proof.
  intros Hl Hs He (Ht & Hn & Hp & Hli).
  pose proof Hl as (Hpos & Hnl & Hnle & Hpl & Hple & Hll & Hlle).
  unfold InvalidateXFRange, mark_lights, mark_post, mark_normal, mark_transform,
    mark_tex_b, mark_tex_a, intervals_ok.
  repeat match goal with
         | |- context [if ?b || ?b' then _ else _] => destruct (b || b')
         | |- context [if (?a <? ?b) && (?a' <? ?b') then _ else _] =>
             destruct (Z.ltb_spec a b), (Z.ltb_spec a' b'); simpl andb; cbv iota
         | |- context [if ?a <? ?b then set_transform _ _ else _] =>
             destruct (Z.ltb_spec a b)
         end;
    simpl; repeat split; try assumption;
    try (apply widen_transform_ok; [assumption | lia]);
    apply widen_ok; try assumption;
    repeat match goal with
           | |- context [if ?a <? ?b then _ else _] => destruct (Z.ltb_spec a b)
           end;
    rewrite ?u32_small, ?s32_small by lia; lia.
Qed.

End Ranges.

(** C4: the post-transform branch of [InvalidateXFRange] loses the start
    of a range that begins below [XFMEM_POSTMATRICES].  On the console's
    address map, with no marker set, [InvalidateXFRange(0x4F8, 0x508)]
    leaves the interval [0x500, 8]: its lower bound is the absolute index
    of the block where the relative index 0 belongs, so the interval does
    not contain the overlap [0, 8], and the next [SetConstants] asks for
    -318 rows from row 320 on.  The normal-matrix branch, on the range
    [0x3F8, 0x408] across the start of its block, records [0, 8]. *)
Theorem InvalidateXFRange_post_start_below_block :
  let st :=
    @InvalidateXFRange unit_floats gamecube_layout sample_cp 0x4F8 0x508 synced in
  nPostTransformMatricesChanged synced = (-1, -1) /\
  nPostTransformMatricesChanged st = (0x500, 8) /\
  ~ covers (nPostTransformMatricesChanged st)
      (overlap_lo 0x500 0x4F8) (overlap_hi 0x500 0x600 0x508) /\
  m_buffer (SetConstants sample_env st) =
    m_buffer st ++
    [SetMultiConstant4v C_POSTTRANSFORMMATRICES 320 (-318) (PostMatrices 1280)] /\
  s_normal_matrices_changed
    (@InvalidateXFRange unit_floats gamecube_layout sample_cp 0x3F8 0x408 synced)
    = (0, 8).
Proof.
  cbv zeta.
  assert (Hst : nPostTransformMatricesChanged
                  (@InvalidateXFRange unit_floats gamecube_layout sample_cp
                     0x4F8 0x508 synced) = (0x500, 8))
    by (vm_compute; reflexivity).
  split; [vm_compute; reflexivity |].
  split; [exact Hst |].
  split; [rewrite Hst; unfold covers, overlap_lo; simpl; lia |].
  split; vm_compute; reflexivity.
Qed.
End VSMFacts.

(** *** The sample driver *)

Module ObjCacheExamples.
Import ObjCache.

#[local] Existing Instances counting_driver parity_compiler.

(** A pipeline is created once: the second request, after two shader
    requests, gets the handle of the first and the log has one entry. *)
Example GetPipeline_twice :
  let r1 := GetPipeline (PipelineInfo := Z) (Uid := Z) 5 sample_cache in
  let oc := run [CallGetShader Vertex 4; CallGetShader Pixel 3] (snd r1) in
  let r2 := GetPipeline 5 oc in
  fst r1 = 1000 /\ fst r2 = 1000 /\ pipeline_log (snd r2) = [5].
Proof. vm_compute. auto. Qed.

(** A refused pipeline is cached as [VK_NULL_HANDLE] and not retried. *)
Example GetPipeline_failure_cached :
  let r1 := GetPipeline (PipelineInfo := Z) (Uid := Z) (-1) sample_cache in
  let r2 := GetPipeline (-1) (snd r1) in
  fst r1 = VK_NULL_HANDLE /\ fst r2 = VK_NULL_HANDLE /\ pipeline_log (snd r2) = [-1].
Proof. vm_compute. auto. Qed.

(** UID 4 compiles and is appended to the vertex disk cache; UID 3 is
    rejected by the compiler: nothing is appended, the entry holds
    [VK_NULL_HANDLE], and asking again does not compile again. *)
Example GetShader_sample :
  let oc :=
    run (PipelineInfo := Z)
      [CallGetShader Vertex 4; CallGetShader Vertex 3; CallGetShader Vertex 3;
       CallGetShader Vertex 4] sample_cache in
  compile_log oc = [(Vertex, 4); (Vertex, 3)] /\
  disk_cache (m_vs_cache oc) = [(4, [0x07230203; 4])] /\
  module (item_of Vertex 3 oc) = VK_NULL_HANDLE /\
  module (item_of Vertex 4 oc) = 2000 /\
  numVertexShadersCreated (stats oc) = 1.
Proof. vm_compute. auto 10. Qed.

End ObjCacheExamples.

(** ** Palette upload of the OpenGL texture cache *)

Module OGLTexCacheFacts.
Import OGLTexCache.

Section Facts.
Context `{PaletteBackend}.

Implicit Types (cfg : Config) (mem : Memory) (st : State).

(** What the tail of [LoadLut] leaves: the key and the hash recorded, and
    one [Stream] call when palette conversion is supported. *)
Lemma record_and_stream_spec cfg mem lutFmt addr size hash st :
  let st' := record_and_stream cfg mem lutFmt addr size hash st in
  m_last_lutFmt st' = lutFmt /\ m_last_addr st' = addr /\
  m_last_size st' = size /\ m_last_hash st' = hash /\
  streamed st' =
    streamed st ++ (if bSupportsPaletteConversion cfg then [(size, addr)] else []).
Proof.
  unfold record_and_stream. destruct (bSupportsPaletteConversion cfg).
  - destruct (Stream (s_palette_stream_buffer st) mem size addr) as [w buf].
    simpl. auto.
  - simpl. rewrite app_nil_r. auto.
Qed.

(** The early return: same key, a stored hash other than zero, and data
    that still hashes to it. *)
Lemma LoadLut_unchanged cfg mem lutFmt addr size st :
  lutFmt = m_last_lutFmt st -> addr = m_last_addr st -> size = m_last_size st ->
  m_last_hash st <> 0 ->
  lut_hash cfg mem addr size = m_last_hash st ->
  LoadLut cfg mem lutFmt addr size st = st.
Proof.
  intros Hf Ha Hs Hnz Hh. unfold LoadLut.
  rewrite <- Hf, <- Ha, <- Hs, !Z.eqb_refl. simpl.
  destruct (Z.eqb_spec (m_last_hash st) 0); [contradiction |]. simpl.
  rewrite Hh, Z.eqb_refl. reflexivity.
Qed.

(** Every other call reaches the tail with the hash of the data. *)
Lemma LoadLut_reloads cfg mem lutFmt addr size st :
  ~ (lutFmt = m_last_lutFmt st /\ addr = m_last_addr st /\
     size = m_last_size st /\ m_last_hash st <> 0 /\
     lut_hash cfg mem addr size = m_last_hash st) ->
  LoadLut cfg mem lutFmt addr size st =
    record_and_stream cfg mem lutFmt addr size (lut_hash cfg mem addr size) st.
Proof.
  intros Hn. unfold LoadLut.
  destruct (Z.eqb_spec lutFmt (m_last_lutFmt st)); [| reflexivity].
  destruct (Z.eqb_spec addr (m_last_addr st)); [| reflexivity].
  destruct (Z.eqb_spec size (m_last_size st)); [| reflexivity].
  destruct (Z.eqb_spec (m_last_hash st) 0); [reflexivity |]. simpl.
  destruct (Z.eqb_spec (lut_hash cfg mem addr size) (m_last_hash st));
    [| reflexivity].
  exfalso. apply Hn. auto.
Qed.

(** The two outcomes of [LoadLut], for any hash function.  It returns
    without streaming when the format, the address and the size are the
    stored ones, the stored hash is not zero, and the data still hashes to
    it.  In every other case, which includes a stored hash of zero, it
    records the new format, address, size and hash and, when palette
    conversion is supported, streams the palette once. *)
Theorem LoadLut_deduplicates cfg mem lutFmt addr size st :
  let same :=
    lutFmt = m_last_lutFmt st /\ addr = m_last_addr st /\
    size = m_last_size st /\ m_last_hash st <> 0 /\
    lut_hash cfg mem addr size = m_last_hash st in
  let st' := LoadLut cfg mem lutFmt addr size st in
  (same -> st' = st) /\
  (~ same ->
     m_last_lutFmt st' = lutFmt /\ m_last_addr st' = addr /\
     m_last_size st' = size /\ m_last_hash st' = lut_hash cfg mem addr size /\
     streamed st' =
       streamed st ++
       (if bSupportsPaletteConversion cfg then [(size, addr)] else [])).
Proof.
  cbv zeta. split.
  - intros (Hf & Ha & Hs & Hnz & Hh). now apply LoadLut_unchanged.
  - intros Hn. rewrite (LoadLut_reloads _ _ _ _ _ _ Hn).
    apply record_and_stream_spec.
Qed.

End Facts.

(** On the byte-sum backend of the examples, whose hash is zero on a black
    palette, a second call with the same format, address and size streams
    the palette again.  [GetHash64] itself is not among the sources, so
    this says nothing about the palettes on which the program does so. *)
Example LoadLut_zero_hash_streams_again :
  let st := black_loaded in
  let st' := @LoadLut sum_backend sample_cfg black_palette 1 0 4 st in
  (1 = m_last_lutFmt st /\ 0 = m_last_addr st /\ 4 = m_last_size st /\
   @lut_hash sum_backend sample_cfg black_palette 0 4 = m_last_hash st) /\
  streamed st = [(4, 0)] /\
  streamed st' = [(4, 0); (4, 0)] /\
  st' <> st.
Proof.
  cbv zeta. split; [vm_compute; auto |].
  split; [reflexivity |]. split; [reflexivity |].
  intros Heq. apply (f_equal streamed) in Heq. vm_compute in Heq. discriminate.
Qed.

(** With a hash other than zero the second call is the early return. *)
Example LoadLut_nonzero_hash_dedups :
  let st := @LoadLut sum_backend sample_cfg [1; 2; 3; 4] 1 0 4 (@fresh sum_backend 0) in
  @LoadLut sum_backend sample_cfg [1; 2; 3; 4] 1 0 4 st = st /\
  streamed (@LoadLut sum_backend sample_cfg [1; 2; 3; 9] 1 0 4 st) = [(4, 0); (4, 0)].
Proof. split; reflexivity. Qed.

End OGLTexCacheFacts.

(** ** Vulkan state tracker *)

Module VkStateTrackerFacts.
Import VkStateTracker.

Implicit Types (st : StateTracker) (b : Binding) (c : Setter).

(** The flags are distinct bits. *)
Lemma flag_of_disjoint b b' :
  Z.land (flag_of b) (flag_of b') = if decide (b = b') then flag_of b else 0.
Proof. destruct b, b'; reflexivity. Qed.

Lemma flag_of_nonzero b : flag_of b <> 0.
Proof. destruct b; discriminate. Qed.

(** [m_dirty_flags |= flag] sets that flag and no other. *)
Lemma is_dirty_mark b b' st :
  is_dirty (mark b st) b' = is_dirty st b' || bool_decide (b = b').
Proof.
  unfold is_dirty, mark. simpl.
  rewrite Z.land_lor_distr_l, flag_of_disjoint.
  destruct (decide (b = b')) as [-> | Hne].
  - rewrite bool_decide_eq_true_2 by reflexivity. rewrite orb_true_r.
    apply negb_true_iff, Z.eqb_neq. intros H0.
    apply Z.lor_eq_0_iff in H0 as [_ H0]. now apply flag_of_nonzero in H0.
  - rewrite bool_decide_eq_false_2 by exact Hne.
    now rewrite Z.lor_0_r, orb_false_r.
Qed.

Lemma commands_mark b st : commands (mark b st) = commands st.
Proof. reflexivity. Qed.

(** A setter records no command and sets the flag of its object only. *)
Lemma apply_setter_spec c st :
  commands (apply_setter st c) = commands st /\
  forall b, is_dirty (apply_setter st c) b
              = is_dirty st b || bool_decide (target c = b).
Proof.
  destruct c; cbn [apply_setter target];
    unfold SetVertexBuffer, SetTexture, SetSampler, SetViewport, SetScissor,
      SetRasterizationState, SetDepthStencilState, SetBlendState;
    (split; [reflexivity | intros b; rewrite is_dirty_mark; reflexivity]).
Qed.

(** The values the setters record. *)
Lemma setters_record st :
  (forall buffer offset,
     m_vertex_buffer (SetVertexBuffer buffer offset st) = buffer /\
     m_vertex_buffer_offset (SetVertexBuffer buffer offset st) = offset) /\
  (forall index view p,
     ps_samplers st !! index = Some p ->
     ps_samplers (SetTexture index view st) !! index = Some (view, snd p)) /\
  (forall index sampler p,
     ps_samplers st !! index = Some p ->
     ps_samplers (SetSampler index sampler st) !! index = Some (fst p, sampler)) /\
  (forall v, m_viewport (SetViewport v st) = v) /\
  (forall r, m_scissor (SetScissor r st) = r) /\
  (forall x, rasterization_state (m_pipeline_state (SetRasterizationState x st)) = x) /\
  (forall x, depth_stencil_state (m_pipeline_state (SetDepthStencilState x st)) = x) /\
  (forall x, blend_state (m_pipeline_state (SetBlendState x st)) = x).
Proof.
  repeat split; try reflexivity.
  - intros index view p Hp. simpl. rewrite list_lookup_alter_eq, Hp. reflexivity.
  - intros index sampler p Hp. simpl. rewrite list_lookup_alter_eq, Hp. reflexivity.
Qed.

(** A run of setters records no command; the flags set afterwards are
    those set before and those of the objects the run touched. *)
Lemma setters_defer cs st :
  commands (fold_left apply_setter cs st) = commands st /\
  forall b, is_dirty (fold_left apply_setter cs st) b
              = is_dirty st b || bool_decide (b ∈ map target cs).
Proof.
  revert st. induction cs as [| c cs IH]; intros st; cbn [fold_left map].
  - split; [reflexivity |]. intros b.
    rewrite (bool_decide_eq_false_2 (b ∈ [])) by (intros Hin; inversion Hin).
    now rewrite orb_false_r.
  - destruct (IH (apply_setter st c)) as (Hc & Hd).
    destruct (apply_setter_spec c st) as (Hc1 & Hd1).
    split; [congruence |]. intros b. rewrite Hd, Hd1, <- orb_assoc. f_equal.
    destruct (decide (target c = b)) as [<- | Hne].
    + rewrite (bool_decide_eq_true_2 (target c = target c)) by reflexivity.
      rewrite (bool_decide_eq_true_2 (target c ∈ target c :: map target cs))
        by apply list_elem_of_here.
      reflexivity.
    + rewrite (bool_decide_eq_false_2 (target c = b)) by exact Hne.
      rewrite orb_false_l.
      apply bool_decide_ext. rewrite elem_of_cons. intuition congruence.
Qed.

Lemma is_dirty_SetPendingRebind st b : is_dirty (SetPendingRebind st) b = true.
Proof.
  unfold SetPendingRebind, all_bindings. cbn [fold_right].
  rewrite !is_dirty_mark.
  destruct b; cbn [bool_decide]; rewrite ?orb_true_r; reflexivity.
Qed.

Lemma commands_SetPendingRebind st : commands (SetPendingRebind st) = commands st.
Proof.
  unfold SetPendingRebind. induction all_bindings as [| x l IH]; [reflexivity |].
  cbn [fold_right]. now rewrite commands_mark.
Qed.

Lemma commands_Bind rebind_all st :
  commands (Bind rebind_all st) =
    commands st ++
    map Rebind (List.filter (fun b => is_dirty st b || rebind_all) all_bindings).
Proof. reflexivity. Qed.

Lemma all_bindings_complete b : b ∈ all_bindings.
Proof. unfold all_bindings. destruct b; repeat constructor. Qed.

Lemma all_bindings_NoDup : NoDup all_bindings.
Proof. apply (bool_decide_unpack _). vm_compute. exact I. Qed.


(** Two setters, then [Bind]: the vertex buffer and the samplers are
    re-bound, nothing else; a second [Bind] records nothing. *)
Example Bind_sample :
  let st := SetTexture 0 77 (SetVertexBuffer 5 16 initial) in
  commands st = [] /\
  commands (Bind false st) = [Rebind PsSamplers; Rebind VertexBuffer] /\
  commands (Bind false (Bind false st)) = [Rebind PsSamplers; Rebind VertexBuffer].
Proof. vm_compute. auto. Qed.

End VkStateTrackerFacts.

Module TexRefsFacts.
Import TexRefs.

Implicit Types (h : gmap Z (gset Z)).

Lemma references_emplace x y e h :
  references e (emplace_reference x y h) =
  if decide (e = x) then references x h ∪ {[y]} else references e h.
Proof.
  unfold emplace_reference, references. case_decide as He.
  - subst. by rewrite lookup_insert_eq.
  - by rewrite lookup_insert_ne.
Qed.

Lemma references_erase x y e h :
  references e (erase_reference x y h) =
  if decide (e = x) then references x h ∖ {[y]} else references e h.
Proof.
  unfold erase_reference, references. case_decide as He.
  - subst. by rewrite lookup_insert_eq.
  - by rewrite lookup_insert_ne.
Qed.

Lemma references_clear x e h :
  references e (clear_references x h) = if decide (e = x) then ∅ else references e h.
Proof.
  unfold clear_references, references. case_decide as He.
  - subst. by rewrite lookup_insert_eq.
  - by rewrite lookup_insert_ne.
Qed.

Lemma references_erase_all this l e h :
  references e (fold_left (fun h r => erase_reference r this h) l h) =
  if decide (e ∈ l) then references e h ∖ {[this]} else references e h.
Proof.
  revert h. induction l as [| r l IH]; intros h; simpl.
  - destruct (decide (e ∈ [])) as [Hin | _]; [by apply elem_of_nil in Hin | done].
  - rewrite IH, references_erase.
    destruct (decide (e ∈ l)), (decide (e = r)), (decide (e ∈ r :: l));
      subst; set_solver.
Qed.

Lemma references_CreateReference this other e h :
  references e (CreateReference this other h) =
  (references e h ∪ (if decide (e = this) then {[other]} else ∅))
    ∪ (if decide (e = other) then {[this]} else ∅).
Proof.
  unfold CreateReference. rewrite !references_emplace.
  repeat case_decide; subst; rewrite ?references_emplace;
    repeat case_decide; try congruence; set_solver.
Qed.

Lemma references_DestroyAllReferences this e h :
  references e (DestroyAllReferences this h) =
  if decide (e = this) then ∅
  else if decide (e ∈ references this h) then references e h ∖ {[this]}
  else references e h.
Proof.
  unfold DestroyAllReferences. rewrite references_clear.
  case_decide; [done |]. rewrite references_erase_all.
  repeat case_decide; try done; exfalso;
    match goal with H : _ ∈ elements _ |- _ => apply elem_of_elements in H
                  | H : ¬ _ ∈ elements _ |- _ => rewrite elem_of_elements in H end;
    contradiction.
Qed.

Lemma two_way_empty : two_way ∅.
Proof. intros a b. unfold references. rewrite lookup_empty. set_solver. Qed.

Lemma two_way_CreateReference this other h :
  two_way h -> two_way (CreateReference this other h).
Proof.
  intros Hs a b. rewrite !references_CreateReference.
  specialize (Hs a b). repeat case_decide; subst; set_solver.
Qed.

(** X1: [CreateReference] links the two entries in both directions, adds no
    other reference, and keeps the references two-way. *)
Theorem CreateReference_two_way this other h :
  two_way h ->
  let h' := CreateReference this other h in
  other ∈ references this h' /\ this ∈ references other h' /\
  two_way h' /\
  (forall a b, b ∈ references a h' ->
     b ∈ references a h \/ (a = this /\ b = other) \/ (a = other /\ b = this)).
Proof.
  intros Hs h'. subst h'. split; [| split; [| split]].
  - rewrite references_CreateReference. rewrite decide_True by done. set_solver.
  - rewrite references_CreateReference. rewrite (decide_True (P := other = other)) by done.
    set_solver.
  - now apply two_way_CreateReference.
  - intros a b. rewrite references_CreateReference.
    repeat case_decide; subst; set_solver.
Qed.

Lemma CreateReference_two_way_witness :
  2 ∈ references 1 (CreateReference 1 2 ∅).
Proof. exact (proj1 (CreateReference_two_way 1 2 ∅ two_way_empty)). Defined.

(** X2: after [DestroyAllReferences] no entry references [this] any more
    and [this] references nothing; the references between the other
    entries are untouched and stay two-way. *)
Theorem DestroyAllReferences_unlinks this h :
  two_way h -> this ∉ references this h ->
  let h' := DestroyAllReferences this h in
  references this h' = ∅ /\
  (forall e, this ∉ references e h') /\
  (forall a b, a <> this -> b <> this ->
     (b ∈ references a h' <-> b ∈ references a h)) /\
  two_way h'.
Proof.
  intros Hs _ h'. subst h'. split; [| split; [| split]].
  - rewrite references_DestroyAllReferences. by rewrite decide_True.
  - intros e. rewrite references_DestroyAllReferences.
    repeat case_decide; set_solver.
  - intros a b Ha Hb. rewrite references_DestroyAllReferences.
    repeat case_decide; set_solver.
  - intros a b. rewrite !references_DestroyAllReferences.
    specialize (Hs a b).
    repeat case_decide; subst; try set_solver.
Qed.

Lemma DestroyAllReferences_unlinks_witness :
  references 1 (DestroyAllReferences 1 (CreateReference 1 2 ∅)) = ∅.
Proof.
  refine (proj1 (DestroyAllReferences_unlinks 1 (CreateReference 1 2 ∅)
                   (two_way_CreateReference 1 2 ∅ two_way_empty) _)).
  rewrite references_CreateReference. unfold references. rewrite lookup_empty.
  cbn. set_solver.
Defined.

End TexRefsFacts.

Module ObjCacheObjectsFacts.
Import ObjCache ObjCacheObjects ObjCacheFacts.

Section SamplerFacts.
Context {SamplerState CreateInfo Device : Type}.
Context `{Countable SamplerState}.
Context `{!SamplerDriver SamplerState CreateInfo Device}.

Implicit Types (st : Samplers SamplerState CreateInfo Device).

Lemma GetSampler_hit aniso info st h :
  m_sampler_cache st !! info = Some h -> GetSampler aniso info st = (h, st).
Proof. intros Hh. unfold GetSampler. now rewrite Hh. Qed.

Lemma GetSampler_miss aniso info st :
  m_sampler_cache st !! info = None ->
  let ci := sampler_create_info info (enable_anisotropic_filtering info && aniso) in
  let r := vkCreateSampler (sampler_device st) ci in
  fst (GetSampler aniso info st) = snd (fst r) /\
  m_sampler_cache (snd (GetSampler aniso info st))
    = <[info := snd (fst r)]> (m_sampler_cache st) /\
  sampler_log (snd (GetSampler aniso info st)) = sampler_log st ++ [ci] /\
  destroy_log (snd (GetSampler aniso info st)) = destroy_log st.
Proof.
  intros Hn. cbv zeta. unfold GetSampler, create_sampler. rewrite Hn.
  destruct (vkCreateSampler _ _) as [[res s] dev]. simpl.
  rewrite (emplace_fresh _ _ _ Hn). auto.
Qed.

Lemma GetSampler_stored aniso info st :
  m_sampler_cache (snd (GetSampler aniso info st)) !! info
    = Some (fst (GetSampler aniso info st)).
Proof.
  destruct (m_sampler_cache st !! info) as [h |] eqn:Hl.
  - now rewrite (GetSampler_hit _ _ _ _ Hl).
  - destruct (GetSampler_miss aniso info st Hl) as (-> & -> & _).
    apply lookup_insert_eq.
Qed.

Lemma GetSampler_keeps aniso info' info st h :
  m_sampler_cache st !! info = Some h ->
  m_sampler_cache (snd (GetSampler aniso info' st)) !! info = Some h.
Proof.
  intros Hh. destruct (m_sampler_cache st !! info') as [h' |] eqn:Hl.
  - now rewrite (GetSampler_hit _ _ _ _ Hl).
  - destruct (GetSampler_miss aniso info' st Hl) as (_ & -> & _).
    rewrite lookup_insert_ne; [exact Hh | congruence].
Qed.

Lemma GetSamplers_keeps aniso infos info st h :
  m_sampler_cache st !! info = Some h ->
  m_sampler_cache (GetSamplers aniso infos st) !! info = Some h.
Proof.
  revert st. induction infos as [| i infos IH]; intros st Hh; [exact Hh |].
  apply IH, GetSampler_keeps, Hh.
Qed.

(** X3: [GetSampler] creates a sampler only for a state the cache does not
    hold, stores what the driver left in the handle even after a failure,
    and from then on answers the same state with that handle without
    calling the driver. *)
Theorem GetSampler_cached aniso info st :
  let s := fst (GetSampler aniso info st) in
  let st1 := snd (GetSampler aniso info st) in
  let ci := sampler_create_info info (enable_anisotropic_filtering info && aniso) in
  (forall h, m_sampler_cache st !! info = Some h -> s = h /\ st1 = st) /\
  (m_sampler_cache st !! info = None ->
     s = snd (fst (vkCreateSampler (sampler_device st) ci)) /\
     sampler_log st1 = sampler_log st ++ [ci]) /\
  m_sampler_cache st1 !! info = Some s /\
  (forall infos,
     let st2 := GetSamplers aniso infos st1 in
     GetSampler aniso info st2 = (s, st2)).
Proof.
  cbv zeta. split; [| split; [| split]].
  - intros h Hh. now rewrite (GetSampler_hit _ _ _ _ Hh).
  - intros Hn. now destruct (GetSampler_miss aniso info st Hn) as (-> & _ & -> & _).
  - apply GetSampler_stored.
  - intros infos. apply GetSampler_hit, GetSamplers_keeps, GetSampler_stored.
Qed.

Lemma destroy_live_fold (l : list (SamplerState * Z)) st :
  let st' := fold_left destroy_live l st in
  m_sampler_cache st' = m_sampler_cache st /\
  m_point_sampler st' = m_point_sampler st /\
  m_linear_sampler st' = m_linear_sampler st /\
  sampler_log st' = sampler_log st /\
  destroy_log st' =
    destroy_log st ++ filter (fun s => s <> VK_NULL_HANDLE) (map snd l).
Proof.
  revert st. induction l as [| [k v] l IH]; intros st; cbn [fold_left map].
  - cbn. now rewrite app_nil_r.
  - destruct (IH (destroy_live st (k, v))) as (-> & -> & -> & -> & ->).
    unfold destroy_live; cbn [snd].
    destruct (Z.eqb_spec v VK_NULL_HANDLE) as [-> | Hne]; cbn [negb].
    + rewrite filter_cons_False by (intros Hc; now apply Hc). auto.
    + rewrite filter_cons_True by exact Hne. cbn. rewrite <- app_assoc. auto.
Qed.

Lemma ClearSamplerCache_fields st :
  m_sampler_cache (ClearSamplerCache st) = ∅ /\
  m_point_sampler (ClearSamplerCache st) = m_point_sampler st /\
  m_linear_sampler (ClearSamplerCache st) = m_linear_sampler st /\
  sampler_log (ClearSamplerCache st) = sampler_log st /\
  destroy_log (ClearSamplerCache st) = destroy_log st ++ live_samplers st.
Proof.
  unfold ClearSamplerCache, live_samplers.
  destruct (destroy_live_fold (map_to_list (m_sampler_cache st)) st)
    as (_ & Hp & Hl & Hs & Hd).
  cbn. auto.
Qed.

Lemma live_samplers_spec st s :
  s ∈ live_samplers st <->
  s <> VK_NULL_HANDLE /\ exists info, m_sampler_cache st !! info = Some s.
Proof.
  unfold live_samplers. rewrite list_elem_of_filter, list_elem_of_fmap.
  split.
  - intros (Hne & [k v] & -> & Hin). split; [exact Hne |].
    exists k. now apply elem_of_map_to_list.
  - intros (Hne & k & Hk). split; [exact Hne |].
    exists (k, s). split; [reflexivity |]. now apply elem_of_map_to_list.
Qed.

(** X4: [ClearSamplerCache] hands to [vkDestroySampler] exactly the non-null
    handles the cache holds, empties the cache and leaves the two static
    samplers alone; the next [GetSampler] of any state goes to the driver
    again. *)
Theorem ClearSamplerCache_destroys_cached st :
  let st' := ClearSamplerCache st in
  m_sampler_cache st' = ∅ /\
  m_point_sampler st' = m_point_sampler st /\
  m_linear_sampler st' = m_linear_sampler st /\
  (exists gone,
     destroy_log st' = destroy_log st ++ gone /\
     forall s, s ∈ gone <->
       s <> VK_NULL_HANDLE /\ exists info, m_sampler_cache st !! info = Some s) /\
  (forall aniso info,
     sampler_log (snd (GetSampler aniso info st')) =
       sampler_log st ++
       [sampler_create_info info (enable_anisotropic_filtering info && aniso)]).
Proof.
  cbv zeta. destruct (ClearSamplerCache_fields st) as (Hc & Hp & Hl & Hs & Hd).
  split; [exact Hc |]. split; [exact Hp |]. split; [exact Hl |]. split.
  - exists (live_samplers st). split; [exact Hd | apply live_samplers_spec].
  - intros aniso info.
    assert (Hn : m_sampler_cache (ClearSamplerCache st) !! info = None)
      by (rewrite Hc; apply lookup_empty).
    destruct (GetSampler_miss aniso info _ Hn) as (_ & _ & -> & _).
    now rewrite Hs.
Qed.

Lemma ClearSamplerCache_empty st :
  m_sampler_cache st = ∅ -> ClearSamplerCache st = st.
Proof.
  intros He. unfold ClearSamplerCache. rewrite He, map_to_list_empty. cbn.
  destruct st; cbn in *. now subst.
Qed.

(** X5: [DestroySamplers] leaves no sampler behind, passes no null handle to
    the driver, and a second call destroys nothing. *)
Theorem DestroySamplers_once st :
  let st' := DestroySamplers st in
  m_sampler_cache st' = ∅ /\
  m_point_sampler st' = VK_NULL_HANDLE /\
  m_linear_sampler st' = VK_NULL_HANDLE /\
  (exists gone,
     destroy_log st' = destroy_log st ++ gone /\
     Forall (fun s => s <> VK_NULL_HANDLE) gone) /\
  DestroySamplers st' = st'.
Proof.
  cbv zeta.
  assert (Hfix : forall t : Samplers SamplerState CreateInfo Device,
            m_sampler_cache t = ∅ -> m_point_sampler t = VK_NULL_HANDLE ->
            m_linear_sampler t = VK_NULL_HANDLE -> DestroySamplers t = t).
  { intros t Hc Hp Hl. unfold DestroySamplers.
    rewrite (ClearSamplerCache_empty t Hc), Hp. cbn. now rewrite Hl. }
  unfold DestroySamplers.
  destruct (ClearSamplerCache_fields st) as (Hc & Hp & Hl & Hs & Hd).
  set (t := ClearSamplerCache st) in *.
  assert (Hlive : Forall (fun s => s <> VK_NULL_HANDLE) (live_samplers st)).
  { apply Forall_forall. intros s Hs'. now apply live_samplers_spec in Hs'. }
  destruct (Z.eqb_spec (m_point_sampler t) VK_NULL_HANDLE) as [Hp0 | Hp0];
    cbn [negb m_linear_sampler set_point_sampler destroy_sampler];
    destruct (Z.eqb_spec (m_linear_sampler t) VK_NULL_HANDLE) as [Hl0 | Hl0];
    cbn [negb m_sampler_cache m_point_sampler m_linear_sampler destroy_log
         set_point_sampler set_linear_sampler destroy_sampler].
  - split; [exact Hc |]. split; [assumption || reflexivity |].
    split; [assumption || reflexivity |]. split.
    + exists (live_samplers st). now split.
    + now apply Hfix.
  - split; [exact Hc |]. split; [assumption || reflexivity |].
    split; [assumption || reflexivity |]. split.
    + exists (live_samplers st ++ [m_linear_sampler t]). rewrite Hd, app_assoc.
      split; [reflexivity |]. apply Forall_app. split; [exact Hlive |].
      now constructor.
    + now apply Hfix.
  - split; [exact Hc |]. split; [assumption || reflexivity |].
    split; [assumption || reflexivity |]. split.
    + exists (live_samplers st ++ [m_point_sampler t]). rewrite Hd, app_assoc.
      split; [reflexivity |]. apply Forall_app. split; [exact Hlive |].
      now constructor.
    + now apply Hfix.
  - split; [exact Hc |]. split; [assumption || reflexivity |].
    split; [assumption || reflexivity |]. split.
    + exists (live_samplers st ++ [m_point_sampler t; m_linear_sampler t]).
      rewrite Hd, <- !app_assoc.
      split; [reflexivity |]. apply Forall_app. split; [exact Hlive |].
      now repeat constructor.
    + now apply Hfix.
Qed.

End SamplerFacts.

Section PipelineFacts.
Context {PipelineInfo Uid Device : Type}.
Context `{Countable PipelineInfo} `{Countable Uid}.
Context `{!VulkanDriver PipelineInfo Device} `{!ShaderCompiler Uid}.
Context `{!PipelineCacheDriver Device}.

Implicit Types (oc : ObjectCache PipelineInfo Uid Device).
Implicit Types (st : PipelineCacheState PipelineInfo Uid Device).

Lemma create_pipeline_cache_fields data st :
  let r := vkCreatePipelineCache (device (objects st)) data in
  fst (create_pipeline_cache data st) = fst (fst r) /\
  m_pipeline_cache (snd (create_pipeline_cache data st)) = snd (fst r) /\
  cache_log (snd (create_pipeline_cache data st)) = cache_log st ++ [data] /\
  destroyed_pipelines (snd (create_pipeline_cache data st)) = destroyed_pipelines st /\
  objects (snd (create_pipeline_cache data st)) = set_device (snd r) (objects st).
Proof.
  cbv zeta. unfold create_pipeline_cache.
  destruct (vkCreatePipelineCache _ _) as [[res c] dev]. cbn. auto.
Qed.

(** The data [CreatePipelineCache] offers to the driver first: the value of
    the last record read when [load_from_disk] is set and exactly one
    record was counted, no data otherwise. *)
Lemma CreatePipelineCache_first_data (load : bool)
    (delivered : list (Z * list Z)) (count : Z) :
  (if load then
     if negb (count =? 1) then []
     else fold_left (fun d r => PipelineCacheReadCallback_Read (fst r) (snd r) d)
            delivered []
   else [] : list Z)
  = if load && (count =? 1)
    then match last delivered with Some r => snd r | None => [] end
    else [].
Proof.
  destruct load; [| reflexivity]. cbn [andb].
  destruct (count =? 1); [| reflexivity]. cbn [negb].
  induction delivered as [| r l IH] using rev_ind; [reflexivity |].
  rewrite fold_left_app, last_snoc. reflexivity.
Qed.

(** X6: when the driver can always create an empty pipeline cache,
    [CreatePipelineCache] succeeds whatever the cache file holds.  The
    driver is first offered the record read from the file (nothing when
    [load_from_disk] is false or the file does not hold exactly one
    record).  If it accepts, that is the only call and its cache is kept;
    if it refuses, exactly one more call follows, with no data, and the
    cache of that second call is kept. *)
Theorem CreatePipelineCache_survives_bad_file load delivered count
    st :
  (forall d, fst (fst (vkCreatePipelineCache d [])) = VK_SUCCESS) ->
  let r := CreatePipelineCache load delivered count st in
  let data :=
    if load && (count =? 1)
    then match last delivered with Some r => snd r | None => [] end
    else [] in
  let first := vkCreatePipelineCache (device (objects st)) data in
  fst r = true /\
  (fst (fst first) = VK_SUCCESS ->
     cache_log (snd r) = cache_log st ++ [data] /\
     m_pipeline_cache (snd r) = snd (fst first)) /\
  (fst (fst first) <> VK_SUCCESS ->
     cache_log (snd r) = cache_log st ++ [data; []] /\
     m_pipeline_cache (snd r) = snd (fst (vkCreatePipelineCache (snd first) []))).
Proof.
  intros Hempty. cbv zeta. unfold CreatePipelineCache.
  rewrite CreatePipelineCache_first_data.
  set (data := if load && (count =? 1) then _ else _).
  destruct (create_pipeline_cache_fields data st) as (Hr & Hm & Hl & _ & Ho).
  destruct (create_pipeline_cache data st) as [res st1]. cbn [fst snd] in *.
  destruct (Z.eqb_spec res VK_SUCCESS) as [Hs | Hs]; cbn [fst snd].
  - split; [reflexivity |]. split.
    + intros _. now split.
    + intros Hf. exfalso. apply Hf. congruence.
  - destruct (create_pipeline_cache_fields [] st1) as (Hr2 & Hm2 & Hl2 & _).
    destruct (create_pipeline_cache [] st1) as [res2 st2]. cbn [fst snd] in *.
    rewrite Hempty in Hr2. subst res2. rewrite Z.eqb_refl. cbn [fst snd].
    split; [reflexivity |]. split.
    + intros Hok. exfalso. apply Hs. congruence.
    + intros _. split.
      * now rewrite Hl2, Hl, <- app_assoc.
      * rewrite Hm2, Ho. reflexivity.
Qed.

Lemma destroy_live_pipeline_step st (it : PipelineInfo * Z) :
  let st' := destroy_live_pipeline st it in
  m_pipeline_cache st' = m_pipeline_cache st /\
  cache_log st' = cache_log st /\
  destroyed_pipelines st' =
    destroyed_pipelines st ++ filter (fun s => s <> VK_NULL_HANDLE) [snd it] /\
  (forall s, cache_of s (objects st') = cache_of s (objects st)) /\
  pipeline_log (objects st') = pipeline_log (objects st).
Proof.
  cbv zeta. unfold destroy_live_pipeline.
  destruct (Z.eqb_spec (snd it) VK_NULL_HANDLE) as [He | Hne]; cbn [negb].
  - rewrite filter_cons_False by (intros Hx; now apply Hx).
    rewrite ?filter_nil, ?app_nil_r. auto.
  - rewrite filter_cons_True by exact Hne. rewrite ?filter_nil. cbn.
    split; [reflexivity |]. split; [reflexivity |]. split; [reflexivity |].
    split; [| reflexivity]. intros s. now destruct s.
Qed.

Lemma destroy_live_pipeline_fold (l : list (PipelineInfo * Z)) st :
  let st' := fold_left destroy_live_pipeline l st in
  m_pipeline_cache st' = m_pipeline_cache st /\
  cache_log st' = cache_log st /\
  destroyed_pipelines st' =
    destroyed_pipelines st ++ filter (fun s => s <> VK_NULL_HANDLE) (map snd l) /\
  (forall s, cache_of s (objects st') = cache_of s (objects st)) /\
  pipeline_log (objects st') = pipeline_log (objects st).
Proof.
  revert st. induction l as [| it l IH]; intros st; cbn [fold_left map].
  - cbn. rewrite app_nil_r. auto.
  - destruct (IH (destroy_live_pipeline st it)) as (-> & -> & -> & Hc & ->).
    destruct (destroy_live_pipeline_step st it) as (-> & -> & -> & Hc1 & ->).
    split; [reflexivity |]. split; [reflexivity |]. split; [| split; [| reflexivity]].
    + rewrite <- app_assoc. f_equal.
      change (snd it :: map snd l) with ([snd it] ++ map snd l).
      now rewrite filter_app.
    + intros s. now rewrite Hc, Hc1.
Qed.

(** X7: [ClearPipelineCache] hands every non-null pipeline of the map to
    [vkDestroyPipeline], empties the map and leaves the shader caches as
    they are; a pipeline requested afterwards is created again, also when
    its description was in the map before. *)
Theorem ClearPipelineCache_starts_fresh st :
  let st' := ClearPipelineCache st in
  m_pipeline_objects (objects st') = ∅ /\
  (exists gone,
     destroyed_pipelines st' = destroyed_pipelines st ++ gone /\
     forall p, p ∈ gone <->
       p <> VK_NULL_HANDLE /\
       exists info, m_pipeline_objects (objects st) !! info = Some p) /\
  (forall s, cache_of s (objects st') = cache_of s (objects st)) /\
  (forall info,
     pipeline_log (objects (snd (GetPipelineIn info st'))) =
       pipeline_log (objects st) ++ [info]).
Proof.
  cbv zeta.
  destruct (destroy_live_pipeline_fold
              (map_to_list (m_pipeline_objects (objects st))) st)
    as (Hpc & Hcl & Hd & Hc & Hpl).
  cbv zeta in *.
  assert (Hobj : m_pipeline_objects (objects (ClearPipelineCache st)) = ∅ /\
                 destroyed_pipelines (ClearPipelineCache st) =
                   destroyed_pipelines
                     (fold_left destroy_live_pipeline
                        (map_to_list (m_pipeline_objects (objects st))) st) /\
                 (forall s, cache_of s (objects (ClearPipelineCache st)) =
                            cache_of s (objects
                              (fold_left destroy_live_pipeline
                                (map_to_list (m_pipeline_objects (objects st))) st))) /\
                 pipeline_log (objects (ClearPipelineCache st)) =
                   pipeline_log (objects
                     (fold_left destroy_live_pipeline
                        (map_to_list (m_pipeline_objects (objects st))) st))).
  { unfold ClearPipelineCache, CreatePipelineCache, DestroyPipelineCache.
    set (t := fold_left destroy_live_pipeline _ st).
    unfold create_pipeline_cache. cbn [objects device set_device clear_pipeline_objects].
    destruct (vkCreatePipelineCache _ []) as [[res c] dev].
    cbn [objects device set_device cache_log destroyed_pipelines m_pipeline_cache].
    destruct (vkCreatePipelineCache _ []) as [[res2 c2] dev2].
    destruct (res =? VK_SUCCESS), (res2 =? VK_SUCCESS); cbn;
      (repeat split; try reflexivity; intros s; now destruct s). }
  destruct Hobj as (Hm & Hd' & Hc' & Hpl').
  split; [exact Hm |]. split; [| split].
  - eexists. split; [rewrite Hd', Hd; reflexivity |].
    intros p. rewrite list_elem_of_filter, list_elem_of_fmap. split.
    + intros (Hne & [k v] & -> & Hin). split; [exact Hne |].
      exists k. now apply elem_of_map_to_list.
    + intros (Hne & k & Hk). split; [exact Hne |].
      exists (k, p). split; [reflexivity |]. now apply elem_of_map_to_list.
  - intros s. now rewrite Hc', Hc.
  - intros info. unfold GetPipelineIn.
    assert (Hn : m_pipeline_objects (objects (ClearPipelineCache st)) !! info = None)
      by (rewrite Hm; apply lookup_empty).
    destruct (GetPipeline_miss info _ Hn) as (_ & _ & _ & Hlog).
    destruct (GetPipeline info (objects (ClearPipelineCache st))) as [p oc'].
    cbn in *. now rewrite Hlog, Hpl', Hpl.
Qed.

Lemma ReadRecords_log s records oc :
  compile_log (ReadRecords s records oc) = compile_log oc /\
  m_pipeline_objects (ReadRecords s records oc) = m_pipeline_objects oc.
Proof.
  revert oc. induction records as [| [k v] l IH]; intros oc; [now split |].
  unfold ReadRecords in *. cbn [fold_left fst snd].
  destruct (IH (ShaderCacheReader_Read s k v oc)) as [-> ->].
  unfold ShaderCacheReader_Read.
  destruct (CreateShaderModule (device oc) v) as [m dev].
  destruct (m =? VK_NULL_HANDLE); [now split |].
  destruct (set_item_log s k {| initialized := true; compiled := true; module := m |}
              (GetOrAdd s k (set_device dev oc))) as (-> & -> & _).
  destruct (GetOrAdd_log s k (set_device dev oc)) as (-> & -> & _).
  now split.
Qed.

Lemma ShaderCacheReader_Read_keeps s k v s' uid oc :
  initialized (item_of s' uid oc) = true ->
  initialized (item_of s' uid (ShaderCacheReader_Read s k v oc)) = true.
Proof.
  intros Hi. unfold ShaderCacheReader_Read.
  destruct (CreateShaderModule (device oc) v) as [m dev].
  destruct (m =? VK_NULL_HANDLE); [exact Hi |].
  unfold item_of. rewrite cache_of_set_item.
  case_decide as Hs; [subst s' |].
  - destruct (decide (uid = k)) as [-> | Hne].
    + now rewrite lookup_insert_eq.
    + rewrite lookup_insert_ne by congruence.
      rewrite (GetOrAdd_map s k _ s uid) by congruence. exact Hi.
  - rewrite (GetOrAdd_map s k _ s' uid) by congruence. exact Hi.
Qed.

Lemma ShaderCacheReader_Read_sets s k v oc :
  fst (CreateShaderModule (device oc) v) <> VK_NULL_HANDLE ->
  initialized (item_of s k (ShaderCacheReader_Read s k v oc)) = true.
Proof.
  intros Hm. unfold ShaderCacheReader_Read.
  destruct (CreateShaderModule (device oc) v) as [m dev]. cbn in Hm.
  destruct (Z.eqb_spec m VK_NULL_HANDLE); [contradiction |].
  unfold item_of. now rewrite cache_of_set_item, decide_True, lookup_insert_eq.
Qed.

Lemma ReadRecords_keeps s records s' uid oc :
  initialized (item_of s' uid oc) = true ->
  initialized (item_of s' uid (ReadRecords s records oc)) = true.
Proof.
  revert oc. induction records as [| [k v] l IH]; intros oc Hi; [exact Hi |].
  apply IH, ShaderCacheReader_Read_keeps, Hi.
Qed.

(** X8: shaders read back from the disk cache are not compiled again.  When
    the driver makes a module of every stored binary, reading the records
    compiles nothing, and afterwards a request for any UID of the file,
    after any run of other requests, returns without a compile attempt. *)
Theorem ReadRecords_no_recompile s records oc :
  (forall d r, r ∈ records -> fst (CreateShaderModule d (snd r)) <> VK_NULL_HANDLE) ->
  let oc' := ReadRecords s records oc in
  compile_log oc' = compile_log oc /\
  forall r calls, r ∈ records ->
    let oc2 := run calls oc' in
    snd (GetShaderForUid s (fst r) oc2) = oc2 /\
    fst (GetShaderForUid s (fst r) oc2) = module (item_of s (fst r) oc').
Proof.
  intros Hok. cbv zeta. split; [apply ReadRecords_log |].
  intros r calls Hin.
  assert (Hi : initialized (item_of s (fst r) (ReadRecords s records oc)) = true).
  { clear calls. revert oc.
    induction records as [| [k v] l IH]; intros oc; [by apply elem_of_nil in Hin |].
    apply elem_of_cons in Hin as [-> | Hin].
    - unfold ReadRecords. cbn [fold_left fst snd].
      apply (ReadRecords_keeps s l), ShaderCacheReader_Read_sets.
      apply (Hok _ (k, v)). left.
    - unfold ReadRecords. cbn [fold_left].
      apply IH; [| exact Hin]. intros d r' Hr'. apply Hok. now right. }
  pose proof (run_keeps_entry calls s (fst r) _ Hi) as Hk.
  rewrite GetShaderForUid_hit by now rewrite Hk.
  cbn [fst snd]. now rewrite Hk.
Qed.

(** X9: a record whose module cannot be created is not inserted: the shader
    maps stay as they are, so a first request for its UID compiles the
    shader as if the record had not been there. *)
Theorem ShaderCacheReader_Read_skips_null s key value oc :
  fst (CreateShaderModule (device oc) value) = VK_NULL_HANDLE ->
  let oc' := ShaderCacheReader_Read s key value oc in
  (forall s', cache_of s' oc' = cache_of s' oc) /\
  compile_log oc' = compile_log oc /\
  (initialized (item_of s key oc) = false ->
   compile_log (snd (GetShaderForUid s key oc')) = compile_log oc ++ [(s, key)]).
Proof.
  intros Hm. cbv zeta. unfold ShaderCacheReader_Read.
  destruct (CreateShaderModule (device oc) value) as [m dev]. cbn in Hm. subst m.
  cbn. split; [intros s'; now destruct s' |]. split; [reflexivity |].
  intros Hi. rewrite GetShaderForUid_log.
  assert (Hit : item_of s key (set_device dev oc) = item_of s key oc)
    by (unfold item_of; now destruct s).
  now rewrite Hit, Hi.
Qed.

End PipelineFacts.

End ObjCacheObjectsFacts.

Module ObjCacheObjectsExamples.
Import ObjCache ObjCacheObjects ObjCacheObjectsFacts.

(** A cache file whose single record the driver refuses: the cache object
    is created by the second attempt. *)
Lemma CreatePipelineCache_survives_bad_file_witness :
  let r := CreatePipelineCache (PipelineCacheDriver0 := header_checking_driver)
             true [(1, [7; 7])] 1 sample_pipeline_state in
  fst r = true /\ cache_log (snd r) = [[7; 7]; []].
Proof.
  pose proof (CreatePipelineCache_survives_bad_file
                (PipelineCacheDriver0 := header_checking_driver)
                true [(1, [7; 7])] 1 sample_pipeline_state
                (fun d => eq_refl)) as (Hok & _ & Hretry).
  split; [exact Hok |].
  exact (proj1 (Hretry ltac:(discriminate))).
Defined.

(** Two records read on the accepting driver. *)
Lemma ReadRecords_no_recompile_witness :
  let oc' := ReadRecords (VulkanDriver0 := accepting_driver) Vertex
               [(4, [1; 2]); (6, [3])] sample_cache in
  compile_log oc' = [] /\
  snd (GetShaderForUid (VulkanDriver0 := accepting_driver)
         (ShaderCompiler0 := parity_compiler) Vertex 6 oc') = oc'.
Proof.
  assert (Hok : forall (d : Z) (r : Z * SPIRVCodeVector),
            r ∈ [(4, [1; 2]); (6, [3])] ->
            fst (CreateShaderModule (VulkanDriver := accepting_driver) d (snd r))
              <> VK_NULL_HANDLE).
  { intros d r _. unfold VK_NULL_HANDLE. cbn. lia. }
  destruct (ReadRecords_no_recompile (VulkanDriver0 := accepting_driver)
              (ShaderCompiler0 := parity_compiler)
              Vertex [(4, [1; 2]); (6, [3])] sample_cache Hok) as [Hl Hg].
  split; [exact Hl |].
  exact (proj1 (Hg (6, [3]) [] ltac:(right; left))).
Defined.

(** An empty binary makes no module on the counting driver. *)
Lemma ShaderCacheReader_Read_skips_null_witness :
  let oc' := ShaderCacheReader_Read (VulkanDriver0 := counting_driver) Vertex 4 []
               sample_cache in
  compile_log
    (snd (GetShaderForUid (VulkanDriver0 := counting_driver)
            (ShaderCompiler0 := parity_compiler) Vertex 4 oc'))
    = [(Vertex, 4)].
Proof.
  exact (proj2 (proj2 (ShaderCacheReader_Read_skips_null
                         (VulkanDriver0 := counting_driver)
                         (ShaderCompiler0 := parity_compiler)
                         Vertex 4 [] sample_cache eq_refl)) eq_refl).
Defined.

End ObjCacheObjectsExamples.

Module VSMRunsFacts.
Import VSM VSMFacts VSMRuns.

Section Facts.
Context `{FloatModel} `{XFLayout}.

Implicit Types (env : Env) (st : State) (iv : Z * Z) (w : ConstWrite).

Ltac unfold_blocks :=
  unfold sync_phong_rim, sync_phong_bump, sync_transform, sync_normal, sync_post,
    sync_lights, sync_materials, sync_tex_a, sync_tex_b, sync_viewport,
    sync_projection.

Ltac split_ifs :=
  repeat match goal with |- context [if ?b then _ else _] => destruct b end.

(** *** What each block appends to the constant buffer *)

Lemma buffer_sync_phong_rim env st :
  exists ws, m_buffer (sync_phong_rim env st) = m_buffer st ++ ws /\
             Forall (fun w => reg_of w = C_PHONG) ws.
Proof.
  unfold sync_phong_rim. destruct (phong_rim_changed env st).
  - eexists. split; [reflexivity |]. now repeat constructor.
  - exists []. now rewrite app_nil_r.
Qed.

Lemma buffer_sync_phong_bump env st :
  exists ws, m_buffer (sync_phong_bump env st) = m_buffer st ++ ws /\
             Forall (fun w => reg_of w = C_PHONG) ws.
Proof.
  unfold sync_phong_bump. destruct (phong_bump_changed env st).
  - eexists. split; [reflexivity |]. now repeat constructor.
  - exists []. now rewrite app_nil_r.
Qed.

Lemma buffer_sync_transform st :
  m_buffer (sync_transform st) =
    m_buffer st ++
    (let iv := s_transform_matrices_changed st in
     if dirty iv then
       [SetMultiConstant4v C_TRANSFORMMATRICES (Z.quot (fst iv) 4)
          (Z.quot (snd iv + 3) 4 - Z.quot (fst iv) 4)
          (PosMatrices (Z.quot (fst iv) 4 * 4))]
     else []).
Proof.
  unfold sync_transform. cbv zeta.
  destruct (dirty _); [reflexivity | now rewrite app_nil_r].
Qed.

Lemma buffer_sync_normal st :
  m_buffer (sync_normal st) =
    m_buffer st ++
    (let iv := s_normal_matrices_changed st in
     if dirty iv then
       [SetMultiConstant3v C_NORMALMATRICES (Z.quot (fst iv) 3)
          (Z.quot (snd iv + 2) 3 - Z.quot (fst iv) 3)
          (NormalMatrices (3 * Z.quot (fst iv) 3))]
     else []).
Proof.
  unfold sync_normal. cbv zeta.
  destruct (dirty _); [reflexivity | now rewrite app_nil_r].
Qed.

Lemma buffer_sync_post st :
  m_buffer (sync_post st) =
    m_buffer st ++
    (let iv := nPostTransformMatricesChanged st in
     if dirty iv then
       [SetMultiConstant4v C_POSTTRANSFORMMATRICES (Z.quot (fst iv) 4)
          (Z.quot (snd iv + 3) 4 - Z.quot (fst iv) 4)
          (PostMatrices (Z.quot (fst iv) 4 * 4))]
     else []).
Proof.
  unfold sync_post. cbv zeta.
  destruct (dirty _); [reflexivity | now rewrite app_nil_r].
Qed.

Lemma buffer_sync_lights env st :
  m_buffer (sync_lights env st) =
    m_buffer st ++
    (let iv := s_lights_changed st in
     if dirty iv then
       flat_map (light_writes env)
         (seqZ (Z.quot (fst iv) 0x10)
            (Z.quot (snd iv + 15) 0x10 - Z.quot (fst iv) 0x10))
     else []).
Proof.
  unfold sync_lights. cbv zeta.
  destruct (dirty _); [reflexivity | now rewrite app_nil_r].
Qed.

Lemma buffer_sync_materials env st :
  m_buffer (sync_materials env st) =
    m_buffer st ++
    (if materials_dirty st then material_writes env (s_materials_changed st) else []).
Proof.
  unfold sync_materials.
  destruct (materials_dirty st); [reflexivity | now rewrite app_nil_r].
Qed.

Lemma buffer_sync_tex_a env st :
  m_buffer (sync_tex_a env st) =
    m_buffer st ++
    (if fst (s_tex_matrices_changed st) then
       [ SetMultiConstant4v C_TEXMATRICES 0 3 (PosMatrices (Tex0MtxIdx (cp env) * 4));
         SetMultiConstant4v C_TEXMATRICES 3 3 (PosMatrices (Tex1MtxIdx (cp env) * 4));
         SetMultiConstant4v C_TEXMATRICES 6 3 (PosMatrices (Tex2MtxIdx (cp env) * 4));
         SetMultiConstant4v C_TEXMATRICES 9 3 (PosMatrices (Tex3MtxIdx (cp env) * 4)) ]
     else []).
Proof.
  unfold sync_tex_a.
  destruct (fst (s_tex_matrices_changed st)); [reflexivity | now rewrite app_nil_r].
Qed.

Lemma buffer_sync_tex_b env st :
  m_buffer (sync_tex_b env st) =
    m_buffer st ++
    (if snd (s_tex_matrices_changed st) then
       [ SetMultiConstant4v C_TEXMATRICES 12 3 (PosMatrices (Tex4MtxIdx (cp env) * 4));
         SetMultiConstant4v C_TEXMATRICES 15 3 (PosMatrices (Tex5MtxIdx (cp env) * 4));
         SetMultiConstant4v C_TEXMATRICES 18 3 (PosMatrices (Tex6MtxIdx (cp env) * 4));
         SetMultiConstant4v C_TEXMATRICES 21 3 (PosMatrices (Tex7MtxIdx (cp env) * 4)) ]
     else []).
Proof.
  unfold sync_tex_b.
  destruct (snd (s_tex_matrices_changed st)); [reflexivity | now rewrite app_nil_r].
Qed.

Lemma buffer_sync_viewport env st :
  m_buffer (sync_viewport env st) =
    m_buffer st ++
    (if bViewportChanged st then [SetConstant4 C_DEPTHPARAMS 0 DepthParams] else []).
Proof.
  unfold sync_viewport.
  destruct (bViewportChanged st); [| now rewrite app_nil_r].
  now destruct (bSupportsOversizedViewports (config env)).
Qed.

Lemma buffer_sync_projection env st :
  exists ws, m_buffer (sync_projection env st) = m_buffer st ++ ws /\
             Forall (fun w => reg_of w = C_PROJECTION) ws /\
             (bProjectionChanged st = true -> length ws = 1%nat).
Proof.
  unfold sync_projection. destruct (bProjectionChanged st).
  - destruct (bSupportsPostProcessing (config env) && has_post_processor env);
      (eexists; split; [reflexivity |]; split; [now repeat constructor | reflexivity]).
  - exists []. rewrite app_nil_r. repeat split; [constructor | discriminate].
Qed.

(** *** The fields a block leaves alone *)

Lemma frame_phong env st :
  let st' := sync_phong_bump env (sync_phong_rim env st) in
  intervals st' = intervals st /\
  s_materials_changed st' = s_materials_changed st /\
  s_tex_matrices_changed st' = s_tex_matrices_changed st /\
  bViewportChanged st' = bViewportChanged st /\
  bProjectionChanged st' = bProjectionChanged st.
Proof. cbv zeta. unfold_blocks. split_ifs; repeat split. Qed.

Lemma frame_matrices env st :
  let st' := sync_lights env (sync_post (sync_normal (sync_transform st))) in
  s_materials_changed st' = s_materials_changed st /\
  s_tex_matrices_changed st' = s_tex_matrices_changed st /\
  bViewportChanged st' = bViewportChanged st /\
  bProjectionChanged st' = bProjectionChanged st.
Proof. cbv zeta. unfold_blocks. split_ifs; repeat split. Qed.

Lemma frame_sync_transform st :
  s_normal_matrices_changed (sync_transform st) = s_normal_matrices_changed st /\
  nPostTransformMatricesChanged (sync_transform st) = nPostTransformMatricesChanged st /\
  s_lights_changed (sync_transform st) = s_lights_changed st.
Proof. unfold_blocks. split_ifs; repeat split. Qed.

Lemma frame_sync_normal st :
  nPostTransformMatricesChanged (sync_normal st) = nPostTransformMatricesChanged st /\
  s_lights_changed (sync_normal st) = s_lights_changed st.
Proof. unfold_blocks. split_ifs; repeat split. Qed.

Lemma frame_sync_post st :
  s_lights_changed (sync_post st) = s_lights_changed st.
Proof. unfold_blocks. split_ifs; repeat split. Qed.

Lemma frame_sync_materials env st :
  s_tex_matrices_changed (sync_materials env st) = s_tex_matrices_changed st /\
  bViewportChanged (sync_materials env st) = bViewportChanged st /\
  bProjectionChanged (sync_materials env st) = bProjectionChanged st.
Proof. unfold_blocks. split_ifs; repeat split. Qed.

Lemma frame_sync_tex_a env st :
  snd (s_tex_matrices_changed (sync_tex_a env st)) = snd (s_tex_matrices_changed st) /\
  bViewportChanged (sync_tex_a env st) = bViewportChanged st /\
  bProjectionChanged (sync_tex_a env st) = bProjectionChanged st.
Proof. unfold_blocks. split_ifs; repeat split. Qed.

Lemma frame_sync_tex_b env st :
  bViewportChanged (sync_tex_b env st) = bViewportChanged st /\
  bProjectionChanged (sync_tex_b env st) = bProjectionChanged st.
Proof. unfold_blocks. split_ifs; repeat split. Qed.

Lemma frame_sync_viewport env st :
  bProjectionChanged st = true -> bProjectionChanged (sync_viewport env st) = true.
Proof. unfold_blocks. intros Hp. split_ifs; cbn; auto. Qed.

(** The writes of [SetConstants], block by block, in terms of the state it
    starts in. *)
Lemma buffer_SetConstants env st :
  exists phong proj,
    Forall (fun w => reg_of w = C_PHONG) phong /\
    Forall (fun w => reg_of w = C_PROJECTION) proj /\
    (bProjectionChanged st = true -> length proj = 1%nat) /\
    m_buffer (SetConstants env st) =
      m_buffer st ++ phong
      ++ (let iv := s_transform_matrices_changed st in
          if dirty iv then
            [SetMultiConstant4v C_TRANSFORMMATRICES (Z.quot (fst iv) 4)
               (Z.quot (snd iv + 3) 4 - Z.quot (fst iv) 4)
               (PosMatrices (Z.quot (fst iv) 4 * 4))]
          else [])
      ++ (let iv := s_normal_matrices_changed st in
          if dirty iv then
            [SetMultiConstant3v C_NORMALMATRICES (Z.quot (fst iv) 3)
               (Z.quot (snd iv + 2) 3 - Z.quot (fst iv) 3)
               (NormalMatrices (3 * Z.quot (fst iv) 3))]
          else [])
      ++ (let iv := nPostTransformMatricesChanged st in
          if dirty iv then
            [SetMultiConstant4v C_POSTTRANSFORMMATRICES (Z.quot (fst iv) 4)
               (Z.quot (snd iv + 3) 4 - Z.quot (fst iv) 4)
               (PostMatrices (Z.quot (fst iv) 4 * 4))]
          else [])
      ++ (let iv := s_lights_changed st in
          if dirty iv then
            flat_map (light_writes env)
              (seqZ (Z.quot (fst iv) 0x10)
                 (Z.quot (snd iv + 15) 0x10 - Z.quot (fst iv) 0x10))
          else [])
      ++ (if materials_dirty st
          then material_writes env (s_materials_changed st) else [])
      ++ (if fst (s_tex_matrices_changed st) then
            [ SetMultiConstant4v C_TEXMATRICES 0 3 (PosMatrices (Tex0MtxIdx (cp env) * 4));
              SetMultiConstant4v C_TEXMATRICES 3 3 (PosMatrices (Tex1MtxIdx (cp env) * 4));
              SetMultiConstant4v C_TEXMATRICES 6 3 (PosMatrices (Tex2MtxIdx (cp env) * 4));
              SetMultiConstant4v C_TEXMATRICES 9 3 (PosMatrices (Tex3MtxIdx (cp env) * 4)) ]
          else [])
      ++ (if snd (s_tex_matrices_changed st) then
            [ SetMultiConstant4v C_TEXMATRICES 12 3 (PosMatrices (Tex4MtxIdx (cp env) * 4));
              SetMultiConstant4v C_TEXMATRICES 15 3 (PosMatrices (Tex5MtxIdx (cp env) * 4));
              SetMultiConstant4v C_TEXMATRICES 18 3 (PosMatrices (Tex6MtxIdx (cp env) * 4));
              SetMultiConstant4v C_TEXMATRICES 21 3 (PosMatrices (Tex7MtxIdx (cp env) * 4)) ]
          else [])
      ++ (if bViewportChanged st then [SetConstant4 C_DEPTHPARAMS 0 DepthParams] else [])
      ++ proj.
Proof.
  unfold SetConstants. cbv zeta.
  destruct (buffer_sync_phong_rim env st) as (w1 & B1 & P1).
  destruct (buffer_sync_phong_bump env (sync_phong_rim env st)) as (w2 & B2 & P2).
  rewrite B1 in B2.
  destruct (frame_phong env st) as (Fi & Fm & Ft & Fv & Fp).
  unfold intervals in Fi. injection Fi as FT FN FP FL.
  remember (sync_phong_bump env (sync_phong_rim env st)) as s2 eqn:E2.
  clear E2 B1.
  destruct (frame_sync_transform s2) as (FN3 & FP3 & FL3).
  destruct (frame_matrices env s2) as (Fm6 & Ft6 & Fv6 & Fp6).
  pose proof (buffer_sync_transform s2) as B3.
  remember (sync_transform s2) as s3 eqn:E3.
  destruct (frame_sync_normal s3) as (FP4 & FL4).
  pose proof (buffer_sync_normal s3) as B4.
  remember (sync_normal s3) as s4 eqn:E4.
  pose proof (frame_sync_post s4) as FL5.
  pose proof (buffer_sync_post s4) as B5.
  remember (sync_post s4) as s5 eqn:E5.
  pose proof (buffer_sync_lights env s5) as B6.
  remember (sync_lights env s5) as s6 eqn:E6.
  clear E3 E4 E5 E6.
  destruct (frame_sync_materials env s6) as (Ft7 & Fv7 & Fp7).
  pose proof (buffer_sync_materials env s6) as B7.
  remember (sync_materials env s6) as s7 eqn:E7.
  destruct (frame_sync_tex_a env s7) as (Ft8 & Fv8 & Fp8).
  pose proof (buffer_sync_tex_a env s7) as B8.
  remember (sync_tex_a env s7) as s8 eqn:E8.
  destruct (frame_sync_tex_b env s8) as (Fv9 & Fp9).
  pose proof (buffer_sync_tex_b env s8) as B9.
  remember (sync_tex_b env s8) as s9 eqn:E9.
  pose proof (buffer_sync_viewport env s9) as B10.
  pose proof (frame_sync_viewport env s9) as Fp10.
  remember (sync_viewport env s9) as s10 eqn:E10.
  clear E7 E8 E9 E10.
  destruct (buffer_sync_projection env s10) as (w11 & B11 & P11 & L11).
  exists (w1 ++ w2), w11.
  split; [apply Forall_app; now split |]. split; [exact P11 |]. split.
  { intros Hp. apply L11, Fp10. now rewrite Fp9, Fp8, Fp7, Fp6, Fp. }
  rewrite B11, B10, B9, B8, B7, B6, B5, B4, B3, B2. cbv zeta.
  rewrite Fv9, Fv8, Fv7, Fv6, Fv.
  rewrite Ft8, Ft7, Ft6, Ft.
  assert (Hmd : materials_dirty s6 = materials_dirty st)
    by (unfold materials_dirty; now rewrite Fm6, Fm).
  rewrite Hmd, Fm6, Fm, FL5, FL4, FL3, FL, FP4, FP3, FP, FN3, FN, FT.
  now rewrite <- !app_assoc.
Qed.

(** *** [Dirty] and [InvalidateXFRange] write nothing *)

Ltac unfold_marks :=
  unfold InvalidateXFRange, mark_lights, mark_post, mark_normal, mark_transform,
    mark_tex_b, mark_tex_a.

Lemma transform_of_InvalidateXFRange c start end_ st :
  s_transform_matrices_changed (InvalidateXFRange c start end_ st)
    = s_transform_matrices_changed (mark_transform start end_ st).
Proof. unfold_marks. split_ifs; reflexivity. Qed.

Lemma tex_of_InvalidateXFRange c start end_ st :
  s_tex_matrices_changed (InvalidateXFRange c start end_ st)
    = s_tex_matrices_changed (mark_tex_b c start (mark_tex_a c start st)).
Proof. unfold_marks. split_ifs; reflexivity. Qed.

Lemma lights_of_InvalidateXFRange c start end_ st :
  s_lights_changed (InvalidateXFRange c start end_ st)
    = s_lights_changed (mark_lights start end_ st).
Proof. unfold_marks. split_ifs; reflexivity. Qed.

Lemma frame_InvalidateXFRange c start end_ st :
  let st' := InvalidateXFRange c start end_ st in
  m_buffer st' = m_buffer st /\
  renderer st' = renderer st /\
  s_lights_phong st' = s_lights_phong st /\
  s_materials_changed st' = s_materials_changed st /\
  bViewportChanged st' = bViewportChanged st /\
  bProjectionChanged st' = bProjectionChanged st /\
  view st' = view st.
Proof. cbv zeta. unfold_marks. split_ifs; repeat split. Qed.

Lemma widen_grows iv a b :
  0 <= a -> dirty iv = true ->
  dirty (widen iv a b) = true /\
  fst (widen iv a b) <= fst iv /\ snd iv <= snd (widen iv a b).
Proof.
  unfold dirty, widen. intros Ha Hd. apply Z.leb_le in Hd.
  destruct (Z.eqb_spec (fst iv) (-1)); [lia |]. cbn [fst snd].
  destruct (Z.ltb_spec a (fst iv)), (Z.ltb_spec (snd iv) b);
    (split; [apply Z.leb_le |]); lia.
Qed.

Lemma widen_transform_grows iv start end_ :
  0 < XFMEM_POSMATRICES_END < 2 ^ 31 ->
  0 <= start < XFMEM_POSMATRICES_END -> 0 <= end_ < 2 ^ 32 ->
  snd iv <= XFMEM_POSMATRICES_END -> dirty iv = true ->
  dirty (widen_transform iv start end_) = true /\
  fst (widen_transform iv start end_) <= fst iv /\
  snd iv <= snd (widen_transform iv start end_).
Proof.
  unfold dirty, widen_transform. intros Hl Hs He Hhi Hd. apply Z.leb_le in Hd.
  rewrite (s32_small start) by lia.
  destruct (Z.eqb_spec (fst iv) (-1)); [lia |]. cbn [fst snd].
  destruct (Z.ltb_spec start (fst iv)), (Z.ltb_spec (snd iv) (s32 end_)),
    (Z.ltb_spec XFMEM_POSMATRICES_END end_);
    rewrite ?s32_small by lia; (split; [apply Z.leb_le |]); try lia.
  all: rewrite s32_small in * by lia; lia.
Qed.

(** X10: the first [SetConstants] after [Dirty] uploads everything: all 64
    rows of the position matrices, all 32 of the normal matrices, all 64
    of the post-transform matrices, the eight lights, the four material
    colours, the eight texture matrices and the projection, whatever the
    state was before.  The depth parameters are only uploaded when the
    viewport was marked, which [Dirty] does not do. *)
Theorem SetConstants_after_Dirty_uploads_all env st :
  exists phong proj,
    Forall (fun w => reg_of w = C_PHONG) phong /\
    Forall (fun w => reg_of w = C_PROJECTION) proj /\
    length proj = 1%nat /\
    m_buffer (SetConstants env (Dirty st)) =
      m_buffer st ++ phong ++ full_upload env
      ++ (if bViewportChanged st then [SetConstant4 C_DEPTHPARAMS 0 DepthParams] else [])
      ++ proj.
Proof.
  destruct (buffer_SetConstants env (Dirty st)) as (phong & proj & P1 & P2 & L & B).
  exists phong, proj. split; [exact P1 |]. split; [exact P2 |].
  split; [now apply L |].
  rewrite B. cbn [Dirty m_buffer set_transform set_normal set_post set_lights set_tex
    set_projection_changed set_materials set_phong
    s_transform_matrices_changed s_normal_matrices_changed
    nPostTransformMatricesChanged s_lights_changed s_tex_matrices_changed
    s_materials_changed bViewportChanged materials_dirty fst snd].
  unfold full_upload. rewrite <- !app_assoc. reflexivity.
Qed.

(** X11: [InvalidateXFRange] only marks.  It writes no constant and calls no
    renderer function; a texture-matrix flag that is set stays set; and an
    interval that is dirty stays dirty and can only grow. *)
Theorem InvalidateXFRange_only_marks c start end_ st :
  layout_ok -> 0 <= start < 2 ^ 32 -> 0 <= end_ < 2 ^ 32 ->
  snd (s_transform_matrices_changed st) <= XFMEM_POSMATRICES_END ->
  let st' := InvalidateXFRange c start end_ st in
  m_buffer st' = m_buffer st /\
  renderer st' = renderer st /\
  s_materials_changed st' = s_materials_changed st /\
  bViewportChanged st' = bViewportChanged st /\
  bProjectionChanged st' = bProjectionChanged st /\
  (fst (s_tex_matrices_changed st) = true -> fst (s_tex_matrices_changed st') = true) /\
  (snd (s_tex_matrices_changed st) = true -> snd (s_tex_matrices_changed st') = true) /\
  Forall2 (fun iv iv' =>
             dirty iv = true ->
             dirty iv' = true /\ fst iv' <= fst iv /\ snd iv <= snd iv')
    (intervals st) (intervals st').
Proof.
  intros Hl Hs He Hhi. cbv zeta.
  pose proof Hl as (Hpos & Hnl & Hnle & Hpl & Hple & Hll & Hlle).
  destruct (frame_InvalidateXFRange c start end_ st) as (Hb & Hr & _ & Hm & Hv & Hp & _).
  split; [exact Hb |]. split; [exact Hr |]. split; [exact Hm |].
  split; [exact Hv |]. split; [exact Hp |].
  split; [| split].
  - rewrite tex_of_InvalidateXFRange. unfold mark_tex_a, mark_tex_b.
    intros Ht. split_ifs; cbn; try reflexivity; exact Ht.
  - rewrite tex_of_InvalidateXFRange. unfold mark_tex_a, mark_tex_b.
    intros Ht. split_ifs; cbn; try reflexivity; exact Ht.
  - unfold intervals.
    rewrite transform_of_InvalidateXFRange, normal_of_InvalidateXFRange,
      post_of_InvalidateXFRange, lights_of_InvalidateXFRange.
    constructor; [| constructor; [| constructor; [| constructor; [| constructor]]]].
    + unfold mark_transform. destruct (Z.ltb_spec start XFMEM_POSMATRICES_END).
      * cbn [s_transform_matrices_changed set_transform].
        apply widen_transform_grows; auto; lia.
      * intros Hd. rewrite Hd. split; [reflexivity | lia].
    + unfold mark_normal.
      destruct (Z.ltb_spec start XFMEM_NORMALMATRICES_END),
        (Z.ltb_spec XFMEM_NORMALMATRICES end_); cbn [andb];
        try (intros Hd; rewrite Hd; split; [reflexivity | lia]).
      cbn [s_normal_matrices_changed set_normal]. apply widen_grows.
      destruct (Z.ltb_spec start XFMEM_NORMALMATRICES);
        rewrite ?u32_small, ?s32_small by lia; lia.
    + unfold mark_post.
      destruct (Z.ltb_spec start XFMEM_POSTMATRICES_END),
        (Z.ltb_spec XFMEM_POSTMATRICES end_); cbn [andb];
        try (intros Hd; rewrite Hd; split; [reflexivity | lia]).
      cbn [nPostTransformMatricesChanged set_post]. apply widen_grows.
      destruct (Z.ltb_spec start XFMEM_POSTMATRICES);
        rewrite ?u32_small, ?s32_small by lia; lia.
    + unfold mark_lights.
      destruct (Z.ltb_spec start XFMEM_LIGHTS_END),
        (Z.ltb_spec XFMEM_LIGHTS end_); cbn [andb];
        try (intros Hd; rewrite Hd; split; [reflexivity | lia]).
      cbn [s_lights_changed set_lights]. apply widen_grows.
      destruct (Z.ltb_spec start XFMEM_LIGHTS);
        rewrite ?u32_small, ?s32_small by lia; lia.
Qed.

Lemma widen_transform_covers iv start end_ :
  0 < XFMEM_POSMATRICES_END < 2 ^ 31 ->
  0 <= start < XFMEM_POSMATRICES_END -> start <= end_ < 2 ^ 31 ->
  covers (widen_transform iv start end_) start (Z.min end_ XFMEM_POSMATRICES_END).
Proof.
  unfold covers, widen_transform. intros Hl Hs He.
  rewrite (s32_small start), (s32_small end_) by lia.
  destruct (Z.eqb_spec (fst iv) (-1)), (Z.ltb_spec XFMEM_POSMATRICES_END end_),
    (Z.ltb_spec start (fst iv)), (Z.ltb_spec (snd iv) end_);
    cbv iota; cbn [fst snd]; rewrite ?s32_small by lia; lia.
Qed.

Lemma quot4_rows lo hi :
  0 <= lo -> 0 <= hi ->
  Z.quot lo 4 * 4 <= lo /\ hi <= (Z.quot lo 4 + (Z.quot (hi + 3) 4 - Z.quot lo 4)) * 4.
Proof.
  intros Hlo Hhi. rewrite !Z.quot_div_nonneg by lia. Z.div_mod_to_equations. lia.
Qed.

Lemma quot3_rows lo hi :
  0 <= lo -> 0 <= hi ->
  3 * Z.quot lo 3 <= lo /\ hi <= 3 * (Z.quot lo 3 + (Z.quot (hi + 2) 3 - Z.quot lo 3)).
Proof.
  intros Hlo Hhi. rewrite !Z.quot_div_nonneg by lia. Z.div_mod_to_equations. lia.
Qed.

(** X12: what is written to the position or normal matrices is uploaded by
    the next [SetConstants].  After [InvalidateXFRange(start, end)] the
    call uploads a run of whole rows of the position matrices that
    contains every word from [start] to [min(end, XFMEM_POSMATRICES_END)],
    and a run of whole normal-matrix rows that contains the part of the
    range inside the normal-matrix block. *)
Theorem InvalidateXFRange_then_SetConstants_uploads c env start end_ st :
  layout_ok -> intervals_ok st -> 0 <= start <= end_ -> end_ < 2 ^ 31 ->
  let buf := m_buffer (SetConstants env (InvalidateXFRange c start end_ st)) in
  (start < XFMEM_POSMATRICES_END ->
   exists off count,
     SetMultiConstant4v C_TRANSFORMMATRICES off count (PosMatrices (off * 4)) ∈ buf /\
     off * 4 <= start /\
     Z.min end_ XFMEM_POSMATRICES_END <= (off + count) * 4) /\
  (start < XFMEM_NORMALMATRICES_END -> XFMEM_NORMALMATRICES < end_ ->
   exists off count,
     SetMultiConstant3v C_NORMALMATRICES off count (NormalMatrices (3 * off)) ∈ buf /\
     3 * off <= overlap_lo XFMEM_NORMALMATRICES start /\
     overlap_hi XFMEM_NORMALMATRICES XFMEM_NORMALMATRICES_END end_
       <= 3 * (off + count)).
Proof.
  intros Hl Hok Hs He. cbv zeta.
  pose proof Hl as (Hpos & Hnl & Hnle & _).
  assert (Hok' : intervals_ok (InvalidateXFRange c start end_ st))
    by (apply intervals_ok_InvalidateXFRange; auto; lia).
  destruct Hok' as (HT & HN & _).
  destruct (buffer_SetConstants env (InvalidateXFRange c start end_ st))
    as (phong & proj & _ & _ & _ & B).
  rewrite B. cbv zeta. clear B. split.
  - intros Hlt.
    assert (Hc : covers (s_transform_matrices_changed (InvalidateXFRange c start end_ st))
                   start (Z.min end_ XFMEM_POSMATRICES_END)).
    { rewrite transform_of_InvalidateXFRange. unfold mark_transform.
      destruct (Z.ltb_spec start XFMEM_POSMATRICES_END); [| lia].
      cbn [s_transform_matrices_changed set_transform].
      apply widen_transform_covers; lia. }
    destruct (s_transform_matrices_changed (InvalidateXFRange c start end_ st))
      as [lo hi].
    unfold covers, interval_ok in Hc, HT. cbn [fst snd] in *.
    assert (Hlo : 0 <= lo) by (destruct HT as [? | [= -> ->]]; lia).
    unfold dirty. cbn [fst]. destruct (Z.leb_spec 0 lo); [| lia].
    destruct (quot4_rows lo hi) as [Hq1 Hq2]; [lia | lia |].
    eexists _, _. split; [| split; [| etransitivity; [| exact Hq2]]]; [| lia | lia].
    rewrite !elem_of_app. right. right. left. apply list_elem_of_here.
  - intros Hlt Hgt.
    pose proof (InvalidateXFRange_normal_covers c start end_ st Hl
                  ltac:(lia) ltac:(lia) Hlt Hgt) as Hc.
    destruct (s_normal_matrices_changed (InvalidateXFRange c start end_ st))
      as [lo hi].
    unfold covers, interval_ok, overlap_lo, overlap_hi in *. cbn [fst snd] in *.
    assert (Hlo : 0 <= lo) by (destruct HN as [? | [= -> ->]]; lia).
    unfold dirty. cbn [fst]. destruct (Z.leb_spec 0 lo); [| lia].
    destruct (quot3_rows lo hi) as [Hq1 Hq2]; [lia | lia |].
    eexists _, _. split; [| split; [| etransitivity; [| exact Hq2]]]; [| lia | lia].
    rewrite !elem_of_app. right. right. right. left. apply list_elem_of_here.
Qed.

(** X13: a write that starts inside a texture matrix selected by the CP
    matrix indices makes the next [SetConstants] upload the four texture
    matrices of its group again. *)
Theorem InvalidateXFRange_tex_matrix_reuploaded c env start end_ st :
  cp env = c ->
  let buf := m_buffer (SetConstants env (InvalidateXFRange c start end_ st)) in
  (in_tex_matrix start (Tex0MtxIdx c) || in_tex_matrix start (Tex1MtxIdx c)
   || in_tex_matrix start (Tex2MtxIdx c) || in_tex_matrix start (Tex3MtxIdx c) = true ->
   Forall (fun w => w ∈ buf)
     [ SetMultiConstant4v C_TEXMATRICES 0 3 (PosMatrices (Tex0MtxIdx c * 4));
       SetMultiConstant4v C_TEXMATRICES 3 3 (PosMatrices (Tex1MtxIdx c * 4));
       SetMultiConstant4v C_TEXMATRICES 6 3 (PosMatrices (Tex2MtxIdx c * 4));
       SetMultiConstant4v C_TEXMATRICES 9 3 (PosMatrices (Tex3MtxIdx c * 4)) ]) /\
  (in_tex_matrix start (Tex4MtxIdx c) || in_tex_matrix start (Tex5MtxIdx c)
   || in_tex_matrix start (Tex6MtxIdx c) || in_tex_matrix start (Tex7MtxIdx c) = true ->
   Forall (fun w => w ∈ buf)
     [ SetMultiConstant4v C_TEXMATRICES 12 3 (PosMatrices (Tex4MtxIdx c * 4));
       SetMultiConstant4v C_TEXMATRICES 15 3 (PosMatrices (Tex5MtxIdx c * 4));
       SetMultiConstant4v C_TEXMATRICES 18 3 (PosMatrices (Tex6MtxIdx c * 4));
       SetMultiConstant4v C_TEXMATRICES 21 3 (PosMatrices (Tex7MtxIdx c * 4)) ]).
Proof.
  intros Hcp. cbv zeta.
  destruct (buffer_SetConstants env (InvalidateXFRange c start end_ st))
    as (phong & proj & _ & _ & _ & B).
  rewrite B, tex_of_InvalidateXFRange, Hcp. clear B. cbv zeta.
  unfold mark_tex_a, mark_tex_b. split; intros Hin.
  - rewrite Hin.
    assert (Hf : fst (s_tex_matrices_changed
                   (if in_tex_matrix start (Tex4MtxIdx c) || in_tex_matrix start (Tex5MtxIdx c)
                       || in_tex_matrix start (Tex6MtxIdx c)
                       || in_tex_matrix start (Tex7MtxIdx c)
                    then set_tex (fst (s_tex_matrices_changed
                                    (set_tex (true, snd (s_tex_matrices_changed st)) st)), true)
                           (set_tex (true, snd (s_tex_matrices_changed st)) st)
                    else set_tex (true, snd (s_tex_matrices_changed st)) st)) = true)
      by (split_ifs; reflexivity).
    rewrite Hf.
    apply Forall_forall. intros w Hw. rewrite !elem_of_app. tauto.
  - rewrite Hin. cbn [snd s_tex_matrices_changed set_tex].
    apply Forall_forall. intros w Hw. rewrite !elem_of_app. tauto.
Qed.

(** *** Uploads stay within the matrix blocks *)

Lemma rows_ok_other w :
  reg_of w <> C_TRANSFORMMATRICES -> reg_of w <> C_NORMALMATRICES -> rows_ok w.
Proof. destruct w as [r | r | r | r]; destruct r; cbn; tauto. Qed.

Lemma rows_ok_light_writes env i : Forall rows_ok (light_writes env i).
Proof.
  unfold light_writes. destruct (distatt_negligible (floats env) i);
    repeat constructor.
Qed.

Lemma rows_ok_material_writes env changed : Forall rows_ok (material_writes env changed).
Proof.
  unfold material_writes. cbn [flat_map]. rewrite !app_nil_r.
  repeat (apply Forall_app; split); split_ifs; repeat constructor.
Qed.

Lemma bounded_consumed limit iv : bounded limit iv -> consumed iv = (-1, -1).
Proof.
  intros [-> | Hb]; [reflexivity |]. apply consumed_ok. left. lia.
Qed.

Lemma bounded_widen limit iv a b :
  bounded limit iv -> 0 <= a <= b -> b <= limit -> bounded limit (widen iv a b).
Proof.
  unfold bounded, widen. intros [-> | Hb] Ha Hl; cbn [fst snd].
  - right. cbn. lia.
  - destruct (Z.eqb_spec (fst iv) (-1)); [lia |]. right. cbn [fst snd].
    destruct (Z.ltb_spec a (fst iv)), (Z.ltb_spec (snd iv) b); lia.
Qed.

Lemma bounded_widen_transform limit iv start end_ :
  0 < XFMEM_POSMATRICES_END < 2 ^ 31 -> XFMEM_POSMATRICES_END <= limit ->
  0 <= start < XFMEM_POSMATRICES_END -> start <= end_ < 2 ^ 32 ->
  bounded limit iv -> bounded limit (widen_transform iv start end_).
Proof.
  unfold bounded, widen_transform. intros Hl Hlim Hs He Hb.
  rewrite (s32_small start) by lia.
  assert (Hc : s32 (if XFMEM_POSMATRICES_END <? end_ then XFMEM_POSMATRICES_END else end_)
               = Z.min end_ XFMEM_POSMATRICES_END).
  { destruct (Z.ltb_spec XFMEM_POSMATRICES_END end_); rewrite s32_small by lia; lia. }
  rewrite Hc. right.
  destruct Hb as [-> | Hb]; cbn [fst snd]; [cbn; lia |].
  destruct (Z.eqb_spec (fst iv) (-1)); [lia |]. cbn [fst snd].
  destruct (Z.ltb_spec start (fst iv)), (Z.ltb_spec (snd iv) (s32 end_)); lia.
Qed.

Lemma rows_ok_transform iv :
  bounded 256 iv ->
  Forall rows_ok
    (if dirty iv then
       [SetMultiConstant4v C_TRANSFORMMATRICES (Z.quot (fst iv) 4)
          (Z.quot (snd iv + 3) 4 - Z.quot (fst iv) 4)
          (PosMatrices (Z.quot (fst iv) 4 * 4))]
     else []).
Proof.
  intros [-> | Hb]; [cbn; constructor |].
  destruct (dirty iv); [| constructor].
  repeat constructor; cbn; rewrite !Z.quot_div_nonneg by lia;
    Z.div_mod_to_equations; lia.
Qed.

Lemma rows_ok_normal iv :
  bounded 96 iv ->
  Forall rows_ok
    (if dirty iv then
       [SetMultiConstant3v C_NORMALMATRICES (Z.quot (fst iv) 3)
          (Z.quot (snd iv + 2) 3 - Z.quot (fst iv) 3)
          (NormalMatrices (3 * Z.quot (fst iv) 3))]
     else []).
Proof.
  intros [-> | Hb]; [cbn; constructor |].
  destruct (dirty iv); [| constructor].
  repeat constructor; cbn; rewrite !Z.quot_div_nonneg by lia;
    Z.div_mod_to_equations; lia.
Qed.

(** The invariant of the runs: the two intervals run upwards within their
    blocks, and every upload made so far is within bounds. *)
Lemma within_blocks_step o st :
  layout_ok -> sizes_ok -> op_valid o ->
  bounded 256 (s_transform_matrices_changed st) /\
  bounded 96 (s_normal_matrices_changed st) /\
  Forall rows_ok (m_buffer st) ->
  bounded 256 (s_transform_matrices_changed (apply_op st o)) /\
  bounded 96 (s_normal_matrices_changed (apply_op st o)) /\
  Forall rows_ok (m_buffer (apply_op st o)).
Proof.
  intros Hl (Hsz1 & Hsz2) Hv (HT & HN & HB).
  pose proof Hl as (Hpos & Hnl & Hnle & _).
  destruct o as [| c start end_ | env]; cbn [apply_op op_valid] in *.
  - split; [| split; [| exact HB]]; right; cbn; lia.
  - destruct (frame_InvalidateXFRange c start end_ st) as (-> & _).
    rewrite transform_of_InvalidateXFRange, normal_of_InvalidateXFRange.
    split; [| split; [| exact HB]].
    + unfold mark_transform. destruct (Z.ltb_spec start XFMEM_POSMATRICES_END);
        [| exact HT].
      cbn [s_transform_matrices_changed set_transform].
      apply bounded_widen_transform; auto; lia.
    + unfold mark_normal.
      destruct (Z.ltb_spec start XFMEM_NORMALMATRICES_END),
        (Z.ltb_spec XFMEM_NORMALMATRICES end_); cbn [andb]; try exact HN.
      cbn [s_normal_matrices_changed set_normal].
      destruct (normal_bounds start end_ Hl) as (-> & ->); try lia.
      unfold overlap_lo, overlap_hi. apply bounded_widen; [exact HN | lia | lia].
  - pose proof (intervals_SetConstants env st) as Hi.
    unfold intervals in Hi. cbn [map] in Hi. injection Hi as -> -> _ _.
    rewrite (bounded_consumed _ _ HT), (bounded_consumed _ _ HN).
    split; [now left |]. split; [now left |].
    destruct (buffer_SetConstants env st) as (phong & proj & P1 & P2 & _ & ->).
    repeat (apply Forall_app; split); try assumption.
    + eapply Forall_impl; [exact P1 |]. intros w Hw. apply rows_ok_other; congruence.
    + now apply rows_ok_transform.
    + now apply rows_ok_normal.
    + cbv zeta. split_ifs; repeat constructor.
    + cbv zeta. split_ifs; [| constructor].
      apply Forall_flat_map, Forall_forall. intros i _. apply rows_ok_light_writes.
    + split_ifs; [apply rows_ok_material_writes | constructor].
    + split_ifs; repeat constructor.
    + split_ifs; repeat constructor.
    + split_ifs; repeat constructor.
    + eapply Forall_impl; [exact P2 |]. intros w Hw. apply rows_ok_other; congruence.
Qed.

(** X14: whatever sequence of [Dirty], [InvalidateXFRange] and
    [SetConstants] calls runs from the zero-initialised statics, every
    upload of position-matrix rows has a non-negative row count and lies
    within the 64 rows of the block, and every upload of normal-matrix rows
    within its 32 rows. *)
Theorem uploads_within_blocks ops v :
  layout_ok -> sizes_ok -> Forall op_valid ops ->
  let st := run_ops ops (zero_state v) in
  Forall rows_ok (m_buffer st) /\
  bounded 256 (s_transform_matrices_changed st) /\
  bounded 96 (s_normal_matrices_changed st).
Proof.
  intros Hl Hsz Hv. cbv zeta.
  assert (Hinv : forall st,
            bounded 256 (s_transform_matrices_changed st) /\
            bounded 96 (s_normal_matrices_changed st) /\
            Forall rows_ok (m_buffer st) ->
            bounded 256 (s_transform_matrices_changed (run_ops ops st)) /\
            bounded 96 (s_normal_matrices_changed (run_ops ops st)) /\
            Forall rows_ok (m_buffer (run_ops ops st))).
  { induction Hv as [| o ops Ho Hops IH]; intros st Hst; [exact Hst |].
    cbn [run_ops fold_left]. apply IH. now apply within_blocks_step. }
  destruct (Hinv (zero_state v)) as (HT & HN & HB).
  - split; [| split; [| constructor]]; right; cbn; lia.
  - auto.
Qed.

End Facts.

End VSMRunsFacts.

Module VSMRunsExamples.
Import VSM VSMFacts VSMRuns VSMRunsFacts.

Lemma gamecube_layout_ok : @layout_ok gamecube_layout.
Proof. unfold layout_ok. cbn. lia. Qed.

Lemma gamecube_sizes_ok : @sizes_ok gamecube_layout.
Proof. unfold sizes_ok. cbn. lia. Qed.

(** A write to the second position matrix after everything was uploaded. *)
Lemma InvalidateXFRange_only_marks_witness :
  m_buffer (@InvalidateXFRange unit_floats gamecube_layout sample_cp 16 32 synced)
    = m_buffer synced.
Proof.
  refine (proj1 (@InvalidateXFRange_only_marks unit_floats gamecube_layout
                   sample_cp 16 32 synced gamecube_layout_ok _ _ _)).
  - lia.
  - lia.
  - vm_compute. discriminate.
Defined.

Lemma InvalidateXFRange_then_SetConstants_uploads_witness :
  exists off count,
    SetMultiConstant4v C_TRANSFORMMATRICES off count (PosMatrices (off * 4))
      ∈ m_buffer (SetConstants sample_env
                    (@InvalidateXFRange unit_floats gamecube_layout sample_cp 17 30
                       synced)) /\
    off * 4 <= 17 /\ 30 <= (off + count) * 4.
Proof.
  assert (Hok : intervals_ok synced)
    by (unfold intervals_ok, interval_ok; vm_compute; auto).
  refine (proj1 (@InvalidateXFRange_then_SetConstants_uploads unit_floats
                   gamecube_layout sample_cp sample_env 17 30 synced
                   gamecube_layout_ok Hok _ _) _).
  - lia.
  - lia.
  - cbn. lia.
Defined.

(** Tex1MtxIdx is 33 in the sample CP state: word 134 is in its matrix. *)
Lemma InvalidateXFRange_tex_matrix_reuploaded_witness :
  SetMultiConstant4v C_TEXMATRICES 3 3 (PosMatrices (33 * 4))
    ∈ m_buffer (SetConstants sample_env
                  (@InvalidateXFRange unit_floats gamecube_layout sample_cp 134 138
                     synced)).
Proof.
  pose proof (proj1 (@InvalidateXFRange_tex_matrix_reuploaded unit_floats
                       gamecube_layout sample_cp sample_env 134 138 synced eq_refl)
                eq_refl) as Hall.
  apply Forall_cons in Hall as [_ Hall].
  apply Forall_cons in Hall as [H1 _].
  exact H1.
Defined.

Lemma uploads_within_blocks_witness :
  Forall rows_ok
    (m_buffer
       (@run_ops unit_floats gamecube_layout
          [OpDirty; OpSetConstants sample_env;
           OpInvalidateXFRange sample_cp 0 12; OpSetConstants sample_env]
          (@zero_state unit_floats tt))).
Proof.
  refine (proj1 (@uploads_within_blocks unit_floats gamecube_layout
                   [OpDirty; OpSetConstants sample_env;
                    OpInvalidateXFRange sample_cp 0 12; OpSetConstants sample_env]
                   tt gamecube_layout_ok gamecube_sizes_ok _)).
  repeat constructor; cbn; lia.
Defined.

End VSMRunsExamples.

Module OGLBindFacts.
Import TexConfig OGLBind.

Implicit Types (st : Statics) (e : TCacheEntry) (g : GL).

Lemma UNKNOWN_not_stage stage : 0 <= stage < 8 -> stage <> UNKNOWN /\ u32 (8 + stage) <> UNKNOWN.
Proof. intros Hs. unfold UNKNOWN. rewrite u32_small by lia. lia. Qed.

(** A call that is neither a binding nor a deletion leaves the bindings. *)
Lemma coherent_SetStage st : coherent st -> coherent (SetStage st).
Proof.
  intros (Hlen & Ha & Hb). unfold SetStage.
  destruct (Z.eqb_spec (s_ActiveTexture st) UNKNOWN); cbn [negb]; [now repeat split |].
  repeat split; auto.
Qed.

Lemma Bind_fields hires e stage st :
  coherent st -> 0 <= stage < 8 -> texture e <> UNKNOWN ->
  let st' := Bind hires e stage st in
  coherent st' /\
  bound (gl st') stage = texture e /\
  s_Textures st' !!! Z.to_nat stage = texture e.
Proof.
  intros (Hlen & Ha & Hb) Hs Ht.
  destruct (UNKNOWN_not_stage stage Hs) as [Hu Hu8].
  assert (Hlt : (Z.to_nat stage < length (s_Textures st))%nat) by lia.
  cbv zeta. unfold Bind, coherent.
  destruct (negb (nrm_texture e =? 0) && hires);
    cbn [s_Textures s_ActiveTexture gl call set_ActiveTexture set_Textures].
  - (* the material map is bound on unit 8 + stage first *)
    rewrite (u32_small (8 + stage)) by lia.
    destruct (Z.eqb_spec (s_Textures st !!! Z.to_nat stage) (texture e)) as [He | Hne];
      cbn [negb].
    + split; [| split; [| exact He]].
      * split; [exact Hlen |]. split; [reflexivity |].
        intros i Hi Hk. cbn. destruct (Z.eqb_spec i (8 + stage)); [lia |].
        now apply Hb.
      * cbn. destruct (Z.eqb_spec stage (8 + stage)); [lia |].
        rewrite <- He. apply Hb; [exact Hs | congruence].
    + destruct (Z.eqb_spec (8 + stage) stage); [lia |]. cbn [negb].
      cbn [s_Textures s_ActiveTexture gl call set_ActiveTexture set_Textures].
      split; [| split].
      * split; [now rewrite length_insert |]. split; [reflexivity |].
        intros i Hi Hk. cbn.
        destruct (Z.eqb_spec i stage) as [-> | Hi'].
        -- now rewrite list_lookup_total_insert_eq by lia.
        -- rewrite list_lookup_total_insert_ne in * by lia.
           destruct (Z.eqb_spec i (8 + stage)); [lia |]. now apply Hb.
      * cbn. now rewrite Z.eqb_refl.
      * now rewrite list_lookup_total_insert_eq by lia.
  - destruct (Z.eqb_spec (s_Textures st !!! Z.to_nat stage) (texture e)) as [He | Hne];
      cbn [negb].
    + split; [now repeat split |]. split; [| exact He].
      rewrite <- He. apply Hb; [exact Hs | congruence].
    + destruct (Z.eqb_spec (s_ActiveTexture st) stage) as [Hact | Hact]; cbn [negb];
        cbn [s_Textures s_ActiveTexture gl call set_ActiveTexture set_Textures].
      * (* the unit is already selected: only the binding call is made *)
        assert (Hau : active_unit (gl st) = stage) by (rewrite Ha; congruence).
        split; [| split].
        -- split; [now rewrite length_insert |]. split; [intros _; cbn; congruence |].
           intros i Hi Hk. cbn. rewrite Hau.
           destruct (Z.eqb_spec i stage) as [-> | Hi'].
           ++ now rewrite list_lookup_total_insert_eq by lia.
           ++ rewrite list_lookup_total_insert_ne in * by lia. now apply Hb.
        -- cbn. now rewrite Hau, Z.eqb_refl.
        -- now rewrite list_lookup_total_insert_eq by lia.
      * split; [| split].
        -- split; [now rewrite length_insert |]. split; [reflexivity |].
           intros i Hi Hk. cbn.
           destruct (Z.eqb_spec i stage) as [-> | Hi'].
           ++ now rewrite list_lookup_total_insert_eq by lia.
           ++ rewrite list_lookup_total_insert_ne in * by lia. now apply Hb.
        -- cbn. now rewrite Z.eqb_refl.
        -- now rewrite list_lookup_total_insert_eq by lia.
Qed.

(** X15: [Bind] really binds.  When the shadow state agrees with the
    context, after [Bind(stage)] the entry's texture is the one bound on
    unit [stage], whether or not the call to [glBindTexture] was skipped,
    and the shadow state still agrees with the context. *)
Theorem Bind_binds_texture hires e stage st :
  coherent st -> 0 <= stage < 8 -> texture e <> UNKNOWN ->
  let st' := Bind hires e stage st in
  bound (gl st') stage = texture e /\ coherent st'.
Proof.
  intros Hc Hs Ht. destruct (Bind_fields hires e stage st Hc Hs Ht) as (H1 & H2 & _).
  now split.
Qed.

(** X16: binding the same entry on the same stage again makes no call for
    the texture: the second [Bind] only re-binds the material map, when
    there is one, and is the identity otherwise. *)
Theorem Bind_again_skips_texture hires e stage st :
  length (s_Textures st) = 8%nat -> 0 <= stage < 8 ->
  let st1 := Bind hires e stage st in
  let st2 := Bind hires e stage st1 in
  s_Textures st2 = s_Textures st1 /\
  calls (gl st2) =
    calls (gl st1) ++
    (if negb (nrm_texture e =? 0) && hires
     then [glActiveTexture (8 + stage); glBindTexture (nrm_texture e)] else []) /\
  (negb (nrm_texture e =? 0) && hires = false -> st2 = st1).
Proof.
  intros Hlen Hs. cbv zeta.
  assert (Hlt : (Z.to_nat stage < length (s_Textures st))%nat) by lia.
  assert (H1 : s_Textures (Bind hires e stage st) !!! Z.to_nat stage = texture e).
  { unfold Bind.
    destruct (negb (nrm_texture e =? 0) && hires);
      cbn [s_Textures s_ActiveTexture gl call set_ActiveTexture set_Textures];
      destruct (Z.eqb_spec (s_Textures st !!! Z.to_nat stage) (texture e));
      cbn [negb]; try assumption;
      cbn [s_Textures s_ActiveTexture gl call set_ActiveTexture set_Textures];
      repeat match goal with |- context [if ?b then _ else _] => destruct b end;
      cbn [s_Textures s_ActiveTexture gl call set_ActiveTexture set_Textures];
      now rewrite list_lookup_total_insert_eq by lia. }
  remember (Bind hires e stage st) as st1 eqn:E. clear E.
  unfold Bind.
  destruct (negb (nrm_texture e =? 0) && hires);
    cbn [s_Textures s_ActiveTexture gl call set_ActiveTexture set_Textures];
    rewrite H1, Z.eqb_refl; cbn [negb].
  - split; [reflexivity |]. split; [| discriminate].
    cbn. now rewrite <- app_assoc.
  - split; [reflexivity |]. split; [now rewrite app_nil_r | reflexivity].
Qed.

Lemma lookup_total_map (f : Z -> Z) (l : list Z) (i : nat) :
  (i < length l)%nat -> map f l !!! i = f (l !!! i).
Proof.
  revert i. induction l as [| x l IH]; intros [| i] Hi; simpl in *;
    [lia | lia | reflexivity |].
  change ((f x :: map f l) !!! S i) with (map f l !!! i).
  change ((x :: l) !!! S i) with (l !!! i). apply IH. lia.
Qed.

Lemma not_in_map_zero t (l : list Z) :
  t <> 0 -> t ∉ map (fun gtex => if gtex =? t then 0 else gtex) l.
Proof.
  intros Ht Hin. apply list_elem_of_fmap in Hin as (x & Hx & _).
  destruct (Z.eqb_spec x t); congruence.
Qed.

Lemma coherent_delete t st :
  coherent st -> t ∉ s_Textures st -> coherent (call (glDeleteTextures t) st).
Proof.
  intros (Hlen & Ha & Hb) Hin. split; [exact Hlen |]. split; [exact Ha |].
  intros i Hi Hk. cbn [s_Textures call gl gl_call bound] in *.
  rewrite (Hb i Hi Hk).
  destruct (Z.eqb_spec (s_Textures st !!! Z.to_nat i) t) as [He | Hne]; [| reflexivity].
  exfalso. apply Hin. rewrite <- He. apply list_elem_of_lookup_total_2. lia.
Qed.

Lemma coherent_delete_framebuffer f st :
  coherent st -> coherent (call (glDeleteFramebuffers f) st).
Proof. intros (Hlen & Ha & Hb). now repeat split. Qed.

Lemma coherent_forget t st :
  coherent st -> t <> UNKNOWN ->
  coherent (call (glDeleteTextures t)
              (set_Textures (map (fun gtex => if gtex =? t then 0 else gtex)
                               (s_Textures st)) st)).
Proof.
  intros (Hlen & Ha & Hb) Hu.
  split; [cbn; now rewrite length_map |]. split; [exact Ha |].
  intros i Hi. cbn [s_Textures call set_Textures gl gl_call bound].
  rewrite lookup_total_map by lia.
  destruct (Z.eqb_spec (s_Textures st !!! Z.to_nat i) t) as [He | Hne].
  - intros _. rewrite (Hb i Hi) by congruence. now rewrite He, Z.eqb_refl.
  - intros Hk. rewrite (Hb i Hi Hk).
    destruct (Z.eqb_spec (s_Textures st !!! Z.to_nat i) t); congruence.
Qed.

(** X17: the destructor makes the cache forget the texture.  No entry of
    [s_Textures] names the deleted texture afterwards, the shadow state
    still agrees with the context, and an entry that is later given the
    same texture name is bound with a call to [glBindTexture].  The
    destructor does not look for the material map in [s_Textures]: when the
    entry has one, its name must not be recorded there. *)
Theorem Destroy_forgets_texture e st :
  coherent st -> texture e <> 0 -> texture e <> UNKNOWN ->
  (nrm_texture e <> 0 -> nrm_texture e ∉ s_Textures st) ->
  let st' := Destroy e st in
  texture e ∉ s_Textures st' /\
  coherent st' /\
  forall hires e' stage,
    texture e' = texture e -> 0 <= stage < 8 ->
    last (calls (gl (Bind hires e' stage st'))) = Some (glBindTexture (texture e')).
Proof.
  intros Hc Ht Hu Hn. cbv zeta.
  pose proof (coherent_forget (texture e) st Hc Hu) as Hc1.
  assert (Hl' : s_Textures (Destroy e st)
                = map (fun gtex => if gtex =? texture e then 0 else gtex) (s_Textures st)).
  { unfold Destroy. destruct (Z.eqb_spec (texture e) 0); [contradiction |].
    cbn [negb]. repeat match goal with |- context [if ?b then _ else _] => destruct b end;
      reflexivity. }
  assert (Hnot : texture e ∉ s_Textures (Destroy e st))
    by (rewrite Hl'; now apply not_in_map_zero).
  assert (Hlen' : length (s_Textures (Destroy e st)) = 8%nat)
    by (rewrite Hl', length_map; apply Hc).
  split; [exact Hnot |]. split.
  - unfold Destroy. destruct (Z.eqb_spec (texture e) 0); [contradiction |].
    cbn [negb].
    set (s1 := call (glDeleteTextures (texture e)) _) in *.
    assert (Hc2 : coherent (if negb (nrm_texture e =? 0)
                            then call (glDeleteTextures (nrm_texture e)) s1 else s1)).
    { destruct (Z.eqb_spec (nrm_texture e) 0) as [H0 | H0]; cbn [negb]; [exact Hc1 |].
      apply coherent_delete; [exact Hc1 |].
      subst s1. cbn [s_Textures call set_Textures].
      intros Hin. apply list_elem_of_fmap in Hin as (x & Hx & Hxin).
      destruct (Z.eqb_spec x (texture e)); [congruence |]. subst x.
      now apply (Hn H0). }
    destruct (negb (framebuffer e =? 0)); [| exact Hc2].
    now apply coherent_delete_framebuffer.
  - intros hires e' stage He' Hs.
    assert (Hne : s_Textures (Destroy e st) !!! Z.to_nat stage <> texture e').
    { rewrite He'. intros Heq. apply Hnot. rewrite <- Heq.
      apply list_elem_of_lookup_total_2. lia. }
    remember (Destroy e st) as st' eqn:E. clear E.
    unfold Bind.
    destruct (negb (nrm_texture e' =? 0) && hires);
      cbn [s_Textures s_ActiveTexture gl call set_ActiveTexture set_Textures];
      destruct (Z.eqb_spec (s_Textures st' !!! Z.to_nat stage) (texture e'));
      try contradiction; cbn [negb];
      repeat match goal with |- context [if ?b then _ else _] => destruct b end;
      cbn [s_Textures s_ActiveTexture gl call set_ActiveTexture set_Textures gl_call calls];
      apply last_snoc.
Qed.

Section FormatFacts.
Context `{PC_TexFormat} `{PC_TexFormatMore}.

Lemma load_calls_neutral e width height expanded_width level :
  Forall binding_neutral (load_calls e width height expanded_width level).
Proof.
  unfold load_calls.
  repeat match goal with |- context [if ?b then _ else _] => destruct b end;
    repeat (apply Forall_app; split); repeat constructor.
Qed.

Lemma neutral_calls_fields cs st :
  Forall binding_neutral cs ->
  let st' := fold_left (fun st c => call c st) cs st in
  s_Textures st' = s_Textures st /\
  s_ActiveTexture st' = s_ActiveTexture st /\
  active_unit (gl st') = active_unit (gl st) /\
  bound (gl st') = bound (gl st) /\
  calls (gl st') = calls (gl st) ++ cs.
Proof.
  intros Hn. revert st. induction Hn as [| c cs Hc Hcs IH]; intros st; cbn [fold_left].
  - cbn. now rewrite app_nil_r.
  - destruct (IH (call c st)) as (-> & -> & -> & -> & ->).
    destruct c; try contradiction; cbn; now rewrite <- app_assoc.
Qed.

(** X18: [Load] works on texture unit 9 and puts the selected unit back.
    The entries of [s_Textures] and the bindings of every other unit are
    as before, the unit recorded in [s_ActiveTexture] is selected again,
    and the shadow state still agrees with the context. *)
Theorem Load_keeps_bindings e width height expanded_width level st :
  coherent st ->
  let st' := Load e width height expanded_width level st in
  coherent st' /\
  s_Textures st' = s_Textures st /\
  s_ActiveTexture st' = s_ActiveTexture st /\
  (forall unit, unit <> 9 -> bound (gl st') unit = bound (gl st) unit) /\
  bound (gl st') 9 = texture e /\
  exists restore,
    calls (gl st') =
      calls (gl st) ++ [glActiveTexture 9; glBindTexture (texture e)]
      ++ load_calls e width height expanded_width level ++ restore.
Proof.
  intros (Hlen & Ha & Hb). cbv zeta. unfold Load.
  destruct (neutral_calls_fields
              (load_calls e width height expanded_width level)
              (call (glBindTexture (texture e)) (call (glActiveTexture 9) st))
              (load_calls_neutral e width height expanded_width level))
    as (HT & HA & Hau & Hbd & Hcs).
  remember (fold_left (fun st c => call c st) _ _) as s3 eqn:E. clear E.
  cbn [s_Textures s_ActiveTexture gl call gl_call active_unit bound calls] in *.
  assert (Hb3 : forall unit, bound (gl s3) unit
                             = if unit =? 9 then texture e else bound (gl st) unit)
    by (intros unit; now rewrite Hbd).
  unfold SetStage, coherent. rewrite HA.
  destruct (Z.eqb_spec (s_ActiveTexture st) UNKNOWN) as [Hu | Hu]; cbn [negb];
    cbn [s_Textures s_ActiveTexture gl call gl_call active_unit bound calls];
    rewrite ?HT, ?HA.
  - repeat split; try assumption; try congruence.
    + intros i Hi Hk. rewrite Hb3. destruct (Z.eqb_spec i 9); [lia | now apply Hb].
    + intros unit Hne. rewrite Hb3. now destruct (Z.eqb_spec unit 9).
    + now rewrite Hb3.
    + exists []. rewrite Hcs, app_nil_r, <- !app_assoc. reflexivity.
  - repeat split; try assumption; try congruence.
    + intros i Hi Hk. rewrite Hb3. destruct (Z.eqb_spec i 9); [lia | now apply Hb].
    + intros unit Hne. rewrite Hb3. now destruct (Z.eqb_spec unit 9).
    + now rewrite Hb3.
    + exists [glActiveTexture (s_ActiveTexture st)].
      rewrite Hcs, <- !app_assoc. reflexivity.
Qed.

Ltac distinct Hd :=
  unfold enumerators_distinct in Hd;
  rewrite !NoDup_cons, !not_elem_of_cons in Hd;
  destruct_and!.

Ltac decide_eqbs :=
  repeat match goal with
         | |- context [?a =? ?b] =>
             first [ rewrite (proj2 (Z.eqb_eq a b)) by congruence
                   | rewrite (proj2 (Z.eqb_neq a b)) by congruence ]
         end.

(** X19: the size [Load] passes for a compressed image of the configured
    extent is the size [GetSizeInBytes] counts for the base level. *)
Theorem Load_compressed_size_is_base_size e expanded_width level :
  enumerators_distinct -> uploads_compressed e = true ->
  glCompressedTexImage3D level (gl_iformat e) (width (config e)) (height (config e))
    (base_size (config e))
    ∈ load_calls e (width (config e)) (height (config e)) expanded_width level.
Proof.
  intros Hd Hc. distinct Hd. unfold load_calls. unfold uploads_compressed in Hc.
  rewrite Hc. rewrite !elem_of_app. right. left.
  assert (Hb : base_size (config e) =
               u32 (u32 (blocks4 (width (config e)) * blocks4 (height (config e)))
                    * (if pcformat (config e) =? PC_TEX_FMT_DXT1 then 8 else 16))).
  { unfold is_fmt in Hc. cbn [existsb] in Hc.
    rewrite orb_false_r, !orb_true_iff, !Z.eqb_eq in Hc.
    unfold base_size, is_fmt. cbn [existsb].
    destruct Hc as [Hf | [Hf | Hf]]; decide_eqbs; reflexivity. }
  rewrite Hb. apply list_elem_of_here.
Qed.

(** X20: [SetFormat] marks an entry compressed exactly for the formats that
    [Load] uploads compressed, and for [PC_TEX_FMT_R32], which [Load]
    uploads with [glTexImage3D]. *)
Theorem SetFormat_compressed_flag e :
  enumerators_distinct ->
  compressed (SetFormat e) =
    uploads_compressed e || (pcformat (config e) =? PC_TEX_FMT_R32).
Proof.
  intros Hd. distinct Hd. unfold SetFormat, uploads_compressed, is_fmt.
  cbn [existsb]. cbv zeta.
  repeat match goal with
         | |- context [if ?a =? ?b then _ else _] =>
             destruct (Z.eqb_spec a b); [solve [decide_eqbs; reflexivity] |]
         end.
  decide_eqbs. reflexivity.
Qed.

End FormatFacts.

End OGLBindFacts.

Module OGLBindExamples.
Import TexConfig OGLBind OGLBindFacts.

Lemma coherent_init g : coherent (init g).
Proof.
  split; [reflexivity |]. split; [intros Hc; now contradiction Hc |].
  intros stage Hs Hk. exfalso. apply Hk.
  assert (Hn : (Z.to_nat stage < 8)%nat) by lia.
  destruct (Z.to_nat stage) as [| [| [| [| [| [| [| [| n]]]]]]]]; try reflexivity; lia.
Qed.

Lemma sample_enumerators_distinct :
  @enumerators_distinct sample_formats sample_formats_more.
Proof. apply (bool_decide_unpack _). vm_compute. exact I. Qed.

(** The first bind on a fresh cache. *)
Lemma Bind_binds_texture_witness :
  bound (gl (Bind false (plain_entry 5) 2 (init blank_gl))) 2 = 5.
Proof.
  refine (proj1 (Bind_binds_texture false (plain_entry 5) 2 (init blank_gl)
                   (coherent_init blank_gl) _ _)).
  - lia.
  - discriminate.
Defined.

Lemma Bind_again_skips_texture_witness :
  Bind false (plain_entry 5) 2 (Bind false (plain_entry 5) 2 (init blank_gl))
    = Bind false (plain_entry 5) 2 (init blank_gl).
Proof.
  refine (proj2 (proj2 (Bind_again_skips_texture false (plain_entry 5) 2
                          (init blank_gl) eq_refl _)) eq_refl).
  lia.
Defined.

(** Texture 5 is bound on stage 2, then its entry is destroyed. *)
Lemma Destroy_forgets_texture_witness :
  let st :=
    Bind false (plain_entry 7) 3
      (Destroy (plain_entry 5) (Bind false (plain_entry 5) 2 (init blank_gl))) in
  In 0 (s_Textures st) /\ 7 ∉ s_Textures (Destroy (plain_entry 7) st).
Proof.
  cbv zeta. split; [vm_compute; tauto |].
  assert (Hc1 : coherent (Bind false (plain_entry 5) 2 (init blank_gl))).
  { refine (proj1 (Bind_fields false (plain_entry 5) 2 (init blank_gl)
                     (coherent_init blank_gl) _ _)); [lia | discriminate]. }
  assert (Hc2 : coherent (Destroy (plain_entry 5)
                            (Bind false (plain_entry 5) 2 (init blank_gl)))).
  { refine (proj1 (proj2 (Destroy_forgets_texture (plain_entry 5) _ Hc1 _ _ _)));
      [discriminate | discriminate | intros Hn; now contradiction Hn]. }
  refine (proj1 (Destroy_forgets_texture (plain_entry 7) _ _ _ _ _)).
  - refine (proj1 (Bind_fields false (plain_entry 7) 3 _ Hc2 _ _));
      [lia | discriminate].
  - discriminate.
  - discriminate.
  - intros Hn. now contradiction Hn.
Defined.

Lemma Load_keeps_bindings_witness :
  s_Textures
    (@Load sample_formats (plain_entry 5) 640 528 640 0
       (Bind false (plain_entry 5) 2 (init blank_gl)))
    = s_Textures (Bind false (plain_entry 5) 2 (init blank_gl)).
Proof.
  refine (proj1 (proj2 (@Load_keeps_bindings sample_formats (plain_entry 5)
                          640 528 640 0
                          (Bind false (plain_entry 5) 2 (init blank_gl)) _))).
  refine (proj1 (Bind_fields false (plain_entry 5) 2 (init blank_gl)
                   (coherent_init blank_gl) _ _)); [lia | discriminate].
Defined.

(** A 64x64 DXT1 image: 16 x 16 blocks of 8 bytes. *)
Lemma Load_compressed_size_is_base_size_witness :
  glCompressedTexImage3D 0 GL_0 64 64 2048
    ∈ @load_calls sample_formats (entry_of_format 8) 64 64 64 0.
Proof.
  exact (@Load_compressed_size_is_base_size sample_formats sample_formats_more
           (entry_of_format 8) 64 0 sample_enumerators_distinct eq_refl).
Defined.

(** [PC_TEX_FMT_R32] is marked compressed and is not uploaded compressed. *)
Lemma SetFormat_compressed_flag_witness :
  compressed (@SetFormat sample_formats sample_formats_more (entry_of_format 11)) = true /\
  @uploads_compressed sample_formats (entry_of_format 11) = false.
Proof.
  split; [| reflexivity].
  exact (@SetFormat_compressed_flag sample_formats sample_formats_more
           (entry_of_format 11) sample_enumerators_distinct).
Defined.

End OGLBindExamples.

Module OGLTexCacheRunsFacts.
Import OGLTexCache OGLTexCacheFacts OGLTexCacheRuns.

Section Facts.
Context `{PaletteBackend}.

(** What every call leaves, whichever branch it takes. *)
Lemma LoadLut_records cfg mem lutFmt addr size st :
  let st' := LoadLut cfg mem lutFmt addr size st in
  m_last_lutFmt st' = lutFmt /\ m_last_addr st' = addr /\
  m_last_size st' = size /\ m_last_hash st' = lut_hash cfg mem addr size.
Proof.
  cbv zeta. unfold LoadLut.
  destruct (Z.eqb_spec lutFmt (m_last_lutFmt st)) as [Hf | Hf]; cbn [andb];
    [| now destruct (record_and_stream_spec cfg mem lutFmt addr size
                      (lut_hash cfg mem addr size) st) as (? & ? & ? & ? & _)].
  destruct (Z.eqb_spec addr (m_last_addr st)) as [Ha | Ha]; cbn [andb];
    [| now destruct (record_and_stream_spec cfg mem lutFmt addr size
                      (lut_hash cfg mem addr size) st) as (? & ? & ? & ? & _)].
  destruct (Z.eqb_spec size (m_last_size st)) as [Hs | Hs]; cbn [andb];
    [| now destruct (record_and_stream_spec cfg mem lutFmt addr size
                      (lut_hash cfg mem addr size) st) as (? & ? & ? & ? & _)].
  destruct (negb (m_last_hash st =? 0));
    [| now destruct (record_and_stream_spec cfg mem lutFmt addr size
                      (lut_hash cfg mem addr size) st) as (? & ? & ? & ? & _)].
  destruct (Z.eqb_spec (lut_hash cfg mem addr size) (m_last_hash st)) as [Hh | Hh];
    [auto |].
  now destruct (record_and_stream_spec cfg mem lutFmt addr size
                  (lut_hash cfg mem addr size) st) as (? & ? & ? & ? & _).
Qed.

Lemma LoadLut_tracked cfg mem lutFmt addr size st :
  bSupportsPaletteConversion cfg = true ->
  tracked st \/ m_last_hash st = 0 ->
  tracked (LoadLut cfg mem lutFmt addr size st).
Proof.
  intros Hconv Hst.
  assert (Htail : forall hash,
            tracked (record_and_stream cfg mem lutFmt addr size hash st)).
  { intros hash. unfold record_and_stream, tracked. rewrite Hconv.
    destruct (Stream _ _ _ _) as [w buf]. cbn. split; [apply last_snoc | reflexivity]. }
  unfold LoadLut.
  destruct (Z.eqb_spec lutFmt (m_last_lutFmt st)); cbn [andb]; [| apply Htail].
  destruct (Z.eqb_spec addr (m_last_addr st)); cbn [andb]; [| apply Htail].
  destruct (Z.eqb_spec size (m_last_size st)); cbn [andb]; [| apply Htail].
  destruct (Z.eqb_spec (m_last_hash st) 0) as [H0 | H0]; cbn [negb]; [apply Htail |].
  destruct (_ =? _); [| apply Htail].
  destruct Hst as [Ht | Hz]; [exact Ht | contradiction].
Qed.

Lemma run_loads_tracked cfg reqs st :
  bSupportsPaletteConversion cfg = true ->
  tracked st \/ m_last_hash st = 0 ->
  tracked (run_loads cfg reqs st) \/ m_last_hash (run_loads cfg reqs st) = 0.
Proof.
  intros Hconv. revert st. induction reqs as [| q l IH]; intros st Hst; [exact Hst |].
  cbn [run_loads fold_left]. apply IH. left. now apply LoadLut_tracked.
Qed.

Lemma LoadLut_no_conversion cfg mem lutFmt addr size st :
  bSupportsPaletteConversion cfg = false ->
  streamed (LoadLut cfg mem lutFmt addr size st) = streamed st.
Proof.
  intros Hconv.
  assert (Htail : forall hash,
            streamed (record_and_stream cfg mem lutFmt addr size hash st) = streamed st).
  { intros hash. unfold record_and_stream. now rewrite Hconv. }
  unfold LoadLut.
  repeat match goal with |- context [if ?b then _ else _] => destruct b end;
    auto.
Qed.

Lemma run_loads_no_conversion cfg reqs st :
  bSupportsPaletteConversion cfg = false ->
  streamed (run_loads cfg reqs st) = streamed st.
Proof.
  intros Hconv. revert st. induction reqs as [| q l IH]; intros st; [reflexivity |].
  cbn [run_loads fold_left]. unfold run_loads in IH. rewrite IH.
  now apply LoadLut_no_conversion.
Qed.

(** X21: after any run of [LoadLut] calls on a fresh cache, the members
    describe the last request, and, when palette conversion is supported,
    the palette streamed last to the GPU buffer is the one of the last
    request, in the format recorded for the shader. *)
Theorem LoadLut_run_tracks_last_request cfg buf reqs r :
  let st := run_loads cfg (reqs ++ [r]) (fresh buf) in
  m_last_lutFmt st = req_lutFmt r /\
  m_last_addr st = req_addr r /\
  m_last_size st = req_size r /\
  m_last_hash st = lut_hash cfg (req_mem r) (req_addr r) (req_size r) /\
  (bSupportsPaletteConversion cfg = true ->
   last (streamed st) = Some (req_size r, req_addr r) /\
   s_last_TlutFormat st = req_lutFmt r) /\
  (bSupportsPaletteConversion cfg = false -> streamed st = []).
Proof.
  cbv zeta.
  assert (Hrun : run_loads cfg (reqs ++ [r]) (fresh buf)
                 = load cfg (run_loads cfg reqs (fresh buf)) r)
    by (unfold run_loads; now rewrite fold_left_app).
  rewrite Hrun. unfold load.
  destruct (LoadLut_records cfg (req_mem r) (req_lutFmt r) (req_addr r) (req_size r)
              (run_loads cfg reqs (fresh buf))) as (Hf & Ha & Hs & Hh).
  split; [exact Hf |]. split; [exact Ha |]. split; [exact Hs |]. split; [exact Hh |].
  split.
  - intros Hconv.
    pose proof (run_loads_tracked cfg reqs (fresh buf) Hconv (or_intror eq_refl)) as Hinv.
    destruct (LoadLut_tracked cfg (req_mem r) (req_lutFmt r) (req_addr r) (req_size r)
                _ Hconv Hinv) as [Hl Ht].
    now rewrite Hs, Ha in Hl; rewrite Hf in Ht.
  - intros Hconv. rewrite LoadLut_no_conversion by exact Hconv.
    now rewrite run_loads_no_conversion.
Qed.

End Facts.

End OGLTexCacheRunsFacts.

Module TexConfigSizeFacts.
Import TexConfig.

(** [& ~3] clears the two low bits. *)
Lemma land_not3 a : 0 <= a < 2 ^ 32 -> Z.land a (u32 (Z.lnot 3)) = 4 * (a / 4).
Proof.
  intros Ha.
  assert (Hm : u32 (Z.lnot 3) = Z.shiftl (Z.ones 30) 2) by reflexivity.
  rewrite Hm. apply Z.bits_inj'. intros n Hn.
  rewrite Z.land_spec, Z.shiftl_spec by lia.
  replace (4 * (a / 4)) with (Z.shiftl (Z.shiftr a 2) 2)
    by (rewrite Z.shiftl_mul_pow2, Z.shiftr_div_pow2 by lia;
        replace (2 ^ 2) with 4 by reflexivity; apply Z.mul_comm).
  rewrite Z.shiftl_spec by lia.
  destruct (Z.lt_ge_cases n 2) as [Hlt | Hge].
  - rewrite !(Z.testbit_neg_r _ (n - 2)) by lia. apply andb_false_r.
  - rewrite Z.shiftr_spec by lia. replace (n - 2 + 2) with n by lia.
    destruct (Z.lt_ge_cases n 32) as [Hlt | Hge32].
    + rewrite Z.ones_spec_low by lia. apply andb_true_r.
    + rewrite Z.ones_spec_high by lia. rewrite andb_false_r.
      symmetry. destruct (Z.eq_dec a 0) as [-> | Hne]; [apply Z.bits_0 |].
      apply Z.bits_above_log2; [lia |].
      apply Z.lt_le_trans with 32; [| lia]. apply Z.log2_lt_pow2; lia.
Qed.

Lemma round_up4_spec x :
  0 <= x < 2 ^ 32 - 3 -> round_up4 x = 4 * ((x + 3) / 4).
Proof.
  intros Hx. unfold round_up4. rewrite (u32_small (x + 3)) by lia.
  apply land_not3. lia.
Qed.

Lemma blocks4_spec x : 0 <= x < 2 ^ 32 - 3 -> blocks4 x = (x + 3) / 4.
Proof.
  intros Hx. unfold blocks4. rewrite u32_small by lia.
  rewrite Z.shiftr_div_pow2 by lia. reflexivity.
Qed.

(** X22: for extents up to 8192 nothing wraps around in [GetSizeInBytes] and
    the bit operations are roundings: the result is the byte count of the
    base level, with both extents rounded up to a multiple of 4 (or
    counted in 4x4 blocks for the DXT formats), times 3 when there are
    mipmaps or the texture is a render target, times 2 with a material
    map, and at least 4096. *)
Theorem GetSizeInBytes_exact `{PC_TexFormat} (c : TCacheEntryConfig) :
  0 <= width c <= 8192 -> 0 <= height c <= 8192 ->
  let bw := (width c + 3) / 4 in
  let bh := (height c + 3) / 4 in
  let base :=
    if is_fmt (pcformat c) [PC_TEX_FMT_BGRA32; PC_TEX_FMT_RGBA32]
    then (4 * bw) * (4 * bh) * 4
    else if is_fmt (pcformat c)
              [PC_TEX_FMT_IA4_AS_IA8; PC_TEX_FMT_IA8; PC_TEX_FMT_RGB565]
    then (4 * bw) * (4 * bh) * 2
    else if is_fmt (pcformat c) [PC_TEX_FMT_DXT1] then bw * bh * 8
    else if is_fmt (pcformat c) [PC_TEX_FMT_DXT3; PC_TEX_FMT_DXT5] then bw * bh * 16
    else 0 in
  GetSizeInBytes c =
    Z.max 4096
      (base * (if (1 <? levels c) || rendertarget c then 3 else 1)
            * (if materialmap c then 2 else 1)).
Proof.
  intros Hw Hh. cbv zeta.
  assert (Hbw : 0 <= (width c + 3) / 4 <= 2048) by (Z.div_mod_to_equations; lia).
  assert (Hbh : 0 <= (height c + 3) / 4 <= 2048) by (Z.div_mod_to_equations; lia).
  unfold GetSizeInBytes, base_size. cbv zeta.
  rewrite !round_up4_spec, !blocks4_spec by lia.
  set (bw := (width c + 3) / 4) in *. set (bh := (height c + 3) / 4) in *.
  assert (Hp : 0 <= bw * bh <= 2048 * 2048) by nia.
  repeat match goal with |- context [if is_fmt ?f ?l then _ else _] =>
           destruct (is_fmt f l)
         end;
    destruct ((1 <? levels c) || rendertarget c), (materialmap c);
    rewrite ?(u32_small (4 * bw * (4 * bh))) by nia;
    rewrite ?(u32_small (bw * bh)) by nia;
    repeat match goal with |- context [u32 ?z] => rewrite (u32_small z) by nia end;
    lia.
Qed.

Lemma GetSizeInBytes_exact_witness :
  @GetSizeInBytes OGLBind.sample_formats sample_config = 640 * 528 * 4 * 3.
Proof.
  refine (eq_trans
            (@GetSizeInBytes_exact OGLBind.sample_formats sample_config _ _) _).
  - cbn. lia.
  - cbn. lia.
  - reflexivity.
Defined.

End TexConfigSizeFacts.

Module RenderGeometryFacts.
Import RenderGeometry.

Lemma s32_int z : - 2 ^ 31 <= z < 2 ^ 31 -> s32 z = z.
Proof.
  intros Hz. unfold s32.
  destruct (Z.ltb_spec (z mod 2 ^ 32) (2 ^ 31)); Z.div_mod_to_equations; lia.
Qed.

Lemma quot4_half w : 0 <= 2 * (w - 2 * Z.quot w 4) - w <= 3 \/ -3 <= 2 * (w - 2 * Z.quot w 4) - w <= 0.
Proof. Z.quot_rem_to_equations. lia. Qed.

(** Removes the reductions to 32 bits whose operand is in range. *)
Ltac in_range :=
  unfold int_add, int_sub, int_mul, int_div;
  repeat match goal with
         | |- context [s32 ?x] =>
             rewrite (s32_int x) by (Z.quot_rem_to_equations; lia)
         end.

(** Nothing overflows in [ConvertStereoRectangle] when the coordinates and
    the backbuffer sizes have magnitude at most [2 ^ 29]. *)
Lemma ConvertStereoRectangle_in_range tab bw bh rc :
  within (2 ^ 29) rc -> - 2 ^ 29 <= bw <= 2 ^ 29 -> - 2 ^ 29 <= bh <= 2 ^ 29 ->
  ConvertStereoRectangle tab bw bh rc =
    if tab then
      let q := Z.quot (bottom rc - top rc) 4 in
      ({| left := left rc; top := top rc + q - Z.quot bh 4;
          right := right rc; bottom := bottom rc - q - Z.quot bh 4 |},
       {| left := left rc; top := top rc + q + Z.quot bh 4;
          right := right rc; bottom := bottom rc - q + Z.quot bh 4 |})
    else
      let q := Z.quot (right rc - left rc) 4 in
      ({| left := left rc + q - Z.quot bw 4; top := top rc;
          right := right rc - q - Z.quot bw 4; bottom := bottom rc |},
       {| left := left rc + q + Z.quot bw 4; top := top rc;
          right := right rc - q + Z.quot bw 4; bottom := bottom rc |}).
Proof.
  intros ((Hl & Hr) & (Ht & Hb)) Hw Hh. cbv zeta.
  unfold ConvertStereoRectangle.
  destruct tab; cbn [left right top bottom]; in_range; reflexivity.
Qed.

(** X23: for coordinates and backbuffer sizes of magnitude at most
    [2 ^ 29], the two eye rectangles of [ConvertStereoRectangle] have the
    same size and are the shrunk rectangle moved apart by twice a quarter
    of the backbuffer.  Along the split axis their extent is half that of
    [rc], rounded away from zero when it is not a multiple of four; the
    other axis is untouched.  This also holds for flipped rectangles,
    whose extent is negative. *)
Theorem ConvertStereoRectangle_halves tab bw bh rc :
  within (2 ^ 29) rc -> - 2 ^ 29 <= bw <= 2 ^ 29 -> - 2 ^ 29 <= bh <= 2 ^ 29 ->
  let l := fst (ConvertStereoRectangle tab bw bh rc) in
  let r := snd (ConvertStereoRectangle tab bw bh rc) in
  width_of l = width_of r /\ height_of l = height_of r /\
  (if tab then
     left l = left rc /\ right l = right rc /\ left r = left rc /\ right r = right rc /\
     top r - top l = 2 * Z.quot bh 4 /\
     height_of l = height_of rc - 2 * Z.quot (height_of rc) 4 /\
     Z.abs (2 * height_of l - height_of rc) <= 3 /\
     top l + bottom r = top rc + bottom rc
   else
     top l = top rc /\ bottom l = bottom rc /\ top r = top rc /\ bottom r = bottom rc /\
     left r - left l = 2 * Z.quot bw 4 /\
     width_of l = width_of rc - 2 * Z.quot (width_of rc) 4 /\
     Z.abs (2 * width_of l - width_of rc) <= 3 /\
     left l + right r = left rc + right rc).
Proof.
  intros Hrc Hw Hh. cbv zeta.
  rewrite (ConvertStereoRectangle_in_range tab bw bh rc Hrc Hw Hh).
  unfold width_of, height_of.
  destruct tab; cbv zeta; cbn [fst snd left right top bottom].
  - pose proof (quot4_half (bottom rc - top rc)). repeat split; lia.
  - pose proof (quot4_half (right rc - left rc)). repeat split; lia.
Qed.

(** A 640x480 rectangle on a 1280x720 backbuffer, side by side. *)
Lemma ConvertStereoRectangle_halves_witness :
  let rc := {| left := 0; top := 0; right := 640; bottom := 480 |} in
  let l := fst (ConvertStereoRectangle false 1280 720 rc) in
  let r := snd (ConvertStereoRectangle false 1280 720 rc) in
  width_of l = width_of r /\ height_of l = height_of r.
Proof.
  cbv zeta.
  pose proof (ConvertStereoRectangle_halves false 1280 720
                {| left := 0; top := 0; right := 640; bottom := 480 |}) as Hh.
  cbv zeta in Hh.
  assert (Hrange : within (2 ^ 29) {| left := 0; top := 0; right := 640; bottom := 480 |})
    by (unfold within; cbn; lia).
  destruct (Hh Hrange ltac:(lia) ltac:(lia)) as (Hw & Hhe & _).
  split; [exact Hw | exact Hhe].
Defined.

(** Outside that range the subtraction wraps: a rectangle spanning the
    whole [int] range has width -1. *)
Example ConvertStereoRectangle_wraps :
  fst (ConvertStereoRectangle false 0 0
         {| left := - 2 ^ 31; top := 0; right := 2 ^ 31 - 1; bottom := 0 |})
    = {| left := - 2 ^ 31; top := 0; right := 2 ^ 31 - 1; bottom := 0 |}.
Proof. reflexivity. Qed.

(** X24: when the EFB scale is at least 1 and the scaled size fits an
    [int], [SetWindowSize] never asks for a window smaller than 16x16, and
    it asks for exactly the clamped size in the automatic mode. *)
Theorem SetWindowSize_at_least_16 auto s width height :
  0 < efb_scale_denominatorX s <= efb_scale_numeratorX s ->
  0 < efb_scale_denominatorY s <= efb_scale_numeratorY s ->
  Z.max width 16 * efb_scale_numeratorX s < 2 ^ 31 ->
  Z.max height 16 * efb_scale_numeratorY s < 2 ^ 31 ->
  let r := SetWindowSize auto s width height in
  16 <= fst r /\ 16 <= snd r /\
  (auto = true -> r = (Z.max width 16, Z.max height 16)).
Proof.
  intros Hx Hy Hnx Hny. cbv zeta. unfold SetWindowSize, CalculateTargetScale.
  assert (Hq : forall x n d,
             16 <= x -> 0 < d <= n -> x * n < 2 ^ 31 ->
             16 <= int_div (int_mul x (s32 n)) (s32 d)).
  { intros x n d Hx' Hd Hfit.
    assert (Hn : n < 2 ^ 31) by nia.
    unfold int_div, int_mul.
    rewrite (s32_int n), (s32_int d) by lia.
    assert (Hp : 16 * d <= x * n) by nia.
    remember (x * n) as p eqn:Ep. clear Ep.
    rewrite (s32_int p) by lia.
    rewrite Z.quot_div_nonneg by lia.
    assert (Hlo : 16 <= p / d) by (apply Z.div_le_lower_bound; lia).
    assert (Hhi : p / d <= p) by (apply Z.div_le_upper_bound; nia).
    rewrite s32_int by lia. exact Hlo. }
  destruct auto; cbn [fst snd];
    destruct (Z.ltb_spec width 16), (Z.ltb_spec height 16);
    (split; [| split]);
    try (apply Hq; [lia | lia | ]; lia); try lia; try discriminate;
    intros _; f_equal; lia.
Qed.

Lemma SetWindowSize_at_least_16_witness :
  16 <= fst (SetWindowSize false
               {| efb_scale_numeratorX := 3; efb_scale_numeratorY := 3;
                  efb_scale_denominatorX := 2; efb_scale_denominatorY := 2 |} 10 480).
Proof.
  refine (proj1 (SetWindowSize_at_least_16 false
                   {| efb_scale_numeratorX := 3; efb_scale_numeratorY := 3;
                      efb_scale_denominatorX := 2; efb_scale_denominatorY := 2 |}
                   10 480 _ _ _ _)); cbn; lia.
Defined.

(** Past that bound the product wraps and the requested width is
    negative. *)
Example SetWindowSize_wraps :
  SetWindowSize false
    {| efb_scale_numeratorX := 3; efb_scale_numeratorY := 3;
       efb_scale_denominatorX := 2; efb_scale_denominatorY := 2 |} (2 ^ 30) 480
    = (-536870912, 720).
Proof. reflexivity. Qed.

End RenderGeometryFacts.

Module VSMBlocksFacts.
Import VSM VSMFacts VSMRuns VSMRunsFacts.

Section Facts.
Context `{FloatModel} `{XFLayout}.

Implicit Types (env : Env) (st : State) (iv : Z * Z).

Lemma lights_bounds_inside start end_ :
  layout_ok -> 0 <= start < 2 ^ 32 -> 0 <= end_ < 2 ^ 32 ->
  XFMEM_LIGHTS <= start < XFMEM_LIGHTS_END -> XFMEM_LIGHTS < end_ ->
  s32 (if start <? XFMEM_LIGHTS then XFMEM_LIGHTS else u32 (start - XFMEM_LIGHTS))
    = overlap_lo XFMEM_LIGHTS start /\
  s32 (if end_ <? XFMEM_LIGHTS_END
       then u32 (end_ - XFMEM_LIGHTS)
       else u32 (XFMEM_LIGHTS_END - XFMEM_LIGHTS))
    = overlap_hi XFMEM_LIGHTS XFMEM_LIGHTS_END end_.
Proof.
  intros (_ & _ & _ & _ & _ & Hl & Hle) Hs He Hin Hgt.
  unfold overlap_lo, overlap_hi. split.
  - destruct (Z.ltb_spec start XFMEM_LIGHTS); [lia |].
    rewrite u32_small, s32_small by lia. lia.
  - destruct (Z.ltb_spec end_ XFMEM_LIGHTS_END);
      rewrite u32_small, s32_small by lia; lia.
Qed.

Lemma InvalidateXFRange_lights_covers_inside c start end_ st :
  layout_ok -> 0 <= start < 2 ^ 32 -> 0 <= end_ < 2 ^ 32 ->
  XFMEM_LIGHTS <= start < XFMEM_LIGHTS_END -> XFMEM_LIGHTS < end_ ->
  covers (s_lights_changed (InvalidateXFRange c start end_ st))
    (overlap_lo XFMEM_LIGHTS start)
    (overlap_hi XFMEM_LIGHTS XFMEM_LIGHTS_END end_).
Proof.
  intros Hl Hs He Hin Hgt. rewrite lights_of_InvalidateXFRange.
  unfold mark_lights.
  destruct (Z.ltb_spec start XFMEM_LIGHTS_END); [| lia].
  destruct (Z.ltb_spec XFMEM_LIGHTS end_); [| lia].
  cbn [andb s_lights_changed set_lights].
  destruct (lights_bounds_inside start end_ Hl Hs He Hin Hgt) as (-> & ->).
  apply widen_covers.
Qed.

(** X25: a write that starts inside the post-transform matrices or inside
    the lights is uploaded by the next [SetConstants]: the rows of the
    post-transform matrices uploaded contain the part of the range in the
    block, and every light that the range touches is uploaded. *)
Theorem InvalidateXFRange_inside_block_uploads c env start end_ st :
  layout_ok -> intervals_ok st -> 0 <= start <= end_ -> end_ < 2 ^ 31 ->
  let buf := m_buffer (SetConstants env (InvalidateXFRange c start end_ st)) in
  (XFMEM_POSTMATRICES <= start < XFMEM_POSTMATRICES_END -> start < end_ ->
   exists off count,
     SetMultiConstant4v C_POSTTRANSFORMMATRICES off count (PostMatrices (off * 4)) ∈ buf /\
     off * 4 <= start - XFMEM_POSTMATRICES /\
     Z.min end_ XFMEM_POSTMATRICES_END - XFMEM_POSTMATRICES <= (off + count) * 4) /\
  (XFMEM_LIGHTS <= start < XFMEM_LIGHTS_END -> start < end_ ->
   forall i,
     (start - XFMEM_LIGHTS) / 16 <= i ->
     16 * i < Z.min end_ XFMEM_LIGHTS_END - XFMEM_LIGHTS ->
     Forall (fun w => w ∈ buf) (light_writes env i)).
Proof.
  intros Hl Hok Hs He. cbv zeta.
  pose proof Hl as (Hpos & Hnl & Hnle & Hpl & Hple & Hll & Hlle).
  assert (Hok' : intervals_ok (InvalidateXFRange c start end_ st))
    by (apply intervals_ok_InvalidateXFRange; auto; lia).
  destruct Hok' as (_ & _ & HP & HL).
  destruct (buffer_SetConstants env (InvalidateXFRange c start end_ st))
    as (phong & proj & _ & _ & _ & B).
  rewrite B. cbv zeta. clear B. split.
  - intros Hin Hlt.
    pose proof (InvalidateXFRange_post_covers_inside c start end_ st Hl
                  ltac:(lia) ltac:(lia) Hin ltac:(lia)) as Hc.
    destruct (nPostTransformMatricesChanged (InvalidateXFRange c start end_ st))
      as [lo hi].
    unfold covers, interval_ok, overlap_lo, overlap_hi in *. cbn [fst snd] in *.
    assert (Hlo : 0 <= lo) by (destruct HP as [? | [= -> ->]]; lia).
    unfold dirty. cbn [fst]. destruct (Z.leb_spec 0 lo); [| lia].
    destruct (quot4_rows lo hi) as [Hq1 Hq2]; [lia | lia |].
    eexists _, _. split; [| split; [| etransitivity; [| exact Hq2]]]; [| lia | lia].
    rewrite !elem_of_app. do 4 right. left. apply list_elem_of_here.
  - intros Hin Hlt i Hi1 Hi2.
    pose proof (InvalidateXFRange_lights_covers_inside c start end_ st Hl
                  ltac:(lia) ltac:(lia) Hin ltac:(lia)) as Hc.
    destruct (s_lights_changed (InvalidateXFRange c start end_ st)) as [lo hi].
    unfold covers, interval_ok, overlap_lo, overlap_hi in *. cbn [fst snd] in *.
    assert (Hlo : 0 <= lo) by (destruct HL as [? | [= -> ->]]; lia).
    unfold dirty. cbn [fst]. destruct (Z.leb_spec 0 lo); [| lia].
    apply Forall_forall. intros w Hw.
    rewrite !elem_of_app. do 5 right. left.
    apply list_elem_of_In, in_flat_map. exists i. split; [| now apply list_elem_of_In].
    apply list_elem_of_In, elem_of_seqZ.
    rewrite !Z.quot_div_nonneg by lia.
    destruct Hc as [Hc1 Hc2].
    assert (lo / 16 <= (start - XFMEM_LIGHTS) / 16) by (apply Z.div_le_mono; lia).
    assert (i + 1 <= (hi + 15) / 16).
    { apply Z.div_le_lower_bound; lia. }
    lia.
Qed.

End Facts.

End VSMBlocksFacts.

Module VSMBlocksExamples.
Import VSM VSMFacts VSMRuns VSMRunsFacts VSMRunsExamples VSMBlocksFacts.

(** A write to the second light (words 0x610 to 0x61F). *)
Lemma InvalidateXFRange_inside_block_uploads_witness :
  Forall (fun w =>
            w ∈ m_buffer (SetConstants sample_env
                            (@InvalidateXFRange unit_floats gamecube_layout sample_cp
                               0x610 0x620 synced)))
    (light_writes sample_env 1).
Proof.
  assert (Hok : intervals_ok synced)
    by (unfold intervals_ok, interval_ok; vm_compute; auto).
  refine (proj2 (@InvalidateXFRange_inside_block_uploads unit_floats gamecube_layout
                   sample_cp sample_env 0x610 0x620 synced gamecube_layout_ok Hok _ _)
            _ _ 1 _ _); cbn; try lia.
  vm_compute. discriminate.
Defined.

End VSMBlocksExamples.

Module SamplerLifetimeFacts.
Import ObjCache ObjCacheObjects ObjCacheObjectsFacts.

Section Facts.
Context {SamplerState CreateInfo Device : Type}.
Context `{Countable SamplerState}.
Context `{!SamplerDriver SamplerState CreateInfo Device}.

Implicit Types (st : Samplers SamplerState CreateInfo Device).

Lemma create_sampler_fields ci st :
  let r := vkCreateSampler (sampler_device st) ci in
  let st' := snd (create_sampler ci st) in
  fst (create_sampler ci st) = fst r /\
  m_sampler_cache st' = m_sampler_cache st /\
  m_point_sampler st' = m_point_sampler st /\
  m_linear_sampler st' = m_linear_sampler st /\
  sampler_log st' = sampler_log st ++ [ci] /\
  destroy_log st' = destroy_log st.
Proof.
  cbv zeta. unfold create_sampler.
  destruct (vkCreateSampler _ _) as [[res s] dev]. cbn. auto 10.
Qed.

(** X26: [DestroySamplers] cleans up after [CreateStaticSamplers] whether it
    succeeded or stopped at the first failure: from a state without
    samplers, every non-null handle that [CreateStaticSamplers] stored is
    passed to [vkDestroySampler] exactly once, and nothing else is.  The
    linear sampler is only created after the point sampler was. *)
Theorem CreateStaticSamplers_then_DestroySamplers st :
  m_sampler_cache st = ∅ ->
  m_point_sampler st = VK_NULL_HANDLE -> m_linear_sampler st = VK_NULL_HANDLE ->
  let ok := fst (CreateStaticSamplers st) in
  let st1 := snd (CreateStaticSamplers st) in
  let st2 := DestroySamplers st1 in
  destroy_log st2 =
    destroy_log st ++
    filter (fun s => s <> VK_NULL_HANDLE) [m_point_sampler st1; m_linear_sampler st1] /\
  m_point_sampler st2 = VK_NULL_HANDLE /\ m_linear_sampler st2 = VK_NULL_HANDLE /\
  (sampler_log st1 = sampler_log st ++ [point_sampler_info] /\ ok = false \/
   sampler_log st1 = sampler_log st ++ [point_sampler_info; linear_sampler_info]).
Proof.
  intros Hc Hp Hl. cbv zeta.
  assert (Hst1 : m_sampler_cache (snd (CreateStaticSamplers st)) = ∅ /\
                 destroy_log (snd (CreateStaticSamplers st)) = destroy_log st /\
                 (sampler_log (snd (CreateStaticSamplers st))
                    = sampler_log st ++ [point_sampler_info] /\
                  fst (CreateStaticSamplers st) = false /\
                  m_linear_sampler (snd (CreateStaticSamplers st)) = VK_NULL_HANDLE \/
                  sampler_log (snd (CreateStaticSamplers st))
                    = sampler_log st ++ [point_sampler_info; linear_sampler_info])).
  { unfold CreateStaticSamplers.
    destruct (create_sampler_fields point_sampler_info st) as (_ & Hc1 & _ & Hl1 & Hs1 & Hd1).
    destruct (create_sampler point_sampler_info st) as [[res1 s1] st1].
    cbn [fst snd] in *.
    destruct (negb (res1 =? VK_SUCCESS)).
    - cbn. rewrite Hc1, Hd1, Hs1, Hl1. split; [| split; [| left]]; auto.
    - destruct (create_sampler_fields linear_sampler_info (set_point_sampler s1 st1))
        as (_ & Hc2 & _ & _ & Hs2 & Hd2).
      destruct (create_sampler linear_sampler_info (set_point_sampler s1 st1))
        as [[res2 s2] st2].
      cbn [fst snd m_sampler_cache sampler_log destroy_log set_point_sampler] in *.
      destruct (negb (res2 =? VK_SUCCESS)); cbn; rewrite Hc2, Hd2, Hs2, Hc1, Hd1, Hs1;
        rewrite <- app_assoc; (split; [| split; [| right]]; auto). }
  destruct Hst1 as (Hc1 & Hd1 & Hlog).
  remember (snd (CreateStaticSamplers st)) as st1 eqn:E.
  assert (Hclear : ClearSamplerCache st1 = st1) by now apply ClearSamplerCache_empty.
  unfold DestroySamplers. rewrite Hclear.
  split; [| split; [| split]].
  - destruct (Z.eqb_spec (m_point_sampler st1) VK_NULL_HANDLE) as [Hp0 | Hp0];
      cbn [negb m_linear_sampler set_point_sampler destroy_sampler];
      destruct (Z.eqb_spec (m_linear_sampler st1) VK_NULL_HANDLE) as [Hl0 | Hl0];
      cbn [negb destroy_log set_point_sampler set_linear_sampler destroy_sampler];
      rewrite ?Hd1;
      repeat first [ rewrite filter_cons_True by assumption
                   | rewrite filter_cons_False by (intros Hx; now apply Hx) ];
      rewrite ?filter_nil, ?app_nil_r, <- ?app_assoc; reflexivity.
  - destruct (Z.eqb_spec (m_point_sampler st1) VK_NULL_HANDLE) as [Hp0 | Hp0];
      cbn [negb m_linear_sampler set_point_sampler destroy_sampler];
      destruct (Z.eqb_spec (m_linear_sampler st1) VK_NULL_HANDLE) as [Hl0 | Hl0];
      cbn [negb m_point_sampler set_point_sampler set_linear_sampler destroy_sampler];
      auto.
  - destruct (Z.eqb_spec (m_point_sampler st1) VK_NULL_HANDLE) as [Hp0 | Hp0];
      cbn [negb m_linear_sampler set_point_sampler destroy_sampler];
      destruct (Z.eqb_spec (m_linear_sampler st1) VK_NULL_HANDLE) as [Hl0 | Hl0];
      cbn [negb m_linear_sampler set_point_sampler set_linear_sampler destroy_sampler];
      auto.
  - destruct Hlog as [(Hs & Hok & _) | Hs]; [left | right]; auto.
Qed.

End Facts.

Lemma CreateStaticSamplers_then_DestroySamplers_witness :
  destroy_log
    (DestroySamplers (SamplerDriver0 := counting_samplers)
       (snd (CreateStaticSamplers (SamplerDriver0 := counting_samplers)
               (no_samplers 0))))
    = [3000; 3001].
Proof.
  refine (eq_trans
            (proj1 (CreateStaticSamplers_then_DestroySamplers
                      (SamplerDriver0 := counting_samplers) (no_samplers 0)
                      eq_refl eq_refl eq_refl)) _).
  reflexivity.
Defined.

End SamplerLifetimeFacts.
